(** * skill_sense: the taxonomy-driven skill matching engine

    A shallow embedding of [app/services/skill_service.py],
    [app/services/job_matching_service.py], [app/skills/taxonomy.py] and the
    pydantic schemas they share, with the SAP export of
    [app/api/router/v1/skills.py] and the merge of
    [app/skills/download_esco.py], followed by the properties of the
    specification that concern them and by further properties of the code.

    Conventions of the embedding.
    - A Python [str] is a [string]; character tests ([lower], [isalpha],
      [isspace], the classes of the regular expressions) are those of Python on
      the ASCII range, and leave every other character alone.
    - A Python [int] offset is a [Z].
    - A Python [float] is an exact rational [Q]; [round(x, 2)] rounds the exact
      value to two decimals, ties to even.
    - A [dict] is an insertion-ordered association list ([Dict.t]); a [set]
      that is only iterated or tested for membership is a duplicate-free list
      in insertion order.
    - What lies outside the repository is passed in: fresh identifiers come
      from a supply [uuid4], an embedding is an opaque value with a
      similarity function, and the database is the pair of its two tables. *)

From Stdlib Require Import List String Ascii Bool Arith ZArith NArith QArith Qround Qminmax Lia.
From Stdlib Require Import Permutation Sorted.
From Stdlib Require Import Lqa.
Import ListNotations.

Set Warnings "-register-all".

Local Open Scope string_scope.
Local Open Scope list_scope.
Local Open Scope Z_scope.

(* ================================================================== *)
(** ** Decidable equality of keys *)

Class Eqb (K : Type) : Type := eqb : K -> K -> bool.

Class EqbSpec (K : Type) `{Eqb K} : Prop :=
  eqb_true_iff : forall x y : K, eqb x y = true <-> x = y.

#[export] Instance string_Eqb : Eqb string := String.eqb.
#[export] Instance Z_Eqb : Eqb Z := Z.eqb.

#[export] Instance pair_Eqb {A B} `{Eqb A} `{Eqb B} : Eqb (A * B) :=
  fun x y => eqb (fst x) (fst y) && eqb (snd x) (snd y).

Fixpoint list_eqb {A} `{Eqb A} (xs ys : list A) : bool :=
  match xs, ys with
  | [], [] => true
  | x :: xs', y :: ys' => eqb x y && list_eqb xs' ys'
  | _, _ => false
  end.

#[export] Instance list_Eqb {A} `{Eqb A} : Eqb (list A) := list_eqb.

(* ================================================================== *)
(** ** Python string primitives *)

Module Py.

Definition code (c : ascii) : N := N_of_ascii c.

Definition in_range (lo hi : N) (c : ascii) : bool :=
  ((lo <=? code c) && (code c <=? hi))%N.

Definition is_upper (c : ascii) : bool := in_range 65 90 c.
Definition is_az (c : ascii) : bool := in_range 97 122 c.
Definition is_digit (c : ascii) : bool := in_range 48 57 c.

(** [str.isalpha] on one character. *)
Definition isalpha (c : ascii) : bool := is_upper c || is_az c.

(** [str.isspace] on one character: TAB..CR, FS..US and the blank. *)
Definition isspace (c : ascii) : bool :=
  in_range 9 13 c || in_range 28 32 c.

Definition lower_char (c : ascii) : ascii :=
  if is_upper c then ascii_of_N (code c + 32) else c.

Definition upper_char (c : ascii) : ascii :=
  if is_az c then ascii_of_N (code c - 32) else c.

(** [s.lower()] *)
Fixpoint lower (s : string) : string :=
  match s with
  | EmptyString => EmptyString
  | String c s' => String (lower_char c) (lower s')
  end.

Fixpoint lstrip (s : string) : string :=
  match s with
  | EmptyString => EmptyString
  | String c s' => if isspace c then lstrip s' else s
  end.

Fixpoint rstrip (s : string) : string :=
  match s with
  | EmptyString => EmptyString
  | String c s' =>
      match rstrip s' with
      | EmptyString => if isspace c then EmptyString else String c EmptyString
      | r => String c r
      end
  end.

(** [s.strip()] *)
Definition strip (s : string) : string := rstrip (lstrip s).

(** [len(s)] *)
Definition len (s : string) : Z := Z.of_nat (String.length s).

(** [s[a:b]] for offsets [0 <= a]; the slice is clipped at the end of [s]
    and empty when [b <= a]. *)
Definition slice (a b : Z) (s : string) : string :=
  String.substring (Z.to_nat a) (Z.to_nat (b - a)) s.

(** [s[i]] for [0 <= i < len(s)]. *)
Definition get (i : Z) (s : string) : option ascii :=
  if i <? 0 then None else String.get (Z.to_nat i) s.

(** [s.startswith(p)] *)
Definition startswith (p s : string) : bool := String.prefix p s.

(** [needle in s] *)
Fixpoint contains (needle s : string) : bool :=
  String.prefix needle s ||
  match s with
  | EmptyString => false
  | String _ s' => contains needle s'
  end.

(** [s.replace(c, repl)] for a one-character [c]. *)
Fixpoint replace (c : ascii) (repl s : string) : string :=
  match s with
  | EmptyString => EmptyString
  | String x s' =>
      if Ascii.eqb x c then (repl ++ replace c repl s')%string
      else String x (replace c repl s')
  end.

(** [sep.join(parts)] *)
Definition join (sep : string) (parts : list string) : string :=
  String.concat sep parts.

(** [any(k in s for k in ks)] *)
Definition any_in (ks : list string) (s : string) : bool :=
  existsb (fun k => contains k s) ks.

(** [x in xs] for a collection kept as a list. *)
Definition mem {K} `{Eqb K} (x : K) (xs : list K) : bool :=
  existsb (eqb x) xs.

(** [xs.add(x)] for a set kept as a duplicate-free list in insertion
    order. *)
Definition set_add {K} `{Eqb K} (x : K) (xs : list K) : list K :=
  if mem x xs then xs else xs ++ [x].

(** [xs.update(ys)] *)
Definition set_update {K} `{Eqb K} (xs ys : list K) : list K :=
  fold_left (fun acc y => set_add y acc) ys xs.

(** [set(ys)] *)
Definition set_of {K} `{Eqb K} (ys : list K) : list K := set_update [] ys.

(** [xs.sort(key=...)]: a stable insertion sort.  [before y x] says that
    the key of [y] is strictly ahead of the key of [x]; elements whose keys
    are equal keep their order. *)
Section Sort.
Context {A : Type} (before : A -> A -> bool).

Fixpoint insert (x : A) (l : list A) : list A :=
  match l with
  | [] => [x]
  | y :: l' => if before y x then y :: insert x l' else x :: l
  end.

Definition sort (l : list A) : list A := fold_right insert [] l.
End Sort.

(** The order of Python on pairs of integers. *)
Definition pair_ltb (a b : Z * Z) : bool :=
  (fst a <? fst b) || ((fst a =? fst b) && (snd a <? snd b)).

End Py.

(* ================================================================== *)
(** ** Regular expressions

    The fragment of [re] the services use: literals and character classes,
    sequence, alternation, repetition of a class, and the word boundary
    [\b]. *)

Module Re.

Inductive t : Type :=
| Eps : t
| Chr : (ascii -> bool) -> t          (* one character of a class *)
| Seq : t -> t -> t
| Alt : t -> t -> t
| Rep : (ascii -> bool) -> t          (* [c*] for a class [c] *)
| Bnd : t.                            (* [\b] *)

Definition is_word (c : ascii) : bool :=
  Py.isalpha c || Py.is_digit c || Ascii.eqb c "_".

Definition word_before (prev : option ascii) : bool :=
  match prev with Some c => is_word c | None => false end.

Definition word_after (s : string) : bool :=
  match s with String c _ => is_word c | EmptyString => false end.

(** [run r prev pos s k]: match [r] at the head of [s], whose first
    character has offset [pos] and follows [prev], then hand what is left
    to [k].  The alternatives are tried in the order of Python's
    backtracking matcher: the left branch of [|] first, the longest
    repetition first. *)
Fixpoint run {A : Type} (r : t) (prev : option ascii) (pos : Z) (s : string)
         (k : option ascii -> Z -> string -> option A) : option A :=
  match r with
  | Eps => k prev pos s
  | Chr p =>
      match s with
      | String c s' => if p c then k (Some c) (pos + 1) s' else None
      | EmptyString => None
      end
  | Seq r1 r2 =>
      run r1 prev pos s (fun prev' pos' s' => run r2 prev' pos' s' k)
  | Alt r1 r2 =>
      match run r1 prev pos s k with
      | Some a => Some a
      | None => run r2 prev pos s k
      end
  | Rep p =>
      (fix rep (prev : option ascii) (pos : Z) (s : string) : option A :=
         let longer :=
           match s with
           | String c s' => if p c then rep (Some c) (pos + 1) s' else None
           | EmptyString => None
           end in
         match longer with
         | Some a => Some a
         | None => k prev pos s
         end) prev pos s
  | Bnd =>
      if xorb (word_before prev) (word_after s) then k prev pos s else None
  end.

(** The end offset of the match of [r] that starts at [pos], if any. *)
Definition match_here (r : t) (prev : option ascii) (pos : Z) (s : string)
  : option Z :=
  run r prev pos s (fun _ pos' _ => Some pos').

(** The span of the leftmost match at or after [pos]. *)
Fixpoint find_from (r : t) (prev : option ascii) (pos : Z) (s : string)
  : option (Z * Z) :=
  match match_here r prev pos s with
  | Some e => Some (pos, e)
  | None =>
      match s with
      | String c s' => find_from r (Some c) (pos + 1) s'
      | EmptyString => None
      end
  end.

(** [re.search(r, s)]: the span [(m.start(), m.end())] of the match. *)
Definition find (r : t) (s : string) : option (Z * Z) :=
  find_from r None 0 s.

(** [re.search(r, s) is not None] *)
Definition search (r : t) (s : string) : bool :=
  match find r s with Some _ => true | None => false end.

(** [re.finditer(r, s)]: the spans of the successive matches.  [skip]
    counts the characters of the last match still to be passed over. *)
Fixpoint finditer_from (r : t) (skip : nat) (prev : option ascii) (pos : Z)
         (s : string) : list (Z * Z) :=
  match skip with
  | S skip' =>
      match s with
      | String c s' => finditer_from r skip' (Some c) (pos + 1) s'
      | EmptyString => []
      end
  | O =>
      match match_here r prev pos s with
      | Some e =>
          (pos, e) ::
          match s with
          | String c s' =>
              finditer_from r (Z.to_nat (e - pos) - 1) (Some c) (pos + 1) s'
          | EmptyString => []
          end
      | None =>
          match s with
          | String c s' => finditer_from r O (Some c) (pos + 1) s'
          | EmptyString => []
          end
      end
  end.

Definition finditer (r : t) (s : string) : list (Z * Z) :=
  finditer_from r O None 0 s.

(** [re.IGNORECASE]: a class takes a character when it takes the
    character itself, its lower-case form or its upper-case form. *)
Definition fold_case (p : ascii -> bool) (c : ascii) : bool :=
  p c || p (Py.lower_char c) || p (Py.upper_char c).

Fixpoint ignorecase (r : t) : t :=
  match r with
  | Eps => Eps
  | Chr p => Chr (fold_case p)
  | Seq r1 r2 => Seq (ignorecase r1) (ignorecase r2)
  | Alt r1 r2 => Alt (ignorecase r1) (ignorecase r2)
  | Rep p => Rep (fold_case p)
  | Bnd => Bnd
  end.

(** Builders. *)
Definition chr (c : ascii) : t := Chr (Ascii.eqb c).
Definition opt (r : t) : t := Alt r Eps.
Definition plus (p : ascii -> bool) : t := Seq (Chr p) (Rep p).

Fixpoint lit (s : string) : t :=
  match s with
  | EmptyString => Eps
  | String c s' => Seq (chr c) (lit s')
  end.

Fixpoint alts (rs : list t) : t :=
  match rs with
  | [] => Chr (fun _ => false)
  | [r] => r
  | r :: rs' => Alt r (alts rs')
  end.

Fixpoint seqs (rs : list t) : t :=
  match rs with
  | [] => Eps
  | r :: rs' => Seq r (seqs rs')
  end.

Definition one_of (cs : string) (c : ascii) : bool :=
  existsb (Ascii.eqb c) (list_ascii_of_string cs).

Definition digit : ascii -> bool := Py.is_digit.     (* [\d] *)
Definition space : ascii -> bool := Py.isspace.      (* [\s] *)

End Re.

(* ================================================================== *)
(** ** Dictionaries

    A Python [dict]: keys in insertion order, assignment to a present key
    keeps its place. *)

Module Dict.

Definition t (K V : Type) : Type := list (K * V).

Section Ops.
Context {K : Type} `{Eqb K}.
Context {V : Type}.

(** [d.get(k)] *)
Fixpoint get (k : K) (d : t K V) : option V :=
  match d with
  | [] => None
  | (k', v) :: d' => if eqb k k' then Some v else get k d'
  end.

(** [d[k] = v] *)
Fixpoint set (k : K) (v : V) (d : t K V) : t K V :=
  match d with
  | [] => [(k, v)]
  | (k', v') :: d' =>
      if eqb k k' then (k', v) :: d' else (k', v') :: set k v d'
  end.

(** [d.setdefault(k, v)], for its effect on [d]. *)
Definition setdefault (k : K) (v : V) (d : t K V) : t K V :=
  match get k d with
  | Some _ => d
  | None => d ++ [(k, v)]
  end.

(** [k in d] *)
Definition mem (k : K) (d : t K V) : bool :=
  match get k d with Some _ => true | None => false end.

(** [d[k].append(v)] on a [defaultdict(list)]. *)
Definition append_to {A} (k : K) (v : A) (d : t K (list A)) : t K (list A) :=
  (fix go (d : t K (list A)) : t K (list A) :=
     match d with
     | [] => [(k, [v])]
     | (k', l) :: d' =>
         if eqb k k' then (k', l ++ [v]) :: d' else (k', l) :: go d'
     end) d.

(** [list(d.values())] *)
Definition values (d : t K V) : list V := map snd d.

(** [list(d.items())] *)
Definition items (d : t K V) : list (K * V) := d.
End Ops.

End Dict.

(* ================================================================== *)
(** ** [app/skills/taxonomy.py] *)

Module Taxonomy.

(** One record of [taxonomy_map.json].  The generator of that file writes
    [skill_name] and [category] in every record. *)
Record Mapping : Type := {
  skill_name : string;
  aliases : list string;
  esco_id : option string;
  category : string;
  skill_type : option string
}.

(** [TaxonomyMapper._taxonomy_map]: lower-cased name or alias to record.
    Each record carries its position in the source array, which stands for
    the identity [id(mapping)] of the Python object. *)
Definition TaxonomyMapper : Type := Dict.t string (nat * Mapping).

Definition index_mapping (m : TaxonomyMapper) (im : nat * Mapping)
  : TaxonomyMapper :=
  let m1 := Dict.set (Py.lower (skill_name (snd im))) im m in
  fold_left
    (fun acc a =>
       if String.eqb a "" then acc else Dict.set (Py.lower a) im acc)
    (aliases (snd im)) m1.

(** [TaxonomyMapper._load_taxonomy] on the records of the file. *)
Definition _load_taxonomy (mappings : list Mapping) : TaxonomyMapper :=
  fold_left index_mapping
    (combine (seq 0 (List.length mappings)) mappings) [].

(** [TaxonomyMapper.get_mapping] *)
Definition get_mapping (self : TaxonomyMapper) (name : string)
  : option Mapping :=
  option_map snd (Dict.get (Py.lower name) self).

(** [TaxonomyMapper.get_category] *)
Definition get_category (self : TaxonomyMapper) (name : string) : string :=
  match get_mapping self name with
  | Some m => category m
  | None => "technical"
  end.

(** [TaxonomyMapper.get_all_mappings]: the distinct records, in the order
    of the dictionary's values. *)
Definition get_all_mappings (self : TaxonomyMapper) : list Mapping :=
  let step (acc : list nat * list Mapping) (im : nat * Mapping) :=
    if existsb (Nat.eqb (fst im)) (fst acc) then acc
    else (fst acc ++ [fst im], snd acc ++ [snd im]) in
  snd (fold_left step (Dict.values self) ([], [])).

End Taxonomy.

(* ================================================================== *)
(** ** [app/schemas/pydantic/skill_profile.py] *)

Module Schema.

(** [EvidenceItem], with the fields the services read or write. *)
Record EvidenceItem : Type := {
  source : string;
  snippet : string;
  score : Q;
  offset : option Z;
  href : option string
}.

Inductive Status : Type := suggested | accepted | rejected | edited.

Record SkillItem : Type := {
  skill_id : option string;
  name : string;
  category : string;
  confidence : Q;
  evidence : list EvidenceItem;
  mapped_taxonomy_id : option string;
  manual_status : Status;
  edited_name : option string;
  tags : list string
}.

End Schema.

(* ================================================================== *)
(** ** [SkillMatcher] ([app/services/skill_service.py]) *)

Module SkillMatcher.

Record SkillEntry : Type := {
  canonical_name : string;
  alias : string;
  normalized : string;
  tokens : list string;
  esco_id : option string;
  category : string;
  skill_type : option string;
  requires_context : bool
}.

Record SkillMatch : Type := {
  entry : SkillEntry;
  start : Z;
  end_ : Z;
  matched_text : string;
  snippet : string
}.

(** *** Tokens

    [TOKEN_PATTERN = re.compile(r"[a-z0-9\+\#\.]+")]. *)
Definition token_char (c : ascii) : bool :=
  Py.is_az c || Py.is_digit c || Re.one_of "+#." c.

(** A match object of [TOKEN_PATTERN]: [group(0)], [start()], [end()]. *)
Record Token : Type := { group : string; t_start : Z; t_end : Z }.

(** [TOKEN_PATTERN.finditer]: the maximal runs of token characters, left
    to right, [pos] being the offset of the first character of [s]. *)
Fixpoint finditer_from (pos : Z) (s : string) : list Token :=
  match s with
  | EmptyString => []
  | String c s' =>
      if token_char c then
        match finditer_from (pos + 1) s' with
        | t :: ts =>
            if t_start t =? pos + 1
            then {| group := String c (group t);
                    t_start := pos; t_end := t_end t |} :: ts
            else {| group := String c EmptyString;
                    t_start := pos; t_end := pos + 1 |} :: t :: ts
        | [] => [ {| group := String c EmptyString;
                     t_start := pos; t_end := pos + 1 |} ]
        end
      else finditer_from (pos + 1) s'
  end.

Definition finditer (s : string) : list Token := finditer_from 0 s.

(** [TOKEN_PATTERN.findall] *)
Definition findall (s : string) : list string := map group (finditer s).

(** *** Class constants *)

Definition SHORT_TOKEN_WHITELIST : list string :=
  ["sql"; "aws"; "git"; "css"; "html"; "ux"; "ui"; "qa";
   "bi"; "sap"; "sas"; "etl"; "crm"].

Definition GENERIC_SINGLE_TOKENS : list string :=
  ["excel"; "word"; "office"; "drive"; "access"; "outlook"; "teams"].

(** token to ([keywords], [allow_list]) *)
Definition STRICT_CONTEXT_TERMS : Dict.t string (list string * bool) :=
  [ ("excel", (["microsoft"; "ms office"; "spreadsheet"], true));
    ("word", (["microsoft"; "ms office"; "document"], true));
    ("office", (["microsoft"; "ms office"; "suite"], true));
    ("drive", (["google"; "g suite"; "workspace"], true));
    ("access", (["microsoft"; "database"], true));
    ("outlook", (["microsoft"; "ms"], true));
    ("teams", (["microsoft"; "ms"], true));
    ("google", (["search"; "engine"; "seo"; "ads"; "results"; "query"], false));
    ("yahoo", (["search"; "engine"; "seo"], false));
    ("logic", (["formal logic"; "logical"; "boolean"; "symbolic";
                "circuit"; "predicate"], false));
    ("report", (["facts"; "write"; "writing"; "prepare"; "draft";
                 "document"; "statement"], false));
    ("source", (["game"; "engine"; "valve"; "hammer"; "sdk"], false)) ].

Definition GENERAL_CONTEXT_KEYWORDS : list string :=
  ["experience"; "experiences"; "skill"; "skills"; "skilled";
   "proficient"; "proficiency"; "knowledge"; "familiar"; "familiarity";
   "using"; "use"; "utilized"; "utilised"; "expertise"; "certified";
   "tools"; "technologies"; "technology"; "framework"; "frameworks";
   "stack"; "worked"; "hands-on"; "hands on"; "background"; "projects";
   "responsible for"; "competency"; "competencies"].

(** The two bullets are the UTF-8 forms of U+2022 and U+00B7. *)
Definition LIST_SYMBOLS : list string := ["•"; "·"; "-"; "*"].

Definition backslash : ascii := ascii_of_N 92.

(** [NEGATIVE_CONTEXT_PATTERNS["excel"]] is compiled from the raw literal
    [r"\\bexcel(?:led|s|ing)?\\s+(?:at|in)\\b"].  In a raw literal the two
    backslashes stay two characters, and [re] reads [\\] as an escaped
    backslash: the pattern asks for a backslash and the letter [b], then
    [excel] with its optional ending, a backslash, one or more [s], [at] or
    [in], a backslash and the letter [b]. *)
Definition excel_negative : Re.t :=
  Re.seqs
    [ Re.chr backslash; Re.chr "b"; Re.lit "excel";
      Re.opt (Re.alts [Re.lit "led"; Re.lit "s"; Re.lit "ing"]);
      Re.chr backslash; Re.plus (Ascii.eqb "s");
      Re.alts [Re.lit "at"; Re.lit "in"];
      Re.chr backslash; Re.chr "b" ].

Definition NEGATIVE_CONTEXT_PATTERNS : Dict.t string Re.t :=
  [ ("excel", excel_negative) ].

(** [r"\b(skills?|tools?|technologies?|stack):"] *)
Definition list_header : Re.t :=
  Re.seqs
    [ Re.Bnd;
      Re.alts [ Re.Seq (Re.lit "skill") (Re.opt (Re.chr "s"));
                Re.Seq (Re.lit "tool") (Re.opt (Re.chr "s"));
                Re.Seq (Re.lit "technologie") (Re.opt (Re.chr "s"));
                Re.lit "stack" ];
      Re.chr ":" ].

(** *** Building the index *)

(** [_generate_token_variants].  The Python sets are iterated here in
    insertion order. *)
Definition replacements : list (ascii * string) :=
  [ ("/"%char, " "); ("-"%char, " "); ("_"%char, " ");
    ("&"%char, " and "); ("+"%char, " plus ") ].

Definition has_char (c : ascii) (s : string) : bool :=
  Py.contains (String c EmptyString) s.

Definition _generate_token_variants (phrase : string) : list (list string) :=
  if String.eqb phrase "" then [] else
  let lower := Py.lower phrase in
  let variants :=
    fold_left
      (fun (variants : list string) (cr : ascii * string) =>
         let updated :=
           Py.set_of
             (map (Py.replace (fst cr) (snd cr))
                  (filter (has_char (fst cr)) variants)) in
         Py.set_update variants updated)
      replacements [lower] in
  let dotted_variants :=
    fold_left
      (fun (acc : list string) (variant : string) =>
         let acc := Py.set_add variant acc in
         if has_char "." variant
         then Py.set_add (Py.replace "." " " variant) acc
         else acc)
      variants [] in
  fold_left
    (fun (token_sets : list (list string)) (variant : string) =>
       let tokens := findall variant in
       match tokens with
       | [] => token_sets
       | _ => Py.set_add tokens token_sets
       end)
    dotted_variants [].

(** [_should_require_context] *)
Definition _should_require_context (tokens : list string) : bool :=
  if (1 <? Z.of_nat (List.length tokens)) then false else
  let token := hd "" tokens in
  if Py.mem token SHORT_TOKEN_WHITELIST then false
  else if Py.len token <=? 2 then true
  else if Dict.mem token STRICT_CONTEXT_TERMS then true
  else Py.mem token GENERIC_SINGLE_TOKENS.

(** The locals of [_build_index]. *)
Record Build : Type := {
  b_index : Dict.t string (list SkillEntry);
  b_normalized_lookup : Dict.t string SkillEntry;
  b_unique_entries : Dict.t (string * string) SkillEntry;
  b_max_tokens : Z
}.

(** The body of the innermost loop of [_build_index], for one token
    variant of one alias [phrase] of the record [m]. *)
Definition add_variant (m : Taxonomy.Mapping) (phrase : string)
           (st : Build) (tokens : list string) : Build :=
  let canonical := Taxonomy.skill_name m in
  let normalized := Py.join " " tokens in
  if String.eqb normalized "" then st else
  let key := (Py.lower canonical, normalized) in
  let '(entry, unique_entries, max_tokens) :=
    match Dict.get key (b_unique_entries st) with
    | Some entry => (entry, b_unique_entries st, b_max_tokens st)
    | None =>
        let entry :=
          {| canonical_name := canonical;
             alias := phrase;
             normalized := normalized;
             tokens := tokens;
             esco_id := Taxonomy.esco_id m;
             category := Taxonomy.category m;
             skill_type := Taxonomy.skill_type m;
             requires_context := _should_require_context tokens |} in
        (entry, Dict.set key entry (b_unique_entries st),
         Z.max (b_max_tokens st) (Z.of_nat (List.length tokens)))
    end in
  {| b_index := Dict.append_to (hd "" tokens) entry (b_index st);
     b_normalized_lookup :=
       Dict.setdefault normalized entry (b_normalized_lookup st);
     b_unique_entries := unique_entries;
     b_max_tokens := max_tokens |}.

Definition add_phrase (m : Taxonomy.Mapping) (st : Build) (phrase : string)
  : Build :=
  fold_left (add_variant m phrase) (_generate_token_variants phrase) st.

Definition add_mapping (st : Build) (m : Taxonomy.Mapping) : Build :=
  if String.eqb (Taxonomy.skill_name m) "" then st else
  fold_left (add_phrase m) (Taxonomy.skill_name m :: Taxonomy.aliases m) st.

Definition empty_build : Build :=
  {| b_index := []; b_normalized_lookup := [];
     b_unique_entries := []; b_max_tokens := 0 |}.

(** [_build_index], on [taxonomy_mapper.get_all_mappings()]. *)
Definition _build_index (mappings : list Taxonomy.Mapping) : Build :=
  fold_left add_mapping mappings empty_build.

(** A matcher: the cached index and the lower-cased exclusion set. *)
Record t : Type := {
  index : Dict.t string (list SkillEntry);
  normalized_lookup : Dict.t string SkillEntry;
  max_tokens : Z;
  excluded : list string
}.

(** [SkillMatcher.__init__] with an empty class cache. *)
Definition init (taxonomy_mapper : Taxonomy.TaxonomyMapper)
           (excluded : list string) : t :=
  let cache := _build_index (Taxonomy.get_all_mappings taxonomy_mapper) in
  {| index := b_index cache;
     normalized_lookup := b_normalized_lookup cache;
     max_tokens := b_max_tokens cache;
     excluded := Py.set_of (map Py.lower excluded) |}.

(** [SkillMatcher.shared]: [_shared_instance] is threaded explicitly. *)
Definition shared (_shared_instance : option t)
           (taxonomy_mapper : Taxonomy.TaxonomyMapper)
           (excluded : list string) : t :=
  match _shared_instance with
  | None => init taxonomy_mapper excluded
  | Some inst =>
      {| index := index inst;
         normalized_lookup := normalized_lookup inst;
         max_tokens := max_tokens inst;
         excluded :=
           Py.set_update (SkillMatcher.excluded inst) (map Py.lower excluded) |}
  end.

(** *** Context validation *)

(** [_extract_context], with [radius = 60]. *)
Definition _extract_context (text : string) (start end_ : Z) : string :=
  let radius := 60 in
  let snippet_start := Z.max 0 (start - radius) in
  let snippet_end := Z.min (Py.len text) (end_ + radius) in
  Py.slice snippet_start snippet_end text.

(** [_is_list_context] *)
Definition _is_list_context (snippet snippet_lower : string) : bool :=
  let stripped := Py.strip snippet in
  if existsb (fun symbol => Py.startswith symbol stripped) LIST_SYMBOLS
  then true
  else if existsb (fun symbol => Py.contains symbol snippet) LIST_SYMBOLS
  then true
  else Re.search list_header snippet_lower.

(** [_has_positive_context] *)
Definition _has_positive_context (snippet snippet_lower : string) : bool :=
  if Py.any_in GENERAL_CONTEXT_KEYWORDS snippet_lower then true
  else _is_list_context snippet snippet_lower.

(** [context_is_valid] *)
Definition context_is_valid (entry : SkillEntry) (snippet : string) : bool :=
  let snippet_lower := Py.lower snippet in
  if requires_context entry then
    let token := hd "" (tokens entry) in
    match Dict.get token STRICT_CONTEXT_TERMS with
    | Some (keywords, allow_list) =>
        let has_keyword := Py.any_in keywords snippet_lower in
        if negb has_keyword && negb allow_list then false
        else if negb has_keyword
                && negb (_is_list_context snippet snippet_lower) then false
        else
          match Dict.get token NEGATIVE_CONTEXT_PATTERNS with
          | Some negative =>
              if Re.search negative snippet_lower then false else true
          | None => true
          end
    | None =>
        if negb (_has_positive_context snippet snippet_lower) then false
        else true
    end
  else true.

(** [has_positive_context] *)
Definition has_positive_context (snippet : string) : bool :=
  _has_positive_context snippet (Py.lower snippet).

(** *** Scanning *)

(** [_spans_overlap] *)
Definition _spans_overlap (first second : SkillMatch) : bool :=
  negb ((end_ first <=? start second) || (start first >=? end_ second)).

(** The two accumulators of the scanning loop of [match]. *)
Record Scan : Type := {
  raw_matches : list SkillMatch;
  seen_spans : list (string * (Z * Z))
}.

(** The body of the loop over the candidate entries of the token at
    position [idx]. *)
Definition try_candidate (self : t) (text : string)
           (token_matches : list Token) (idx : nat)
           (st : Scan) (entry : SkillEntry) : Scan :=
  let total_tokens := List.length token_matches in
  let length := List.length (tokens entry) in
  if (total_tokens <? idx + length)%nat then st else
  let window := firstn length (skipn idx token_matches) in
  let normalized_candidate := Py.join " " (map group window) in
  if negb (String.eqb normalized_candidate (normalized entry)) then st else
  match window with
  | [] => st
  | first :: _ =>
      let start := t_start first in
      let end_ := t_end (last window first) in
      let canonical_lower := Py.lower (canonical_name entry) in
      if Py.mem canonical_lower (excluded self)
         || Py.mem (normalized entry) (excluded self) then st else
      let span_key := (canonical_lower, (start, end_)) in
      if Py.mem span_key (seen_spans st) then st else
      let snippet := _extract_context text start end_ in
      if negb (context_is_valid entry snippet) then st else
      {| raw_matches :=
           raw_matches st ++
           [ {| entry := entry; start := start; end_ := end_;
                matched_text := Py.slice start end_ text;
                snippet := snippet |} ];
         seen_spans := Py.set_add span_key (seen_spans st) |}
  end.

Definition scan_token (self : t) (text : string)
           (token_matches : list Token)
           (st : Scan) (it : nat * Token) : Scan :=
  match Dict.get (group (snd it)) (index self) with
  | None => st
  | Some candidates =>
      fold_left (try_candidate self text token_matches (fst it))
                candidates st
  end.

(** The raw matches of [match], before overlaps are resolved. *)
Definition collect_raw_matches (self : t) (text : string) : list SkillMatch :=
  let text_lower := Py.lower text in
  let token_matches := finditer text_lower in
  raw_matches
    (fold_left (scan_token self text token_matches)
               (combine (seq 0 (List.length token_matches)) token_matches)
               {| raw_matches := []; seen_spans := [] |}).

(** [key=lambda m: (len(m.entry.tokens), m.end - m.start)] *)
Definition specificity (m : SkillMatch) : Z * Z :=
  (Z.of_nat (List.length (tokens (entry m))), end_ m - start m).

(** [raw_matches.sort(key=specificity, reverse=True)] *)
Definition sort_by_specificity (l : list SkillMatch) : list SkillMatch :=
  Py.sort (fun y x => Py.pair_ltb (specificity x) (specificity y)) l.

(** The loop that fills [filtered]. *)
Definition keep_disjoint (filtered : list SkillMatch) (m : SkillMatch)
  : list SkillMatch :=
  if existsb (fun existing => _spans_overlap m existing) filtered
  then filtered
  else filtered ++ [m].

Definition resolve_overlaps (sorted : list SkillMatch) : list SkillMatch :=
  fold_left keep_disjoint sorted [].

(** [filtered.sort(key=lambda m: m.start)] *)
Definition sort_by_start (l : list SkillMatch) : list SkillMatch :=
  Py.sort (fun y x => start y <? start x) l.

(** [SkillMatcher.match] *)
Definition match_ (self : t) (text : string) : list SkillMatch :=
  if String.eqb text "" then [] else
  match finditer (Py.lower text) with
  | [] => []
  | _ =>
      match collect_raw_matches self text with
      | [] => []
      | raw => sort_by_start (resolve_overlaps (sort_by_specificity raw))
      end
  end.

(** [SkillMatcher.resolve_phrase] *)
Fixpoint first_resolved (self : t) (variants : list (list string))
  : option SkillEntry :=
  match variants with
  | [] => None
  | tokens :: rest =>
      let normalized := Py.join " " tokens in
      match Dict.get normalized (normalized_lookup self) with
      | Some entry =>
          if negb (Py.mem (Py.lower (canonical_name entry)) (excluded self))
          then Some entry
          else first_resolved self rest
      | None => first_resolved self rest
      end
  end.

Definition resolve_phrase (self : t) (phrase : string) : option SkillEntry :=
  if String.eqb phrase "" then None
  else first_resolved self (_generate_token_variants phrase).

End SkillMatcher.

(* ================================================================== *)
(** ** Numbers *)

Module Num.

Local Open Scope Q_scope.

(** [round(x)] to an integer: the nearest one, the even one on a tie. *)
Definition round_half_even (x : Q) : Z :=
  let f := Qfloor x in
  match Qcompare (x - inject_Z f) (1 # 2) with
  | Lt => f
  | Gt => (f + 1)%Z
  | Eq => if Z.even f then f else (f + 1)%Z
  end.

(** [round(x, 2)] *)
Definition round2 (x : Q) : Q := inject_Z (round_half_even (x * 100)) / 100.

(** [sum(xs)] *)
Definition sum (xs : list Q) : Q := fold_left Qplus xs 0.

(** [max(xs)] for a non-empty list. *)
Definition maximum (xs : list Q) : Q :=
  match xs with
  | [] => 0
  | x :: xs' => fold_left Qmax xs' x
  end.

Definition of_nat (n : nat) : Q := inject_Z (Z.of_nat n).

(** [x < y] *)
Definition ltb (x y : Q) : bool :=
  match Qcompare x y with Lt => true | _ => false end.

End Num.

(* ================================================================== *)
(** ** [SkillExtractionService] ([app/services/skill_service.py]) *)

Module SkillExtractionService.

Import Schema.
Local Open Scope Q_scope.

(** The attributes set by [__init__]. *)
Record t : Type := {
  taxonomy_mapper : Taxonomy.TaxonomyMapper;
  skill_matcher : SkillMatcher.t
}.

Definition excluded_skills : list string := ["r"; "code"].

Definition minimum_confidence : Q := 0.55.

Definition structured_label_stopwords : list string :=
  ["skills"; "technical skills"; "programming skills"; "soft skills";
   "programming languages"; "languages"; "professional skills"; "tools";
   "tooling"; "frameworks"; "competencies"; "certifications"; "summary";
   "professional summary"; "profile"; "experience"; "work experience";
   "projects"].

(** [__init__]; [_shared_instance] is the shared matcher built so far. *)
Definition init (_shared_instance : option SkillMatcher.t)
           (mapper : Taxonomy.TaxonomyMapper) : t :=
  {| taxonomy_mapper := mapper;
     skill_matcher :=
       SkillMatcher.shared _shared_instance mapper excluded_skills |}.

(** *** Validation of a text match *)

Definition az09 (extra : string) (c : ascii) : bool :=
  Py.is_az c || Py.is_digit c || Re.one_of extra c.

(** [r'[a-z0-9-]+\.(com|io|org|net|dev|app)'], [re.IGNORECASE] *)
Definition url_pattern : Re.t :=
  Re.ignorecase
    (Re.seqs
       [ Re.plus (az09 "-"); Re.chr ".";
         Re.alts [ Re.lit "com"; Re.lit "io"; Re.lit "org";
                   Re.lit "net"; Re.lit "dev"; Re.lit "app" ] ]).

(** [r'[a-z0-9._%+-]+@[a-z0-9.-]+\.[a-z]{2,}'], [re.IGNORECASE] *)
Definition email_pattern : Re.t :=
  Re.ignorecase
    (Re.seqs
       [ Re.plus (az09 "._%+-"); Re.chr "@"; Re.plus (az09 ".-");
         Re.chr "."; Re.Chr Py.is_az; Re.plus Py.is_az ]).

(** [text[i].isalpha()]; the index is within [text] wherever the code
    evaluates it on a span with [start <= end]. *)
Definition isalpha_at (text : string) (i : Z) : bool :=
  match Py.get i text with
  | Some c => Py.isalpha c
  | None => false
  end.

(** [x or y] on an optional and a plain string. *)
Definition or_else (x : option string) (y : string) : string :=
  match x with
  | Some s => if String.eqb s "" then y else s
  | None => y
  end.

(** [_validate_skill_match]; [skill_entry] is not read. *)
Definition _validate_skill_match (text : string) (start end_ : Z)
           (skill_name : string) (matched_text : option string) : bool :=
  if String.eqb skill_name "" then false
  else if (start <? 0)%Z || (end_ >? Py.len text)%Z then false
  else
    let context_start := Z.max 0 (start - 24) in
    let context_end := Z.min (Py.len text) (end_ + 24) in
    let context := Py.slice context_start context_end text in
    if Re.search url_pattern context then false
    else if Re.search email_pattern context then false
    else
      let target := Py.strip (or_else matched_text skill_name) in
      if String.eqb target "" then false
      else if (Py.len target <=? 3)%Z
              && (((start >? 0)%Z && isalpha_at text (start - 1))
                  || ((end_ <? Py.len text)%Z && isalpha_at text end_))
      then false
      else true.

(** *** Scoring *)

(** [r'\d+\+?\s*years?'], [r'years?\s+of\s+experience'],
    [r'\d+\+?\s*yrs?'] *)
Definition year_patterns : list Re.t :=
  [ Re.seqs [ Re.plus Re.digit; Re.opt (Re.chr "+"); Re.Rep Re.space;
              Re.lit "year"; Re.opt (Re.chr "s") ];
    Re.seqs [ Re.lit "year"; Re.opt (Re.chr "s"); Re.plus Re.space;
              Re.lit "of"; Re.plus Re.space; Re.lit "experience" ];
    Re.seqs [ Re.plus Re.digit; Re.opt (Re.chr "+"); Re.Rep Re.space;
              Re.lit "yr"; Re.opt (Re.chr "s") ] ].

Definition strong_contexts : list string :=
  ["experience with"; "experience in"; "proficient in"; "expert in";
   "skilled in"; "worked with"; "developed using"; "built with";
   "implemented"; "implementing"; "specialized in"; "knowledge of";
   "familiar with"; "strong knowledge"; "hands-on experience";
   "extensive experience"; "programming languages:"; "technologies:";
   "skills:"; "technical skills:"].

Definition achievement_words : list string :=
  ["project"; "developed"; "built"; "created"; "designed";
   "architected"; "implemented"; "delivered"; "launched"].

Definition list_indicators : list string := ["•"; "·"; ";"; " - "; ", "].

Definition weak_contexts : list string := ["including"; "such as"; "like"; "etc"].

(** [_score_evidence] *)
Definition _score_evidence (snippet skill_name source : string)
           (skill_entry : option SkillMatcher.SkillEntry) : Q :=
  let snippet_lower := Py.lower snippet in
  let target_lower := Py.lower skill_name in
  let score := if String.eqb source "structured" then 0.85 else 0.45 in
  let score :=
    if String.eqb source "resume"
       && SkillMatcher.has_positive_context snippet
    then score + 0.2 else score in
  let score :=
    if existsb (fun pattern =>
                  Re.search pattern snippet_lower
                  && Py.contains target_lower snippet_lower)
               year_patterns
    then score + 0.2 else score in
  let score :=
    if Py.any_in strong_contexts snippet_lower then score + 0.2 else score in
  let score :=
    if Py.any_in achievement_words snippet_lower
    then score + 0.12 else score in
  let score :=
    if Py.any_in list_indicators snippet then score + 0.1 else score in
  let score :=
    if Py.any_in weak_contexts snippet_lower then score - 0.05 else score in
  let score :=
    match skill_entry with
    | Some e =>
        if SkillMatcher.requires_context e && String.eqb source "resume"
        then score + 0.05 else score
    | None => score
    end in
  Qmin 1 (Qmax 0 score).

(** [_calculate_confidence].  [score] is a required field of
    [EvidenceItem], so no score is [None] and [quality_scores] holds every
    score. *)
Definition _calculate_confidence (evidence : list EvidenceItem) : Q :=
  match evidence with
  | [] => 0
  | _ =>
      let freq_score :=
        Qmin 1 (0.4 + (Num.of_nat (List.length evidence) - 1) * 0.2) in
      let quality_scores := map score evidence in
      match quality_scores with
      | [] => 0
      | _ =>
          let max_quality := Num.maximum quality_scores in
          let avg_quality :=
            Num.sum quality_scores
            / Num.of_nat (List.length quality_scores) in
          let combined_quality := 0.65 * max_quality + 0.35 * avg_quality in
          let sources :=
            Py.set_of
              (filter (fun s => negb (String.eqb s "")) (map source evidence)) in
          let diversity_score :=
            match sources with
            | [] => 0
            | _ => Qmin 1 (Num.of_nat (List.length sources) / 3)
            end in
          let confidence :=
            0.2 * freq_score + 0.7 * combined_quality + 0.1 * diversity_score in
          Num.round2 (Qmin 1 (Qmax 0 confidence))
      end
  end.

(** *** Collecting evidence *)

(** The structured resume data: what [json] yields. *)
Inductive Json : Type :=
| JNull : Json
| JBool : bool -> Json
| JNum : Q -> Json
| JStr : string -> Json
| JList : list Json -> Json
| JDict : list (string * Json) -> Json.

(** [_iter_skill_strings] *)
Fixpoint _iter_skill_strings (data : Json) : list string :=
  let skills :=
    match data with
    | JStr s =>
        let value := Py.strip s in
        if negb (String.eqb value "")
           && negb (Py.mem (Py.lower value) structured_label_stopwords)
        then [value] else []
    | JList items =>
        (fix extend (items : list Json) : list string :=
           match items with
           | [] => []
           | item :: rest => _iter_skill_strings item ++ extend rest
           end) items
    | JDict fields =>
        (fix extend (fields : list (string * Json)) : list string :=
           match fields with
           | [] => []
           | (_, value) :: rest => _iter_skill_strings value ++ extend rest
           end) fields
    | _ => []
    end in
  Py.set_of skills.

(** One value of [skills_dict] in [_extract_skills]. *)
Record SkillData : Type := {
  sd_name : string;
  sd_evidence : list EvidenceItem;
  sd_matched_terms : list string;
  sd_category : option string
}.

Definition truthy (x : option string) : bool :=
  match x with
  | Some s => negb (String.eqb s "")
  | None => false
  end.

(** [_add_or_update_skill]: the new [skills_dict]. *)
Definition _add_or_update_skill (self : t)
           (skills_dict : Dict.t string SkillData)
           (skill_name full_text : string) (start end_ : Z) (source : string)
           (skill_entry : option SkillMatcher.SkillEntry)
           (matched_text snippet_override : option string)
           (validate : bool) : Dict.t string SkillData :=
  let canonical_name :=
    Py.strip match skill_entry with
             | Some e => SkillMatcher.canonical_name e
             | None => skill_name
             end in
  if String.eqb canonical_name "" then skills_dict else
  let skill_key := Py.lower canonical_name in
  if Py.mem skill_key excluded_skills then skills_dict else
  let target_text := Py.strip (or_else matched_text canonical_name) in
  if validate
     && negb (_validate_skill_match full_text start end_ target_text
                                    matched_text)
  then skills_dict else
  let snippet :=
    match snippet_override with
    | Some s => s
    | None =>
        Py.strip (Py.slice (Z.max 0 (start - 60))
                           (Z.min (Py.len full_text) (end_ + 60)) full_text)
    end in
  let snippet := if String.eqb snippet "" then target_text else snippet in
  let invalid_context :=
    match skill_entry with
    | Some e =>
        String.eqb source "resume"
        && negb (SkillMatcher.context_is_valid e snippet)
    | None => false
    end in
  if invalid_context then skills_dict else
  let score := _score_evidence snippet canonical_name source skill_entry in
  let evidence :=
    {| source := source; snippet := snippet; score := score;
       offset := if validate then Some start else None;
       href := None |} in
  let entry :=
    match Dict.get skill_key skills_dict with
    | Some entry => entry
    | None =>
        {| sd_name := canonical_name; sd_evidence := [];
           sd_matched_terms := [];
           sd_category := option_map SkillMatcher.category skill_entry |}
    end in
  let existing_snippets := map Schema.snippet (sd_evidence entry) in
  let entry :=
    {| sd_name := sd_name entry;
       sd_evidence :=
         if Py.mem snippet existing_snippets then sd_evidence entry
         else sd_evidence entry ++ [evidence];
       sd_matched_terms := Py.set_add target_text (sd_matched_terms entry);
       sd_category :=
         match skill_entry with
         | Some e =>
             if truthy (sd_category entry) then sd_category entry
             else Some (SkillMatcher.category e)
         | None => sd_category entry
         end |} in
  Dict.set skill_key entry skills_dict.

(** The first loop of [_extract_skills]: the matches of the resume text. *)
Definition add_text_match (self : t) (resume_text : string)
           (skills_dict : Dict.t string SkillData)
           (m : SkillMatcher.SkillMatch) : Dict.t string SkillData :=
  _add_or_update_skill self skills_dict
    (SkillMatcher.canonical_name (SkillMatcher.entry m))
    resume_text (SkillMatcher.start m) (SkillMatcher.end_ m) "resume"
    (Some (SkillMatcher.entry m)) (Some (SkillMatcher.matched_text m))
    (Some (SkillMatcher.snippet m)) true.

(** The second loop: the strings of [processed_data["skills"]]. *)
Definition add_structured (self : t) (resume_text : string)
           (skills_dict : Dict.t string SkillData)
           (skill : string) : Dict.t string SkillData :=
  match SkillMatcher.resolve_phrase (skill_matcher self) skill with
  | None => skills_dict
  | Some entry =>
      _add_or_update_skill self skills_dict
        (SkillMatcher.canonical_name entry)
        resume_text 0%Z 0%Z "structured"
        (Some entry) (Some skill) (Some skill) false
  end.

(** The evidence map of [_extract_skills], before thresholding. *)
Definition collect_evidence (self : t) (resume_text : string)
           (processed_data : option (Dict.t string Json))
  : Dict.t string SkillData :=
  let skills_dict :=
    fold_left (add_text_match self resume_text)
              (SkillMatcher.match_ (skill_matcher self) resume_text) [] in
  match processed_data with
  | Some ((_ :: _) as fields) =>
      let data :=
        match Dict.get "skills" fields with
        | Some d => d
        | None => JNull
        end in
      fold_left (add_structured self resume_text)
                (_iter_skill_strings data) skills_dict
  | _ => skills_dict
  end.

(** The body of the loop that builds [skills_list]; [uuid4] is the supply
    of fresh identifiers, the item appended at position [n] draws
    [uuid4 n]. *)
Definition add_skill_item (self : t) (uuid4 : nat -> string)
           (skills_list : list SkillItem) (kv : string * SkillData)
  : list SkillItem :=
  let '(skill_key, skill_data) := kv in
  let confidence := _calculate_confidence (sd_evidence skill_data) in
  if Num.ltb confidence minimum_confidence then skills_list else
  let mapping :=
    match Taxonomy.get_mapping (taxonomy_mapper self) (sd_name skill_data) with
    | Some m => Some m
    | None => Taxonomy.get_mapping (taxonomy_mapper self) skill_key
    end in
  skills_list ++
  [ {| skill_id := Some (uuid4 (List.length skills_list));
       name := match mapping with
               | Some m => Taxonomy.skill_name m
               | None => sd_name skill_data
               end;
       category := match mapping with
                   | Some m => Taxonomy.category m
                   | None => or_else (sd_category skill_data) "technical"
                   end;
       confidence := confidence;
       evidence := sd_evidence skill_data;
       mapped_taxonomy_id :=
         match mapping with
         | Some m => Taxonomy.esco_id m
         | None => None
         end;
       manual_status := suggested;
       edited_name := None;
       tags := Py.sort String.ltb (sd_matched_terms skill_data) |} ].

(** [skills_list.sort(key=lambda x: x.confidence, reverse=True)] *)
Definition sort_by_confidence (l : list SkillItem) : list SkillItem :=
  Py.sort (fun y x => Num.ltb (confidence x) (confidence y)) l.

(** [_extract_skills] *)
Definition _extract_skills (self : t) (uuid4 : nat -> string)
           (resume_text : string)
           (processed_data : option (Dict.t string Json))
  : list SkillItem :=
  let skills_dict := collect_evidence self resume_text processed_data in
  sort_by_confidence
    (fold_left (add_skill_item self uuid4) (Dict.items skills_dict) []).

(** *** Merging with the skills of an external profile *)

(** [x or y] on two optional strings. *)
Definition or_opt (x y : option string) : option string :=
  if truthy x then x else y.

(** The body of the second loop of [_merge_skills]. *)
Definition merge_one (skills_dict : Dict.t string SkillItem)
           (github_skill : SkillItem) : Dict.t string SkillItem :=
  let key := Py.lower (name github_skill) in
  match Dict.get key skills_dict with
  | Some existing_skill =>
      let merged_evidence :=
        evidence existing_skill ++ evidence github_skill in
      Dict.set key
        {| skill_id := skill_id existing_skill;
           name := name existing_skill;
           category := category existing_skill;
           confidence :=
             Qmax (confidence existing_skill) (confidence github_skill);
           evidence := merged_evidence;
           mapped_taxonomy_id :=
             or_opt (mapped_taxonomy_id existing_skill)
                    (mapped_taxonomy_id github_skill);
           manual_status := manual_status existing_skill;
           edited_name := None;
           tags := Py.set_of (tags existing_skill ++ tags github_skill) |}
        skills_dict
  | None => Dict.set key github_skill skills_dict
  end.

(** [_merge_skills] *)
Definition _merge_skills (resume_skills github_skills : list SkillItem)
  : list SkillItem :=
  let skills_dict :=
    fold_left (fun d skill => Dict.set (Py.lower (name skill)) skill d)
              resume_skills [] in
  Dict.values (fold_left merge_one github_skills skills_dict).

(** *** Lifecycle actions *)

(** [SkillActionRequest] *)
Record SkillActionRequest : Type := {
  req_profile_id : string;
  req_skill_name : string;
  req_action : string;
  req_edited_name : option string;
  req_edited_category : option string
}.

(** A row of [skill_profiles]; [skills] is the JSON array of dumped
    [SkillItem]s. *)
Record SkillProfile : Type := {
  profile_id : string;
  resume_id : string;
  skills : list SkillItem
}.

(** A row of [skill_audit_logs]. *)
Record SkillAuditLog : Type := {
  log_profile_id : string;
  log_skill_name : string;
  log_action : string;
  previous_value : SkillItem;
  new_value : SkillItem
}.

(** The two tables behind the session [self.db]. *)
Record Database : Type := {
  skill_profiles : list SkillProfile;
  skill_audit_logs : list SkillAuditLog
}.

(** [select(SkillProfile).where(profile_id == id)], then
    [scalar_one_or_none()]; [profile_id] is a unique column. *)
Definition select_profile (db : Database) (id : string)
  : option SkillProfile :=
  find (fun p => String.eqb (profile_id p) id) (skill_profiles db).

(** [update(SkillProfile).where(profile_id == id).values(skills=...)] *)
Definition update_skills (db : Database) (id : string)
           (new_skills : list SkillItem) : Database :=
  {| skill_profiles :=
       map (fun p =>
              if String.eqb (profile_id p) id
              then {| profile_id := profile_id p;
                      resume_id := resume_id p;
                      skills := new_skills |}
              else p)
           (skill_profiles db);
     skill_audit_logs := skill_audit_logs db |}.

(** The search loop of [update_skill_action]: the first index whose name
    is the requested one, letter case apart, with [skills[skill_index]]. *)
Fixpoint find_skill_index (skills : list SkillItem) (skill_name : string)
         (i : nat) : option (nat * SkillItem) :=
  match skills with
  | [] => None
  | skill :: rest =>
      if String.eqb (Py.lower (name skill)) (Py.lower skill_name)
      then Some (i, skill)
      else find_skill_index rest skill_name (S i)
  end.

Definition with_status (s : SkillItem) (st : Status) (new_name : option string)
           (new_category : string) : SkillItem :=
  {| skill_id := skill_id s; name := name s; category := new_category;
     confidence := confidence s; evidence := evidence s;
     mapped_taxonomy_id := mapped_taxonomy_id s; manual_status := st;
     edited_name := new_name; tags := tags s |}.

(** [skills[i] = v] for an index within the list. *)
Fixpoint list_set {A} (i : nat) (v : A) (l : list A) : list A :=
  match l, i with
  | [], _ => []
  | _ :: l', O => v :: l'
  | x :: l', S i' => x :: list_set i' v l'
  end.

Definition quoted (prefix skill_name suffix : string) : string :=
  (prefix ++ "'" ++ skill_name ++ "'" ++ suffix)%string.

(** [update_skill_action]: the database afterwards and the returned
    triple [(success, message, updated_skill)]. *)
Definition update_skill_action (db : Database) (request : SkillActionRequest)
  : Database * (bool * string * option SkillItem) :=
  match select_profile db (req_profile_id request) with
  | None => (db, (false, "Profile not found", None))
  | Some profile =>
      let skills := SkillExtractionService.skills profile in
      match find_skill_index skills (req_skill_name request) 0 with
      | None =>
          (db, (false,
                quoted "Skill " (req_skill_name request) " not found in profile",
                None))
      | Some (skill_index, previous_state) =>
              let applied :=
                if String.eqb (req_action request) "accept" then
                  Some (with_status previous_state accepted
                                    (edited_name previous_state)
                                    (category previous_state),
                        quoted "Skill " (req_skill_name request) " accepted")
                else if String.eqb (req_action request) "reject" then
                  Some (with_status previous_state rejected
                                    (edited_name previous_state)
                                    (category previous_state),
                        quoted "Skill " (req_skill_name request) " rejected")
                else if String.eqb (req_action request) "edit" then
                  Some (with_status previous_state edited
                          (if truthy (req_edited_name request)
                           then req_edited_name request
                           else edited_name previous_state)
                          (if truthy (req_edited_category request)
                           then or_else (req_edited_category request) ""
                           else category previous_state),
                        quoted "Skill " (req_skill_name request) " edited")
                else None in
              match applied with
              | None =>
                  (db, (false,
                        ("Invalid action: " ++ req_action request)%string,
                        None))
              | Some (new_state, message) =>
                  let skills := list_set skill_index new_state skills in
                  let db := update_skills db (req_profile_id request) skills in
                  let audit_log :=
                    {| log_profile_id := req_profile_id request;
                       log_skill_name := req_skill_name request;
                       log_action := req_action request;
                       previous_value := previous_state;
                       new_value := new_state |} in
                  ({| skill_profiles := skill_profiles db;
                      skill_audit_logs := skill_audit_logs db ++ [audit_log] |},
                   (true, message, Some new_state))
              end
      end
  end.

End SkillExtractionService.

(* ================================================================== *)
(** ** [JobMatchingService] ([app/services/job_matching_service.py]) *)

Module JobMatchingService.

Import Schema.
Local Open Scope Q_scope.

Record MatchedSkill : Type := {
  ms_name : string;
  ms_score : Q;
  ms_category : string;
  ms_confidence : Q
}.

Record MissingSkill : Type := {
  gap_name : string;
  estimated_gap : Q;
  gap_category : string;
  from_job_section : option string
}.

Record JobMatchRequest : Type := {
  req_profile_id : string;
  job_text : string;
  top_k : nat
}.

Record JobMatchResponse : Type := {
  match_score : Q;
  matched_skills : list MatchedSkill;
  missing_skills : list MissingSkill;
  recommendations : list string
}.

(** *** Mentions of skills in the job text *)

Definition word (alternatives : list Re.t) : Re.t :=
  Re.ignorecase (Re.seqs [Re.Bnd; Re.alts alternatives; Re.Bnd]).

(** [Vue\.?js] and the like. *)
Definition dot_js (stem : string) : Re.t :=
  Re.seqs [Re.lit stem; Re.opt (Re.chr "."); Re.lit "js"].

Definition patterns : list Re.t :=
  [ word (map Re.lit ["Python"; "JavaScript"; "TypeScript"; "Java"; "C++";
                      "Ruby"; "Go"; "Rust"; "Swift"; "Kotlin"]);
    word [ Re.lit "React"; Re.lit "Angular"; dot_js "Vue"; dot_js "Next";
           dot_js "Node"; Re.lit "Express"; Re.lit "Django"; Re.lit "Flask";
           Re.lit "FastAPI" ];
    word (map Re.lit ["AWS"; "Azure"; "GCP"; "Docker"; "Kubernetes";
                      "Jenkins"; "GitLab"; "CircleCI"]);
    word (map Re.lit ["SQL"; "PostgreSQL"; "MySQL"; "MongoDB"; "Redis";
                      "Elasticsearch"]);
    word (map Re.lit ["Machine Learning"; "Deep Learning"; "NLP";
                      "Computer Vision"; "Data Science"]);
    word (map Re.lit ["TensorFlow"; "PyTorch"; "Scikit-learn"; "Keras";
                      "Pandas"; "NumPy"]);
    word (map Re.lit ["Git"; "Agile"; "Scrum"; "DevOps"; "CI/CD";
                      "Microservices"; "RESTful API"]) ].

Definition plural (stem : string) : Re.t :=
  Re.Seq (Re.lit stem) (Re.opt (Re.chr "s")).

(** [r'(requirements?|qualifications?|skills?):'] *)
Definition req_header : Re.t :=
  Re.Seq (Re.alts [plural "requirement"; plural "qualification"; plural "skill"])
         (Re.chr ":").

(** [r'(responsibilities?|duties?):'] *)
Definition resp_header : Re.t :=
  Re.Seq (Re.alts [plural "responsibilitie"; plural "dutie"]) (Re.chr ":").

(** [_split_into_sections] *)
Definition _split_into_sections (job_text : string) : Dict.t string string :=
  let text_lower := Py.lower job_text in
  let req_match := option_map fst (Re.find req_header text_lower) in
  let resp_match := option_map fst (Re.find resp_header text_lower) in
  let requirements :=
    match req_match with
    | Some start =>
        let end_ :=
          match resp_match with
          | Some r => if (r >? start)%Z then r else Py.len job_text
          | None => Py.len job_text
          end in
        Py.slice start end_ job_text
    | None => ""
    end in
  let responsibilities :=
    match resp_match with
    | Some start =>
        let end_ :=
          match req_match with
          | Some r => if (r >? start)%Z then r else Py.len job_text
          | None => Py.len job_text
          end in
        Py.slice start end_ job_text
    | None => ""
    end in
  let other :=
    match req_match, resp_match with
    | None, None => job_text
    | _, _ => ""
    end in
  [ ("requirements", requirements); ("responsibilities", responsibilities);
    ("qualifications", ""); ("other", other) ].

(** [_extract_job_skills] *)
Definition _extract_job_skills (job_text : string) : list (string * string) :=
  let sections := _split_into_sections job_text in
  let skills :=
    flat_map
      (fun section : string * string =>
         flat_map
           (fun pattern =>
              map (fun span : Z * Z =>
                     (Py.slice (fst span) (snd span) (snd section),
                      fst section))
                  (Re.finditer pattern (snd section)))
           patterns)
      (Dict.items sections) in
  snd (fold_left
         (fun (acc : list string * list (string * string))
              (sk : string * string) =>
            let skill_lower := Py.lower (fst sk) in
            if Py.mem skill_lower (fst acc) then acc
            else (fst acc ++ [skill_lower], snd acc ++ [sk]))
         skills ([], [])).

(** [_calculate_match_score] *)
Definition _calculate_match_score (matched_count total_job_skills : nat) : Q :=
  if Nat.eqb total_job_skills 0 then 0
  else Num.round2 (Num.of_nat matched_count / Num.of_nat total_job_skills).

(** [_generate_recommendations] *)
Definition _generate_recommendations (matched : list MatchedSkill)
           (missing : list MissingSkill) : list string :=
  let names l := Py.join ", " (map gap_name l) in
  let first :=
    match missing with
    | [] => "Great match! You have all the key skills mentioned in the job."
    | _ =>
        if (List.length missing <=? 2)%nat
        then ("Strong candidate! Consider highlighting: " ++ names missing)%string
        else ("Focus on developing: " ++ names (firstn 3 missing))%string
    end in
  let missing_technical :=
    filter (fun s => String.eqb (gap_category s) "technical") missing in
  let missing_soft :=
    filter (fun s => String.eqb (gap_category s) "soft") missing in
  [first]
  ++ match missing_technical with
     | [] => []
     | _ => [("Consider taking courses in: "
              ++ names (firstn 2 missing_technical))%string]
     end
  ++ match missing_soft with
     | [] => []
     | _ => [("Highlight your " ++ names (firstn 2 missing_soft)
              ++ " skills in your application")%string]
     end.

(** The embedding provider is outside the repository: an embedding is an
    opaque value, [embed] fails ([None]) or returns one, and
    [_cosine_similarity] is a number computed from two of them. *)
Section Embeddings.
Context {Embedding : Type}.
Variable embed : string -> option Embedding.
Variable _cosine_similarity : Embedding -> Embedding -> Q.

(** [_get_skill_embeddings] *)
Definition _get_skill_embeddings (skills : list SkillItem)
  : Dict.t string (Embedding * SkillItem) :=
  fold_left
    (fun embeddings skill =>
       let text :=
         (name skill ++ ": "
          ++ Py.join " " (map (fun e => Py.slice 0 100 (snippet e))
                              (firstn 2 (evidence skill))))%string in
       match embed text with
       | Some embedding =>
           Dict.set (Py.lower (name skill)) (embedding, skill) embeddings
       | None => embeddings
       end)
    skills [].

(** [_get_job_skill_embeddings] *)
Definition _get_job_skill_embeddings (job_skills : list (string * string))
  : Dict.t string (Embedding * string) :=
  fold_left
    (fun embeddings (sk : string * string) =>
       match embed (fst sk) with
       | Some embedding =>
           Dict.set (Py.lower (fst sk)) (embedding, snd sk) embeddings
       | None => embeddings
       end)
    job_skills [].

(** The search for the best user skill of one job skill. *)
Definition best_user_skill
           (user_embeddings : Dict.t string (Embedding * SkillItem))
           (job_skill_key : string) (job_embedding : Embedding)
  : option SkillItem * Q :=
  fold_left
    (fun (best : option SkillItem * Q)
         (item : string * (Embedding * SkillItem)) =>
       let user_skill_key := fst item in
       let similarity := _cosine_similarity (fst (snd item)) job_embedding in
       let similarity :=
         if String.eqb user_skill_key job_skill_key
            || Py.contains user_skill_key job_skill_key
            || Py.contains job_skill_key user_skill_key
         then Qmax similarity 0.95 else similarity in
       if Num.ltb (snd best) similarity
       then (Some (snd (snd item)), similarity)
       else best)
    (Dict.items user_embeddings) (None, 0.7).

(** The loop of [_match_skills] over the job skills: the matched and the
    missing ones, before the matched ones are sorted and cut. *)
Definition match_each (taxonomy_mapper : Taxonomy.TaxonomyMapper)
           (user_embeddings : Dict.t string (Embedding * SkillItem))
           (job_skills : list (string * string))
           (job_embeddings : Dict.t string (Embedding * string))
  : list MatchedSkill * list MissingSkill :=
  fold_left
    (fun (acc : list MatchedSkill * list MissingSkill)
         (sk : string * string) =>
       let job_skill_name := fst sk in
       let job_skill_key := Py.lower job_skill_name in
       match Dict.get job_skill_key job_embeddings with
       | None => acc
       | Some (job_embedding, _) =>
           match best_user_skill user_embeddings job_skill_key
                                 job_embedding with
           | (Some best_match, best_score) =>
               (fst acc ++
                [ {| ms_name := job_skill_name;
                     ms_score := Num.round2 best_score;
                     ms_category := category best_match;
                     ms_confidence := confidence best_match |} ],
                snd acc)
           | (None, _) =>
               (fst acc,
                snd acc ++
                [ {| gap_name := job_skill_name;
                     estimated_gap := 0.8;
                     gap_category :=
                       Taxonomy.get_category taxonomy_mapper job_skill_name;
                     from_job_section := Some (snd sk) |} ])
           end
       end)
    job_skills ([], []).

(** [_match_skills] *)
Definition _match_skills (taxonomy_mapper : Taxonomy.TaxonomyMapper)
           (user_embeddings : Dict.t string (Embedding * SkillItem))
           (job_skills : list (string * string))
           (job_embeddings : Dict.t string (Embedding * string))
           (top_k : nat)
  : list MatchedSkill * list MissingSkill :=
  let '(matched_skills, missing_skills) :=
    match_each taxonomy_mapper user_embeddings job_skills job_embeddings in
  let matched_skills :=
    Py.sort (fun y x => Num.ltb (ms_score x) (ms_score y)) matched_skills in
  (firstn top_k matched_skills, missing_skills).

(** [match_job]; [profile] is what [get_skill_profile] returned. *)
Definition match_job (taxonomy_mapper : Taxonomy.TaxonomyMapper)
           (profile : option SkillExtractionService.SkillProfile)
           (request : JobMatchRequest) : JobMatchResponse :=
  match profile with
  | None =>
      {| match_score := 0; matched_skills := []; missing_skills := [];
         recommendations := ["Profile not found"] |}
  | Some profile =>
      let job_skills := _extract_job_skills (job_text request) in
      let user_skill_embeddings :=
        _get_skill_embeddings
          (filter (fun skill =>
                     match manual_status skill with
                     | rejected => false
                     | _ => true
                     end)
                  (SkillExtractionService.skills profile)) in
      let job_skill_embeddings := _get_job_skill_embeddings job_skills in
      let '(matched, missing) :=
        _match_skills taxonomy_mapper user_skill_embeddings job_skills
                      job_skill_embeddings (top_k request) in
      {| match_score :=
           _calculate_match_score (List.length matched)
                                  (List.length job_skills);
         matched_skills := matched;
         missing_skills := missing;
         recommendations := _generate_recommendations matched missing |}
  end.

End Embeddings.

End JobMatchingService.

(* ================================================================== *)
(** ** The confidence aggregator in the words of the specification *)

Module Spec.

Local Open Scope Q_scope.

(** "frequency_score = min(1.0, 0.4 + 0.2 x (count - 1))" *)
Definition frequency_score (count : nat) : Q :=
  Qmin 1 (0.4 + 0.2 * (Num.of_nat count - 1)).

(** The greatest of the scores of a non-empty evidence list. *)
Definition max_score (scores : list Q) : Q :=
  match scores with
  | [] => 0
  | x :: xs => fold_right Qmax x xs
  end.

(** The arithmetic mean of the scores. *)
Definition mean_score (scores : list Q) : Q :=
  fold_right Qplus 0 scores / Num.of_nat (List.length scores).

(** "quality = 0.65 x max(evidence scores) + 0.35 x mean(evidence scores)" *)
Definition quality (scores : list Q) : Q :=
  0.65 * max_score scores + 0.35 * mean_score scores.

(** The number of distinct sources that the evidence names; an empty
    label names no source. *)
Definition distinct_source_count (evidence : list Schema.EvidenceItem) : nat :=
  List.length
    (nodup string_dec
           (filter (fun s => negb (String.eqb s ""))
                   (map Schema.source evidence))).

(** "diversity = min(1.0, distinct_source_count / 3)" *)
Definition diversity (evidence : list Schema.EvidenceItem) : Q :=
  Qmin 1 (Num.of_nat (distinct_source_count evidence) / 3).

(** [clamp(x, lo, hi)] *)
Definition clamp (x lo hi : Q) : Q := Qmax lo (Qmin hi x).

(** "confidence = round(clamp(0.2 x frequency_score + 0.7 x quality
    + 0.1 x diversity, 0, 1), 2)" *)
Definition confidence (evidence : list Schema.EvidenceItem) : Q :=
  Num.round2
    (clamp (0.2 * frequency_score (List.length evidence)
            + 0.7 * quality (map Schema.score evidence)
            + 0.1 * diversity evidence)
           0 1).

(** "The one with the longer token sequence, or, if token counts are tied,
    the one with the longer character span": [a] beats [b]. *)
Definition more_specific (a b : SkillMatcher.SkillMatch) : bool :=
  Py.pair_ltb (SkillMatcher.specificity b) (SkillMatcher.specificity a).

(** [a] is at least as specific as [b]. *)
Definition no_less_specific (a b : SkillMatcher.SkillMatch) : Prop :=
  more_specific b a = false.

(** Two spans that do not overlap. *)
Definition disjoint (a b : SkillMatcher.SkillMatch) : Prop :=
  SkillMatcher._spans_overlap a b = false.

(** The taxonomy entries of a matcher: all that its index holds. *)
Definition entries (self : SkillMatcher.t) : list SkillMatcher.SkillEntry :=
  List.concat (Dict.values (SkillMatcher.index self)).

(** The normalized phrases of the token variants of a phrase. *)
Definition normalized_variants (phrase : string) : list string :=
  map (Py.join " ") (SkillMatcher._generate_token_variants phrase).

(** The canonical name and the aliases of a record. *)
Definition phrases (m : Taxonomy.Mapping) : list string :=
  Taxonomy.skill_name m :: Taxonomy.aliases m.

(** The record [m] registers the normalized phrase [n]: it is not skipped,
    and [n] is a normalized variant of its name or of one of its aliases. *)
Definition registers (m : Taxonomy.Mapping) (n : string) : bool :=
  negb (String.eqb (Taxonomy.skill_name m) "")
  && existsb (fun phrase => Py.mem n (normalized_variants phrase)) (phrases m).

(** The first record, in the order of the taxonomy, that registers [n]. *)
Definition first_record (mappings : list Taxonomy.Mapping) (n : string)
  : option Taxonomy.Mapping :=
  find (fun m => registers m n) mappings.

(** Each normalized variant of the name [c] is first registered by a
    record named [c], letter case apart. *)
Definition unambiguous (mappings : list Taxonomy.Mapping) (c : string) : bool :=
  forallb
    (fun n =>
       match first_record mappings n with
       | Some m => String.eqb (Py.lower (Taxonomy.skill_name m)) (Py.lower c)
       | None => true
       end)
    (normalized_variants c).


End Spec.

(* ================================================================== *)
(** ** Sample data *)

Module Sample.

Import Schema.

Definition skill (name : string) (aliases : list string) : Taxonomy.Mapping :=
  {| Taxonomy.skill_name := name;
     Taxonomy.aliases := aliases;
     Taxonomy.esco_id := None;
     Taxonomy.category := "technical";
     Taxonomy.skill_type := Some "skill/competence" |}.

(** A service over the records [mappings], starting from an empty class
    cache. *)
Definition service (mappings : list Taxonomy.Mapping)
  : SkillExtractionService.t :=
  SkillExtractionService.init None (Taxonomy._load_taxonomy mappings).

Definition matcher (mappings : list Taxonomy.Mapping) : SkillMatcher.t :=
  SkillExtractionService.skill_matcher (service mappings).

Definition item (name : string) (confidence : Q) (evidence : list EvidenceItem)
  : SkillItem :=
  {| skill_id := None; name := name; category := "technical";
     confidence := confidence; evidence := evidence;
     mapped_taxonomy_id := None; manual_status := suggested;
     edited_name := None; tags := [] |}.

Definition evidence_of (source snippet : string) (score : Q) : EvidenceItem :=
  {| source := source; snippet := snippet; score := score;
     offset := None; href := None |}.

Definition uuid4 (n : nat) : string :=
  String (ascii_of_nat (48 + n)) EmptyString.

(** The match of "ml" inside "html". *)
Definition ml_in_html : SkillMatcher.SkillMatch :=
  {| SkillMatcher.entry :=
       {| SkillMatcher.canonical_name := "Machine Learning";
          SkillMatcher.alias := "ML";
          SkillMatcher.normalized := "ml";
          SkillMatcher.tokens := ["ml"];
          SkillMatcher.esco_id := None;
          SkillMatcher.category := "technical";
          SkillMatcher.skill_type := None;
          SkillMatcher.requires_context := true |};
     SkillMatcher.start := 2;
     SkillMatcher.end_ := 4;
     SkillMatcher.matched_text := "ml";
     SkillMatcher.snippet := "html" |}.

Definition sample_profile : SkillExtractionService.SkillProfile :=
  {| SkillExtractionService.profile_id := "p1";
     SkillExtractionService.resume_id := "r1";
     SkillExtractionService.skills :=
       [item "Python" 0.9%Q []; item "Docker" 0.7%Q []] |}.

Definition sample_db : SkillExtractionService.Database :=
  {| SkillExtractionService.skill_profiles := [sample_profile];
     SkillExtractionService.skill_audit_logs := [] |}.

Definition sample_request (skill action : string)
  : SkillExtractionService.SkillActionRequest :=
  {| SkillExtractionService.req_profile_id := "p1";
     SkillExtractionService.req_skill_name := skill;
     SkillExtractionService.req_action := action;
     SkillExtractionService.req_edited_name := None;
     SkillExtractionService.req_edited_category := None |}.



Definition python_resume : string := "5+ years of experience with Python".

(** A job text with two mentions, and room for one match in the answer. *)
Definition two_mentions_top_1 : JobMatchingService.JobMatchRequest :=
  {| JobMatchingService.req_profile_id := "p1";
     JobMatchingService.job_text := "Python and Docker";
     JobMatchingService.top_k := 1 |}.


Definition python_docker : list Taxonomy.Mapping :=
  [ skill "Python" ["Python 3"]; skill "Docker" [] ].

(** The entry of the phrase "python" in the index of [python_docker]. *)
Definition python_entry : SkillMatcher.SkillEntry :=
  {| SkillMatcher.canonical_name := "Python";
     SkillMatcher.alias := "Python";
     SkillMatcher.normalized := "python";
     SkillMatcher.tokens := ["python"];
     SkillMatcher.esco_id := None;
     SkillMatcher.category := "technical";
     SkillMatcher.skill_type := Some "skill/competence";
     SkillMatcher.requires_context := false |}.

(** Three skills whose phrases chain: the second overlaps the first and
    the third. *)
Definition chain_skills : list Taxonomy.Mapping :=
  [ skill "Alpha Beta Gamma" []; skill "Gamma Delta" []; skill "Delta" [] ].

Definition chain_text : string := "alpha beta gamma delta".

(** The raw candidate of "Gamma Delta" in [chain_text]. *)
Definition gamma_delta_match : SkillMatcher.SkillMatch :=
  {| SkillMatcher.entry :=
       {| SkillMatcher.canonical_name := "Gamma Delta";
          SkillMatcher.alias := "Gamma Delta";
          SkillMatcher.normalized := "gamma delta";
          SkillMatcher.tokens := ["gamma"; "delta"];
          SkillMatcher.esco_id := None;
          SkillMatcher.category := "technical";
          SkillMatcher.skill_type := Some "skill/competence";
          SkillMatcher.requires_context := false |};
     SkillMatcher.start := 11;
     SkillMatcher.end_ := 22;
     SkillMatcher.matched_text := "gamma delta";
     SkillMatcher.snippet := chain_text |}.

Definition office_skills : list Taxonomy.Mapping :=
  [ skill "Excel" []; skill "Word" []; skill "PowerPoint" [] ].

End Sample.

(* ================================================================== *)
(** ** Invariants of the index under construction *)

Module Invariant.

Import SkillMatcher.

(** The normalized phrase [n] has a representative in the lookup. *)
Definition present (n : string) (st : Build) : Prop :=
  Dict.get n (b_normalized_lookup st) <> None.

(** From [st0] to [st], while the record [m] is being added: no phrase is
    lost, and a representative that [st0] did not have stands for a phrase
    that [m] registers and bears the name of [m], letter case apart. *)
Definition extends (m : Taxonomy.Mapping) (st0 st : Build) : Prop :=
  (forall n, present n st0 -> present n st)
  /\ (forall n e,
         Dict.get n (b_normalized_lookup st) = Some e ->
         Dict.get n (b_normalized_lookup st0) = Some e
         \/ (Dict.get n (b_normalized_lookup st0) = None
             /\ Spec.registers m n = true
             /\ Py.lower (canonical_name e)
                = Py.lower (Taxonomy.skill_name m))).

Section Over.

(** The records the index is built from. *)
Variable mappings : list Taxonomy.Mapping.

(** [c] is the name of a record that is not skipped. *)
Definition known (c : string) : Prop :=
  exists m, In m mappings /\ Taxonomy.skill_name m <> ""
            /\ c = Taxonomy.skill_name m.

Record holds (st : Build) : Prop := {
  unique_ok :
    forall key e,
      Dict.get key (b_unique_entries st) = Some e ->
      fst key = Py.lower (canonical_name e) /\ known (canonical_name e);
  index_ok :
    forall e,
      In e (List.concat (Dict.values (b_index st))) -> known (canonical_name e)
}.

End Over.

End Invariant.

(* ================================================================== *)
(** ** [SkillExtractionService]: creating and reading profiles *)

Module ProfileService.

Import Schema SkillExtractionService.

(** [select(SkillProfile).where(resume_id == id)], then
    [scalar_one_or_none()]; [create_skill_profile] keeps the rows at one per
    resume. *)
Definition select_by_resume (db : Database) (id : string)
  : option SkillProfile :=
  find (fun p => String.eqb (resume_id p) id) (skill_profiles db).

(** [get_skill_profile]; the privacy settings and the two timestamps of the
    row are left out of the result. *)
Definition get_skill_profile (db : Database) (id : string)
  : option SkillProfile :=
  select_profile db id.

(** [get_profile_by_resume_id] *)
Definition get_profile_by_resume_id (db : Database) (id : string)
  : option SkillProfile :=
  select_by_resume db id.

(** What the call of [_extract_github_skills] inside [create_skill_profile]
    came to: it was not made ([github_data] absent or empty), it raised, and
    the exception was logged, or it returned a list. *)
Inductive GithubOutcome : Type :=
| NoGithubData : GithubOutcome
| GithubFailed : GithubOutcome
| GithubSkills : list SkillItem -> GithubOutcome.

(** [create_skill_profile]: the database afterwards and the returned
    [profile_id].  The identifiers of the skills of the resume are the first
    draws of [uuid4], that of the profile is the next one; the skills of the
    GitHub account come with identifiers of their own. *)
Definition create_skill_profile (self : t) (uuid4 : nat -> string)
           (db : Database) (resume : string) (resume_text : string)
           (processed_data : option (Dict.t string Json))
           (github : GithubOutcome) : Database * string :=
  match select_by_resume db resume with
  | Some existing_profile => (db, profile_id existing_profile)
  | None =>
      let skills := _extract_skills self uuid4 resume_text processed_data in
      let new_id := uuid4 (List.length skills) in
      let skills :=
        match github with
        | GithubSkills github_skills => _merge_skills skills github_skills
        | _ => skills
        end in
      ({| skill_profiles :=
            skill_profiles db ++
            [ {| profile_id := new_id; resume_id := resume;
                 skills := skills |} ];
          skill_audit_logs := skill_audit_logs db |},
       new_id)
  end.

End ProfileService.

(* ================================================================== *)
(** ** [app/api/router/v1/skills.py]: the SAP export *)

Module SkillsRouter.

Import Schema.
Local Open Scope Q_scope.

(** [x >= y] *)
Definition geb (x y : Q) : bool := negb (Num.ltb x y).

(** [get_proficiency_details] *)
Definition get_proficiency_details (confidence : Q) : string * string :=
  if geb confidence 0.9 then ("5", "Expert")
  else if geb confidence 0.75 then ("4", "Advanced")
  else if geb confidence 0.6 then ("3", "Intermediate")
  else if geb confidence 0.4 then ("2", "Basic")
  else ("1", "Novice").

(** [s.upper()] *)
Fixpoint upper (s : string) : string :=
  match s with
  | EmptyString => EmptyString
  | String c s' => String (Py.upper_char c) (upper s')
  end.

Definition sap_header : list string :=
  ["externalCode"; "name_en_US"; "proServRatingScaleOption";
   "proServRatingScaleLabel"; "libraryId"; "category";
   "lastModifiedDateTime"; "status"].

(** The row that [_export_as_sap] writes for one skill, if it writes one;
    [updated_at] is the formatted time stamp of the profile. *)
Definition sap_row (updated_at : string) (skill : SkillItem)
  : option (list string) :=
  match manual_status skill with
  | accepted | suggested =>
      let external_code :=
        SkillExtractionService.or_else
          (mapped_taxonomy_id skill)
          ("CUSTOM_" ++ Py.replace " " "_" (upper (name skill)))%string in
      let proficiency := get_proficiency_details (confidence skill) in
      let library_id :=
        if SkillExtractionService.truthy (mapped_taxonomy_id skill)
        then "ESCO" else "CUSTOM" in
      let status :=
        match manual_status skill with
        | accepted => "ACTIVE"
        | _ => "SUGGESTED"
        end in
      Some [ external_code;
             SkillExtractionService.or_else (edited_name skill) (name skill);
             fst proficiency; snd proficiency; library_id;
             upper (category skill); updated_at; status ]
  | _ => None
  end.

(** The rows that [_export_as_sap] hands to [csv.writer], the header
    first. *)
Definition _export_as_sap (skills : list SkillItem) (updated_at : string)
  : list (list string) :=
  sap_header ::
  flat_map (fun skill => match sap_row updated_at skill with
                         | Some row => [row]
                         | None => []
                         end)
           skills.

End SkillsRouter.

(* ================================================================== *)
(** ** [app/skills/download_esco.py]: merging the two sources of records *)

Module DownloadEsco.

(** [merge_with_curated_skills] *)
Definition merge_with_curated_skills
           (esco_skills curated_skills : list Taxonomy.Mapping)
  : list Taxonomy.Mapping :=
  let curated_lookup :=
    fold_left (fun d skill =>
                 Dict.set (Py.lower (Taxonomy.skill_name skill)) skill d)
              curated_skills [] in
  fold_left
    (fun merged esco_skill =>
       let skill_name_lower := Py.lower (Taxonomy.skill_name esco_skill) in
       if Dict.mem skill_name_lower curated_lookup then merged
       else if existsb (fun alias => Dict.mem (Py.lower alias) curated_lookup)
                       (Taxonomy.aliases esco_skill)
       then merged
       else merged ++ [esco_skill])
    esco_skills curated_skills.

End DownloadEsco.

(* ================================================================== *)
(** ** [TaxonomyMapper]: the remaining look-ups *)

Module TaxonomyMore.

Import Taxonomy.

(** The keys under which [_load_taxonomy] files a record: its name and its
    non-empty aliases, in lower case. *)
Definition keys_of (m : Mapping) : list string :=
  Py.lower (skill_name m)
  :: map Py.lower (filter (fun a => negb (String.eqb a "")) (aliases m)).

(** [get_esco_id] *)
Definition get_esco_id (self : TaxonomyMapper) (name : string)
  : option string :=
  match get_mapping self name with
  | Some m => esco_id m
  | None => None
  end.




End TaxonomyMore.

(* ================================================================== *)
(** ** Shapes of well-formed data *)

Module Shape.

Import SkillMatcher.

(** A token of the text [s], whose first character has offset [pos]: it
    is not empty and lies in [s] at its offsets. *)
Definition token_at (pos : Z) (s : string) (t : Token) : Prop :=
  (pos <= t_start t < t_end t)%Z
  /\ (t_end t <= pos + Py.len s)%Z
  /\ group t
     = String.substring (Z.to_nat (t_start t - pos))
                        (Z.to_nat (t_end t - t_start t)) s
  /\ Py.len (group t) = (t_end t - t_start t)%Z.

(** An entry as [_build_index] makes them. *)
Definition entry_ok (e : SkillEntry) : Prop :=
  tokens e <> []
  /\ normalized e = Py.join " " (tokens e)
  /\ normalized e <> ""
  /\ canonical_name e <> ""
  /\ requires_context e = _should_require_context (tokens e)
  /\ In (tokens e) (_generate_token_variants (alias e)).

(** The entry [e] is made from the record [m]. *)
Definition entry_of (m : Taxonomy.Mapping) (e : SkillEntry) : Prop :=
  canonical_name e = Taxonomy.skill_name m
  /\ In (alias e) (Spec.phrases m)
  /\ esco_id e = Taxonomy.esco_id m
  /\ category e = Taxonomy.category m
  /\ skill_type e = Taxonomy.skill_type m.

(** A string that [TOKEN_PATTERN] matches as a whole. *)
Definition token_string (t : string) : Prop :=
  t <> "" /\ forallb token_char (list_ascii_of_string t) = true.

(** An entry in good order at a stage of [_build_index] over [mappings],
    [bound] being the greatest length of a phrase so far. *)
Definition good (mappings : list Taxonomy.Mapping) (bound : Z)
           (e : SkillEntry) : Prop :=
  entry_ok e
  /\ (exists m, In m mappings /\ entry_of m e)
  /\ (Z.of_nat (List.length (tokens e)) <= bound)%Z.

(** The three dictionaries of [_build_index] in good order. *)
Record built (mappings : list Taxonomy.Mapping) (st : Build) : Prop := {
  built_unique :
    forall key e,
      Dict.get key (b_unique_entries st) = Some e ->
      good mappings (b_max_tokens st) e
      /\ key = (Py.lower (canonical_name e), normalized e);
  built_index :
    forall k l e,
      In (k, l) (b_index st) -> In e l ->
      good mappings (b_max_tokens st) e /\ hd "" (tokens e) = k;
  built_lookup :
    forall n e,
      Dict.get n (b_normalized_lookup st) = Some e ->
      normalized e = n /\ In e (List.concat (Dict.values (b_index st)))
}.

(** One value of the evidence map of [_extract_skills] in good order: it
    is filed under its lower-cased name, the name satisfies [Q], and each
    piece of evidence satisfies [E]. *)
Definition data_ok (Q : string -> Prop) (E : Schema.EvidenceItem -> Prop)
           (kv : string * SkillExtractionService.SkillData) : Prop :=
  fst kv = Py.lower (SkillExtractionService.sd_name (snd kv))
  /\ SkillExtractionService.sd_name (snd kv) <> ""
  /\ Py.mem (fst kv) SkillExtractionService.excluded_skills = false
  /\ Q (SkillExtractionService.sd_name (snd kv))
  /\ SkillExtractionService.sd_evidence (snd kv) <> []
  /\ NoDup (map Schema.snippet (SkillExtractionService.sd_evidence (snd kv)))
  /\ Forall E (SkillExtractionService.sd_evidence (snd kv)).

Definition evidence_map_ok (Q : string -> Prop)
           (E : Schema.EvidenceItem -> Prop)
           (d : Dict.t string SkillExtractionService.SkillData) : Prop :=
  NoDup (map fst d) /\ Forall (data_ok Q E) d.

(** A piece of evidence as [_extract_skills] makes them from [text] and
    the structured data. *)
Definition evidence_ok (text : string) (ev : Schema.EvidenceItem) : Prop :=
  (0.4 <= Schema.score ev /\ Schema.score ev <= 1)%Q
  /\ Schema.href ev = None
  /\ ((Schema.source ev = "resume"
       /\ exists o, Schema.offset ev = Some o /\ (0 <= o < Py.len text)%Z)
      \/ (Schema.source ev = "structured" /\ Schema.offset ev = None
          /\ (0.8 <= Schema.score ev)%Q)).

(** The dictionary of a mapper under construction: its keys are distinct
    and in lower case, and its values are among the records [ims]. *)
Definition loaded (ims : list (nat * Taxonomy.Mapping))
           (d : Taxonomy.TaxonomyMapper) : Prop :=
  NoDup (map fst d)
  /\ forall k v, In (k, v) d -> Py.lower k = k /\ In v ims.

End Shape.

(* ================================================================== *)
(** * Properties *)

(** ** The negative-context pattern of "excel" *)

Section ExcelVeto.

Import SkillMatcher.

Lemma search_from_first_char (r : Re.t) (c0 : ascii) :
  (forall prev pos s e,
      Re.match_here r prev pos s = Some e ->
      exists s', s = String c0 s') ->
  forall s prev pos span,
    Re.find_from r prev pos s = Some span ->
    Py.contains (String c0 EmptyString) s = true.
Proof.
  intros Hhead s.
  induction s as [|c s IH]; intros prev pos span Hfind; simpl in Hfind.
  - destruct (Re.match_here r prev pos "") as [e|] eqn:Hm; [|discriminate].
    apply Hhead in Hm. destruct Hm as [s' Hs]. discriminate.
  - destruct (Re.match_here r prev pos (String c s)) as [e|] eqn:Hm.
    + apply Hhead in Hm. destruct Hm as [s' Hs]. inversion Hs; subst.
      simpl. destruct (ascii_dec c0 c0) as [_|Hne]; [|congruence].
      destruct s'; reflexivity.
    + apply IH in Hfind.
      simpl. rewrite Hfind. apply orb_true_r.
Qed.

Lemma run_seq_chr_head {A} (p : ascii -> bool) (r : Re.t) prev pos s
      (k : option ascii -> Z -> string -> option A) (a : A) :
  Re.run (Re.Seq (Re.Chr p) r) prev pos s k = Some a ->
  exists c s', s = String c s' /\ p c = true.
Proof.
  cbn [Re.run]. destruct s as [|c s']; [discriminate|].
  destruct (p c) eqn:Hp; [|discriminate]. eauto.
Qed.

(** The pattern, as compiled, only matches text that holds a backslash. *)
Lemma excel_negative_needs_backslash (s : string) :
  Re.search excel_negative s = true ->
  Py.contains (String backslash EmptyString) s = true.
Proof.
  unfold Re.search, Re.find. intros H.
  destruct (Re.find_from excel_negative None 0 s) as [span|] eqn:Hfind;
    [|discriminate].
  eapply search_from_first_char; [|exact Hfind].
  intros prev pos s0 e Hm.
  unfold Re.match_here, excel_negative in Hm. cbn [Re.seqs] in Hm.
  apply run_seq_chr_head in Hm. destruct Hm as (c & s0' & -> & Hc).
  apply Ascii.eqb_eq in Hc. subst c. eauto.
Qed.

(** C4.  The veto of the negative-context pattern of "excel" does not
    fire on "excelled at": in the text "I excelled at Microsoft Excel" the
    tool Excel is matched, its snippet is the whole text, which holds
    "excelled at" and the keyword "microsoft", and context validation
    accepts it. *)
Theorem excelled_at_is_not_vetoed :
  let text := "I excelled at Microsoft Excel" in
  exists m,
    match_ (Sample.matcher [Sample.skill "Excel" []]) text = [m]
    /\ canonical_name (entry m) = "Excel"
    /\ tokens (entry m) = ["excel"]
    /\ requires_context (entry m) = true
    /\ snippet m = text
    /\ Py.contains "excelled at" (Py.lower (snippet m)) = true
    /\ Py.contains "microsoft" (Py.lower (snippet m)) = true
    /\ Re.search excel_negative (Py.lower (snippet m)) = false
    /\ context_is_valid (entry m) (snippet m) = true.
Proof.
  eexists. split; [vm_compute; reflexivity|].
  repeat split; vm_compute; reflexivity.
Qed.

End ExcelVeto.

(** ** Strings *)

Section Strings.

Lemma string_eqb_neq (x y : string) : x <> y -> String.eqb x y = false.
Proof. intros H. apply String.eqb_neq. exact H. Qed.

Lemma lstrip_length (s : string) :
  (String.length (Py.lstrip s) <= String.length s)%nat.
Proof.
  induction s as [|c s IH]; simpl; [lia|].
  destruct (Py.isspace c); simpl; lia.
Qed.

Lemma rstrip_length (s : string) :
  (String.length (Py.rstrip s) <= String.length s)%nat.
Proof.
  induction s as [|c s IH]; simpl; [lia|].
  destruct (Py.rstrip s) as [|c' r]; simpl in *.
  - destruct (Py.isspace c); simpl; lia.
  - lia.
Qed.

Lemma strip_len (s : string) : Py.len (Py.strip s) <= Py.len s.
Proof.
  unfold Py.len, Py.strip.
  pose proof (rstrip_length (Py.lstrip s)).
  pose proof (lstrip_length s). lia.
Qed.

Lemma get_in_range (i : Z) (s : string) (c : ascii) :
  Py.get i s = Some c -> 0 <= i < Py.len s.
Proof.
  unfold Py.get, Py.len.
  destruct (i <? 0) eqn:Hi; [discriminate|].
  apply Z.ltb_ge in Hi. intros H.
  assert (Hn : (Z.to_nat i < String.length s)%nat).
  { generalize dependent (Z.to_nat i). clear.
    induction s as [|c' s IH]; intros n H; simpl in *; [discriminate|].
    destruct n; [lia|]. apply IH in H. lia. }
  lia.
Qed.

End Strings.

(** ** Word boundaries of short matches *)

Section ShortTokens.

Import SkillExtractionService.

Lemma or_else_some (matched other : string) :
  matched <> "" -> or_else (Some matched) other = matched.
Proof.
  intros H. unfold or_else. rewrite string_eqb_neq; auto.
Qed.

Lemma short_target_rejected (text : string) (start end_ : Z)
      (skill_name matched : string) :
  matched <> "" ->
  Py.len matched <= 3 ->
  ((exists c, Py.get (start - 1) text = Some c /\ Py.isalpha c = true)
   \/ (exists c, Py.get end_ text = Some c /\ Py.isalpha c = true)) ->
  _validate_skill_match text start end_ skill_name (Some matched) = false.
Proof.
  intros Hne Hlen Hadj. unfold _validate_skill_match.
  destruct (String.eqb skill_name ""); [reflexivity|].
  destruct ((start <? 0) || (end_ >? Py.len text)) eqn:Hspan; [reflexivity|].
  destruct (Re.search url_pattern _); [reflexivity|].
  destruct (Re.search email_pattern _); [reflexivity|].
  rewrite or_else_some by exact Hne.
  destruct (String.eqb (Py.strip matched) ""); [reflexivity|].
  pose proof (strip_len matched) as Hstrip.
  replace (Py.len (Py.strip matched) <=? 3) with true
    by (symmetry; apply Z.leb_le; lia).
  cbn [andb].
  destruct Hadj as [(c & Hget & Halpha) | (c & Hget & Halpha)].
  - pose proof (get_in_range _ _ _ Hget) as Hr.
    unfold isalpha_at. rewrite Hget, Halpha.
    replace (start >? 0) with true by (symmetry; apply Z.gtb_lt; lia).
    reflexivity.
  - pose proof (get_in_range _ _ _ Hget) as Hr.
    unfold isalpha_at at 2. rewrite Hget, Halpha.
    replace (end_ <? Py.len text) with true by (symmetry; apply Z.ltb_lt; lia).
    cbn [andb]. rewrite orb_true_r. reflexivity.
Qed.

(** C10.  A resume-text match whose literal text has at most three
    characters and which has a letter right before or right after its span
    fails validation, and adding it leaves the evidence map as it was:
    no evidence item comes of it. *)
Theorem short_match_inside_a_word_is_dropped
        (self : t) (skills_dict : Dict.t string SkillData)
        (text : string) (m : SkillMatcher.SkillMatch) :
  SkillMatcher.matched_text m <> "" ->
  Py.len (SkillMatcher.matched_text m) <= 3 ->
  ((exists c, Py.get (SkillMatcher.start m - 1) text = Some c
              /\ Py.isalpha c = true)
   \/ (exists c, Py.get (SkillMatcher.end_ m) text = Some c
                 /\ Py.isalpha c = true)) ->
  (forall skill_name,
      _validate_skill_match text (SkillMatcher.start m) (SkillMatcher.end_ m)
                            skill_name (Some (SkillMatcher.matched_text m))
      = false)
  /\ add_text_match self text skills_dict m = skills_dict.
Proof.
  intros Hne Hlen Hadj. split.
  - intros skill_name. apply short_target_rejected; assumption.
  - unfold add_text_match, _add_or_update_skill.
    destruct (String.eqb _ ""); [reflexivity|].
    destruct (Py.mem _ excluded_skills); [reflexivity|].
    rewrite short_target_rejected by assumption.
    reflexivity.
Qed.

Lemma short_match_inside_a_word_is_dropped_witness :
  (forall skill_name,
      _validate_skill_match "html" 2 4 skill_name (Some "ml") = false)
  /\ add_text_match
       (Sample.service [Sample.skill "Machine Learning" ["ML"]])
       "html" [] Sample.ml_in_html = [].
Proof.
  apply (short_match_inside_a_word_is_dropped
           (Sample.service [Sample.skill "Machine Learning" ["ML"]])
           [] "html" Sample.ml_in_html).
  - discriminate.
  - vm_compute. discriminate.
  - left. exists "t"%char. split; reflexivity.
Defined.

End ShortTokens.

(** ** Lifecycle actions on an unknown skill *)

Section Lifecycle.

Import Schema SkillExtractionService.

Lemma find_skill_index_absent (skills : list SkillItem) (skill_name : string)
      (i : nat) :
  (forall s, In s skills -> Py.lower (name s) <> Py.lower skill_name) ->
  find_skill_index skills skill_name i = None.
Proof.
  revert i. induction skills as [|s rest IH]; intros i Habsent; simpl.
  - reflexivity.
  - rewrite string_eqb_neq by (apply Habsent; left; reflexivity).
    apply IH. intros s' Hin. apply Habsent. right. exact Hin.
Qed.

(** C9.  A lifecycle action on a skill that the profile does not hold,
    names being compared without regard to letter case, returns the
    failure triple with the not-found message and leaves the database,
    hence the skill list of the profile, as it was.  The function is total:
    it returns, and there is no exceptional outcome. *)
Theorem unknown_skill_is_reported
        (db : Database) (request : SkillActionRequest)
        (profile : SkillProfile) :
  select_profile db (req_profile_id request) = Some profile ->
  (forall s, In s (skills profile) ->
             Py.lower (name s) <> Py.lower (req_skill_name request)) ->
  update_skill_action db request
  = (db, (false,
          ("Skill '" ++ req_skill_name request ++ "' not found in profile")%string,
          None)).
Proof.
  intros Hprofile Habsent.
  unfold update_skill_action. rewrite Hprofile.
  rewrite find_skill_index_absent by exact Habsent.
  reflexivity.
Qed.

Lemma unknown_skill_is_reported_witness :
  update_skill_action Sample.sample_db (Sample.sample_request "RUST" "accept")
  = (Sample.sample_db, (false, "Skill 'RUST' not found in profile", None)).
Proof.
  apply (unknown_skill_is_reported
           Sample.sample_db (Sample.sample_request "RUST" "accept")
           Sample.sample_profile).
  - reflexivity.
  - intros s [<- | [<- | []]]; vm_compute; discriminate.
Defined.

(** A known skill, in another letter case, is found and updated. *)
Example known_skill_accepted :
  let '(db', (success, message, updated)) :=
    update_skill_action Sample.sample_db
                        (Sample.sample_request "python" "accept") in
  success = true
  /\ message = "Skill 'python' accepted"
  /\ option_map manual_status updated = Some accepted
  /\ map (fun p => map manual_status (skills p)) (skill_profiles db')
     = [[accepted; suggested]]
  /\ List.length (skill_audit_logs db') = 1%nat.
Proof. vm_compute. repeat split; reflexivity. Qed.

End Lifecycle.

(** ** Merging a resume skill with an external one *)

Section MergeScenario.

Import Schema SkillExtractionService.
Local Open Scope Q_scope.

(** C7.  Merging the resume list that holds "Python" with confidence 0.6
    and one evidence item with the external list that holds "Python" with
    confidence 0.8 and one evidence item gives one item, of confidence 0.8,
    whose evidence is the two items in that order; nothing is removed, even
    when the two evidence items are the same. *)
Theorem merge_python_scenario (resume_skill github_skill : SkillItem)
        (e1 e2 : EvidenceItem) :
  name resume_skill = "Python" ->
  confidence resume_skill == 0.6 ->
  evidence resume_skill = [e1] ->
  name github_skill = "Python" ->
  confidence github_skill == 0.8 ->
  evidence github_skill = [e2] ->
  exists merged,
    _merge_skills [resume_skill] [github_skill] = [merged]
    /\ name merged = "Python"
    /\ confidence merged == 0.8
    /\ evidence merged = [e1; e2]
    /\ List.length (evidence merged) = 2%nat.
Proof.
  intros Hn1 Hc1 He1 Hn2 Hc2 He2.
  unfold _merge_skills, merge_one. cbn [fold_left].
  rewrite Hn1, Hn2.
  change (Py.lower "Python") with "python".
  cbn [Dict.set Dict.get]. unfold eqb, string_Eqb.
  rewrite String.eqb_refl. cbn [Dict.values map snd].
  eexists. split; [reflexivity|]. cbn.
  repeat split.
  - exact Hn1.
  - rewrite Q.max_r; [exact Hc2|]. rewrite Hc1, Hc2. discriminate.
  - rewrite He1, He2. reflexivity.
  - rewrite He1, He2. reflexivity.
Qed.

Lemma merge_python_scenario_witness :
  exists merged,
    _merge_skills
      [Sample.item "Python" 0.6
         [Sample.evidence_of "resume" "5 years of Python" 0.85]]
      [Sample.item "Python" 0.8
         [Sample.evidence_of "github" "Used in GitHub projects" 0.9]]
    = [merged]
    /\ name merged = "Python"
    /\ confidence merged == 0.8
    /\ evidence merged
       = [Sample.evidence_of "resume" "5 years of Python" 0.85;
          Sample.evidence_of "github" "Used in GitHub projects" 0.9]
    /\ List.length (evidence merged) = 2%nat.
Proof.
  apply (merge_python_scenario
           (Sample.item "Python" 0.6
              [Sample.evidence_of "resume" "5 years of Python" 0.85])
           (Sample.item "Python" 0.8
              [Sample.evidence_of "github" "Used in GitHub projects" 0.9]));
    reflexivity.
Defined.

End MergeScenario.

(** ** The stable sort *)

Section SortFacts.

Context {A : Type} (before : A -> A -> bool).

Lemma insert_perm (x : A) (l : list A) :
  Permutation (Py.insert before x l) (x :: l).
Proof.
  induction l as [|y l IH]; simpl.
  - apply Permutation_refl.
  - destruct (before y x).
    + eapply Permutation_trans; [apply perm_skip, IH|apply perm_swap].
    + apply Permutation_refl.
Qed.

Lemma sort_perm (l : list A) : Permutation (Py.sort before l) l.
Proof.
  induction l as [|x l IH]; simpl.
  - apply perm_nil.
  - eapply Permutation_trans; [apply insert_perm|apply perm_skip, IH].
Qed.

Lemma sort_In (l : list A) (x : A) : In x (Py.sort before l) <-> In x l.
Proof.
  split; apply Permutation_in;
    [apply sort_perm|apply Permutation_sym, sort_perm].
Qed.

Lemma sort_length (l : list A) : List.length (Py.sort before l) = List.length l.
Proof. apply Permutation_length, sort_perm. Qed.

(** The result is ordered by any transitive relation [R] that agrees
    with [before]. *)
Variable R : A -> A -> Prop.
Hypothesis R_trans : forall x y z, R x y -> R y z -> R x z.
Hypothesis before_R : forall y x, before y x = true -> R y x.
Hypothesis not_before_R : forall y x, before y x = false -> R x y.

Lemma insert_sorted (x : A) (l : list A) :
  StronglySorted R l -> StronglySorted R (Py.insert before x l).
Proof.
  induction l as [|y l IH]; intros Hs; simpl.
  - constructor; constructor.
  - inversion Hs as [|? ? Hs' Hall]; subst.
    destruct (before y x) eqn:Hb.
    + constructor; [apply IH; exact Hs'|].
      apply Forall_forall. intros z Hz.
      apply (Permutation_in _ (insert_perm x l)) in Hz.
      destruct Hz as [<- | Hz]; [apply before_R; exact Hb|].
      rewrite Forall_forall in Hall. apply Hall. exact Hz.
    + constructor; [exact Hs|].
      constructor; [apply not_before_R; exact Hb|].
      apply Forall_forall. intros z Hz.
      rewrite Forall_forall in Hall.
      eapply R_trans; [apply not_before_R; exact Hb|apply Hall; exact Hz].
Qed.

Lemma sort_sorted (l : list A) : StronglySorted R (Py.sort before l).
Proof.
  induction l as [|x l IH]; simpl; [constructor|].
  apply insert_sorted. exact IH.
Qed.

End SortFacts.

(** ** The job-match score *)

Section MatchScore.

Import Schema JobMatchingService.
Local Open Scope Q_scope.

Context {Embedding : Type}.
Variable embed : string -> option Embedding.
Variable similarity : Embedding -> Embedding -> Q.

(** The score of a run is computed from the matched list after it has been
    cut to [top_k] entries: it is the smaller of [top_k] and the number of
    matched mentions, over the number of mentions. *)
Lemma match_score_after_cut (mapper : Taxonomy.TaxonomyMapper)
      (profile : SkillExtractionService.SkillProfile)
      (request : JobMatchRequest) :
  let job_skills := _extract_job_skills (job_text request) in
  let users :=
    _get_skill_embeddings embed
      (filter (fun skill => match manual_status skill with
                            | rejected => false
                            | _ => true
                            end)
              (SkillExtractionService.skills profile)) in
  let matched_mentions :=
    fst (match_each similarity mapper users job_skills
                    (_get_job_skill_embeddings embed job_skills)) in
  match_score (match_job embed similarity mapper (Some profile) request)
  = _calculate_match_score
      (Nat.min (top_k request) (List.length matched_mentions))
      (List.length job_skills).
Proof.
  cbv zeta. unfold match_job, _match_skills.
  destruct (match_each _ _ _ _ _) as [matched missing].
  cbn [match_score fst].
  rewrite length_firstn, sort_length. reflexivity.
Qed.

Lemma best_user_skill_of_same_name
      (users : Dict.t string (Embedding * SkillItem))
      (job_skill_key : string) (job_embedding : Embedding) :
  (exists v, In (job_skill_key, v) users) ->
  exists best q,
    best_user_skill similarity users job_skill_key job_embedding = (Some best, q).
Proof.
  unfold best_user_skill, Dict.items.
  set (step := fun (best : option SkillItem * Q) (item : string * (Embedding * SkillItem)) => _).
  assert (Hkeep : forall l acc,
             fst acc <> None -> fst (fold_left step l acc) <> None).
  { induction l as [|x l IH]; intros acc Hacc; simpl; [exact Hacc|].
    apply IH. unfold step. destruct (Num.ltb _ _); [discriminate|exact Hacc]. }
  assert (Hfind : forall l acc,
             (fst acc = None -> snd acc = 0.7) ->
             (exists v, In (job_skill_key, v) l) ->
             fst (fold_left step l acc) <> None).
  { induction l as [|x l IH]; intros acc Hacc [v Hin]; [destruct Hin|].
    simpl. destruct Hin as [-> | Hin].
    - apply Hkeep. unfold step. cbn [fst snd].
      rewrite String.eqb_refl. cbn [orb].
      destruct (fst acc) eqn:Hf.
      + destruct (Num.ltb _ _); [discriminate|]. rewrite Hf. discriminate.
      + rewrite (Hacc eq_refl).
        replace (Num.ltb 0.7 (Qmax (similarity (fst v) job_embedding) 0.95))
          with true; [discriminate|].
        symmetry. unfold Num.ltb.
        assert (Hlt : 0.7 < Qmax (similarity (fst v) job_embedding) 0.95).
        { eapply Qlt_le_trans; [|apply Q.le_max_r]. reflexivity. }
        apply Qlt_alt in Hlt. unfold Qcompare in *. rewrite Hlt. reflexivity.
    - apply IH; [|eauto]. unfold step.
      destruct (Num.ltb _ _); cbn [fst snd]; [discriminate|exact Hacc]. }
  intros Hex.
  specialize (Hfind users (None, 0.7) (fun _ => eq_refl) Hex).
  destruct (fold_left step users (None, 0.7)) as [[best|] q]; [eauto|].
  exfalso. apply Hfind. reflexivity.
Qed.


Lemma match_each_all_matched (mapper : Taxonomy.TaxonomyMapper)
      (users : Dict.t string (Embedding * SkillItem))
      (jobs : Dict.t string (Embedding * string))
      (job_skills : list (string * string)) :
  (forall sk, In sk job_skills ->
     (exists je, Dict.get (Py.lower (fst sk)) jobs = Some je)
     /\ (exists v, In (Py.lower (fst sk), v) users)) ->
  List.length (fst (match_each similarity mapper users job_skills jobs))
  = List.length job_skills.
Proof.
  unfold match_each.
  set (step := fun (acc : list MatchedSkill * list MissingSkill) (sk : string * string) => _).
  assert (Hgen : forall l acc,
             (forall sk, In sk l ->
                (exists je, Dict.get (Py.lower (fst sk)) jobs = Some je)
                /\ (exists v, In (Py.lower (fst sk), v) users)) ->
             List.length (fst (fold_left step l acc))
             = (List.length (fst acc) + List.length l)%nat).
  { induction l as [|sk l IH]; intros acc Hall; simpl; [lia|].
    rewrite IH by (intros sk' Hsk'; apply Hall; right; exact Hsk').
    destruct (Hall sk (or_introl eq_refl)) as [[[je sec] Hje] Huser].
    unfold step. rewrite Hje.
    destruct (best_user_skill_of_same_name users (Py.lower (fst sk)) je Huser)
      as (best & q & ->).
    cbn [fst]. rewrite length_app. simpl. lia. }
  intros Hall. rewrite Hgen by exact Hall. reflexivity.
Qed.

Hypothesis embed_answers : forall text, embed text <> None.

(** C8.  The job-match score is not the share of matched mentions when
    more mentions match than [top_k] allows in the answer.  With the skills
    Python and Docker in the profile, the job text "Python and Docker" and
    [top_k = 1], whatever the embeddings and their similarities are, both
    mentions are matched, yet the score is 0.5. *)
Theorem match_score_below_share_of_matched_mentions :
  let request := Sample.two_mentions_top_1 in
  let job_skills := _extract_job_skills (job_text request) in
  let matched_mentions :=
    fst (match_each similarity []
           (_get_skill_embeddings embed
              (SkillExtractionService.skills Sample.sample_profile))
           job_skills (_get_job_skill_embeddings embed job_skills)) in
  job_skills = [("Python", "other"); ("Docker", "other")]
  /\ List.length matched_mentions = 2%nat
  /\ match_score (match_job embed similarity [] (Some Sample.sample_profile) request)
     == 0.5
  /\ ~ (match_score
          (match_job embed similarity [] (Some Sample.sample_profile) request)
        == Num.round2 (Num.of_nat (List.length matched_mentions)
                       / Num.of_nat (List.length job_skills))).
Proof.
  cbv zeta. unfold Sample.two_mentions_top_1. cbn [job_text].
  assert (Hjobs : _extract_job_skills "Python and Docker"
                  = [("Python", "other"); ("Docker", "other")])
    by (vm_compute; reflexivity).
  pose proof (match_score_after_cut [] Sample.sample_profile
                {| JobMatchingService.req_profile_id := "p1";
                   job_text := "Python and Docker"; top_k := 1 |}) as Hscore.
  cbv zeta in Hscore. cbn [job_text top_k] in Hscore.
  change (filter _ (SkillExtractionService.skills Sample.sample_profile))
    with (SkillExtractionService.skills Sample.sample_profile) in Hscore.
  rewrite Hscore. clear Hscore. rewrite !Hjobs.
  assert (Hcount :
            List.length
              (fst (match_each similarity []
                      (_get_skill_embeddings embed
                         (SkillExtractionService.skills Sample.sample_profile))
                      [("Python", "other"); ("Docker", "other")]
                      (_get_job_skill_embeddings embed
                         [("Python", "other"); ("Docker", "other")])))
            = 2%nat).
  { rewrite match_each_all_matched; [reflexivity|].
    change (SkillExtractionService.skills Sample.sample_profile)
      with [Sample.item "Python" 0.9 []; Sample.item "Docker" 0.7 []].
    unfold _get_skill_embeddings, _get_job_skill_embeddings.
    cbn [fold_left Schema.name Sample.item Schema.evidence firstn map fst snd].
    change (Py.lower "Python") with "python".
    change (Py.lower "Docker") with "docker".
    destruct (embed ("Python" ++ ": " ++ Py.join " " [])) as [u1|] eqn:Hu1;
      [|exfalso; exact (embed_answers _ Hu1)].
    destruct (embed ("Docker" ++ ": " ++ Py.join " " [])) as [u2|] eqn:Hu2;
      [|exfalso; exact (embed_answers _ Hu2)].
    destruct (embed "Python") as [j1|] eqn:Hj1;
      [|exfalso; exact (embed_answers _ Hj1)].
    destruct (embed "Docker") as [j2|] eqn:Hj2;
      [|exfalso; exact (embed_answers _ Hj2)].
    intros sk [<- | [<- | []]]; cbn [fst];
      change (Py.lower "Python") with "python";
      change (Py.lower "Docker") with "docker";
      split; vm_compute; eauto. }
  rewrite Hcount.
  split; [reflexivity|]. split; [reflexivity|].
  split; vm_compute; [reflexivity|discriminate].
Qed.

End MatchScore.

Lemma match_score_below_share_of_matched_mentions_witness :
  (JobMatchingService.match_score
     (JobMatchingService.match_job
        (fun _ : string => Some tt) (fun _ _ : unit => 0%Q) []
        (Some Sample.sample_profile) Sample.two_mentions_top_1)
   == 0.5)%Q.
Proof.
  apply (match_score_below_share_of_matched_mentions
           (fun _ : string => Some tt) (fun _ _ : unit => 0%Q)).
  intros text. discriminate.
Defined.

(** ** Sets kept as lists *)

#[export] Instance string_EqbSpec : EqbSpec string.
Proof. intros x y. apply String.eqb_eq. Qed.

Section SetFacts.

Context {K : Type} `{EqbSpec K}.

Lemma mem_In (x : K) (xs : list K) : Py.mem x xs = true <-> In x xs.
Proof.
  unfold Py.mem. rewrite existsb_exists. split.
  - intros (y & Hy & Heq). apply eqb_true_iff in Heq. subst. exact Hy.
  - intros Hin. exists x. split; [exact Hin|]. apply eqb_true_iff. reflexivity.
Qed.

Lemma set_add_In (x y : K) (xs : list K) :
  In y (Py.set_add x xs) <-> y = x \/ In y xs.
Proof.
  unfold Py.set_add. destruct (Py.mem x xs) eqn:Hm.
  - apply mem_In in Hm. split; [auto|]. intros [-> | Hy]; assumption.
  - rewrite in_app_iff. simpl. intuition.
Qed.


Lemma set_update_In (ys xs : list K) (y : K) :
  In y (Py.set_update xs ys) <-> In y xs \/ In y ys.
Proof.
  unfold Py.set_update. revert xs.
  induction ys as [|z ys IH]; intros xs; simpl.
  - intuition.
  - rewrite IH, set_add_In. intuition.
Qed.


Lemma set_of_In (ys : list K) (y : K) : In y (Py.set_of ys) <-> In y ys.
Proof. unfold Py.set_of. rewrite set_update_In. simpl. intuition. Qed.


End SetFacts.


(** ** Rounding and bounds *)

Section Rounding.

Local Open Scope Q_scope.



Lemma round_half_even_bounds (x : Q) (n : Z) :
  0 <= x -> x <= inject_Z n -> (0 <= Num.round_half_even x <= n)%Z.
Proof.
  intros H0 Hn. unfold Num.round_half_even.
  pose proof (Qfloor_le x) as Hfl.
  pose proof (Qlt_floor x) as Hfu.
  assert (Hf0 : (0 <= Qfloor x)%Z).
  { assert (Hlt : inject_Z 0 < inject_Z (Qfloor x + 1))
      by (eapply Qle_lt_trans; [exact H0|exact Hfu]).
    rewrite <- Zlt_Qlt in Hlt. lia. }
  assert (Hfn : (Qfloor x <= n)%Z).
  { rewrite Zle_Qle. eapply Qle_trans; [exact Hfl|exact Hn]. }
  assert (Hup : inject_Z (Qfloor x) < x -> (Qfloor x + 1 <= n)%Z).
  { intros Hlt.
    assert (Hlt' : inject_Z (Qfloor x) < inject_Z n)
      by (eapply Qlt_le_trans; [exact Hlt|exact Hn]).
    rewrite <- Zlt_Qlt in Hlt'. lia. }
  destruct (Qcompare_spec (x - inject_Z (Qfloor x)) (1 # 2)) as [He | Hl | Hg].
  - destruct (Z.even (Qfloor x)); [lia|].
    split; [lia|]. apply Hup.
    apply Qlt_minus_iff. unfold Qminus in He. rewrite He. reflexivity.
  - lia.
  - split; [lia|]. apply Hup.
    apply Qlt_minus_iff. unfold Qminus in Hg.
    eapply Qlt_trans; [|exact Hg]. reflexivity.
Qed.

End Rounding.

(** ** The confidence formula *)

Section Confidence.

Import Schema SkillExtractionService.
Local Open Scope Q_scope.

Lemma round2_unit_interval (x : Q) :
  0 <= x -> x <= 1 -> 0 <= Num.round2 x /\ Num.round2 x <= 1.
Proof.
  intros H0 H1.
  destruct (round_half_even_bounds (x * 100) 100) as [Hlo Hhi].
  - apply Qmult_le_0_compat; [exact H0|discriminate].
  - change (inject_Z 100) with (1 * 100).
    apply Qmult_le_compat_r; [exact H1|discriminate].
  - unfold Num.round2.
    set (z := Num.round_half_even (x * 100)) in *.
    unfold Qle, Qdiv, Qmult, Qinv, inject_Z. simpl. lia.
Qed.

Lemma clamp_unit_interval (x : Q) : 0 <= Qmin 1 (Qmax 0 x) /\ Qmin 1 (Qmax 0 x) <= 1.
Proof.
  split.
  - apply Q.min_glb; [discriminate|apply Q.le_max_l].
  - apply Q.le_min_l.
Qed.

(** An evidence score meets the bounds that [EvidenceItem] asks of it. *)
Lemma score_unit_interval (snippet skill_name source : string)
      (skill_entry : option SkillMatcher.SkillEntry) :
  0 <= _score_evidence snippet skill_name source skill_entry
  /\ _score_evidence snippet skill_name source skill_entry <= 1.
Proof. unfold _score_evidence. apply clamp_unit_interval. Qed.





Lemma fold_left_plus (xs : list Q) (a : Q) :
  fold_left Qplus xs a == a + fold_right Qplus 0 xs.
Proof.
  revert a. induction xs as [|x xs IH]; intros a; simpl.
  - ring.
  - rewrite IH. ring.
Qed.

Lemma sum_fold_right (xs : list Q) : Num.sum xs == fold_right Qplus 0 xs.
Proof. unfold Num.sum. rewrite fold_left_plus. ring. Qed.





End Confidence.

(** ** Dictionaries *)

Section DictFacts.

Context {K : Type} `{EqbSpec K} {V : Type}.

Lemma get_In_values (k : K) (d : Dict.t K V) (v : V) :
  Dict.get k d = Some v -> In v (Dict.values d).
Proof.
  induction d as [|[k' v'] d IH]; simpl; [discriminate|].
  destruct (eqb k k').
  - intros [= ->]. left. reflexivity.
  - intros Hget. right. apply IH, Hget.
Qed.


Lemma get_set_same (k : K) (v : V) (d : Dict.t K V) :
  Dict.get k (Dict.set k v d) = Some v.
Proof.
  induction d as [|[k' v'] d IH]; simpl.
  - replace (eqb k k) with true; [reflexivity|].
    symmetry. apply eqb_true_iff. reflexivity.
  - destruct (eqb k k') eqn:Hk; simpl; rewrite Hk; [reflexivity|exact IH].
Qed.

Lemma get_set_other (k k0 : K) (v : V) (d : Dict.t K V) :
  k0 <> k -> Dict.get k0 (Dict.set k v d) = Dict.get k0 d.
Proof.
  intros Hne. induction d as [|[k' v'] d IH]; simpl.
  - destruct (eqb k0 k) eqn:Hk; [|reflexivity].
    apply eqb_true_iff in Hk. contradiction.
  - destruct (eqb k k') eqn:Hk; simpl.
    + apply eqb_true_iff in Hk. subst k'.
      destruct (eqb k0 k) eqn:Hk0; [|reflexivity].
      apply eqb_true_iff in Hk0. contradiction.
    + rewrite IH. reflexivity.
Qed.

Lemma get_setdefault_present (k k0 : K) (v v0 : V) (d : Dict.t K V) :
  Dict.get k0 d = Some v0 -> Dict.get k0 (Dict.setdefault k v d) = Some v0.
Proof.
  intros Hget. unfold Dict.setdefault.
  destruct (Dict.get k d); [exact Hget|].
  induction d as [|[k' v'] d IH]; simpl in *; [discriminate|].
  destruct (eqb k0 k'); [exact Hget|]. apply IH, Hget.
Qed.

Lemma get_app_absent (k : K) (d d' : Dict.t K V) :
  Dict.get k d = None -> Dict.get k (d ++ d') = Dict.get k d'.
Proof.
  induction d as [|[k' v'] d IH]; simpl; [reflexivity|].
  destruct (eqb k k'); [discriminate|]. exact IH.
Qed.

Lemma get_setdefault_same (k : K) (v : V) (d : Dict.t K V) :
  Dict.get k (Dict.setdefault k v d)
  = match Dict.get k d with Some v0 => Some v0 | None => Some v end.
Proof.
  unfold Dict.setdefault. destruct (Dict.get k d) eqn:Hget; [exact Hget|].
  rewrite get_app_absent by exact Hget. simpl.
  replace (eqb k k) with true; [reflexivity|].
  symmetry. apply eqb_true_iff. reflexivity.
Qed.

Lemma get_setdefault_other (k k0 : K) (v : V) (d : Dict.t K V) :
  k0 <> k -> Dict.get k0 (Dict.setdefault k v d) = Dict.get k0 d.
Proof.
  intros Hne. unfold Dict.setdefault. destruct (Dict.get k d); [reflexivity|].
  induction d as [|[k' v'] d IH]; simpl.
  - destruct (eqb k0 k) eqn:Hk; [|reflexivity].
    apply eqb_true_iff in Hk. contradiction.
  - destruct (eqb k0 k'); [reflexivity|exact IH].
Qed.

End DictFacts.

(** ** The acceptance threshold *)

Section Threshold.

Import Schema SkillExtractionService.
Local Open Scope Q_scope.

Lemma ltb_false_le (x y : Q) : Num.ltb x y = false -> y <= x.
Proof.
  unfold Num.ltb. intros Hlt. apply Qge_alt.
  destruct (Qcompare x y); congruence.
Qed.

Lemma fold_left_invariant {A B} (P : A -> Prop) (f : A -> B -> A) (l : list B) :
  (forall a b, P a -> P (f a b)) -> forall a, P a -> P (fold_left f l a).
Proof.
  intros Hstep. induction l as [|b l IH]; intros a Ha; simpl; auto.
Qed.

Lemma add_skill_item_accepted (self : t) (uuid4 : nat -> string)
      (skills_list : list SkillItem) (kv : string * SkillData) :
  Forall (fun item => minimum_confidence <= confidence item
                      /\ confidence item = _calculate_confidence (evidence item))
         skills_list ->
  Forall (fun item => minimum_confidence <= confidence item
                      /\ confidence item = _calculate_confidence (evidence item))
         (add_skill_item self uuid4 skills_list kv).
Proof.
  intros Hall. unfold add_skill_item. destruct kv as [skill_key skill_data].
  destruct (Num.ltb _ minimum_confidence) eqn:Hlt; [exact Hall|].
  apply Forall_app. split; [exact Hall|].
  constructor; [|constructor]. cbn [confidence evidence].
  split; [apply ltb_false_le, Hlt|reflexivity].
Qed.

Lemma extracted_skills_accepted (self : t) (uuid4 : nat -> string)
      (resume_text : string) (processed_data : option (Dict.t string Json))
      (item : SkillItem) :
  In item (_extract_skills self uuid4 resume_text processed_data) ->
  minimum_confidence <= confidence item
  /\ confidence item = _calculate_confidence (evidence item).
Proof.
  unfold _extract_skills, sort_by_confidence. rewrite sort_In.
  revert item. apply Forall_forall.
  apply (fold_left_invariant
           (Forall (fun item =>
                      minimum_confidence <= confidence item
                      /\ confidence item
                         = _calculate_confidence (evidence item)))).
  - intros a b. apply add_skill_item_accepted.
  - constructor.
Qed.




End Threshold.

Section ThresholdExamples.

Import Schema SkillExtractionService.
Local Open Scope Q_scope.



End ThresholdExamples.

(** ** Web and e-mail addresses *)

Section Addresses.

Import SkillExtractionService.





(** The validation knows six endings: under another one the occurrence in
    the address becomes evidence. *)
Example skill_inside_other_url_is_kept :
  map (fun kv => (fst kv, map Schema.offset (sd_evidence (snd kv))))
      (collect_evidence (Sample.service [Sample.skill "Python" []])
                        "see https://example.edu/python" None)
  = [("python", [Some 24])].
Proof. vm_compute. reflexivity. Qed.

End Addresses.

(** ** Overlap resolution *)

Section Overlaps.

Import SkillMatcher.

Import Spec.

Lemma spans_overlap_sym (a b : SkillMatch) :
  _spans_overlap a b = _spans_overlap b a.
Proof.
  unfold _spans_overlap.
  destruct (end_ a <=? start b) eqn:H1, (start a >=? end_ b) eqn:H2,
           (end_ b <=? start a) eqn:H3, (start b >=? end_ a) eqn:H4;
    try reflexivity; lia.
Qed.

Lemma disjoint_sym (a b : SkillMatch) : disjoint a b -> disjoint b a.
Proof. unfold disjoint. rewrite spans_overlap_sym. auto. Qed.

Lemma pair_ltb_spec (a b : Z * Z) :
  Py.pair_ltb a b = true
  <-> fst a < fst b \/ (fst a = fst b /\ snd a < snd b).
Proof.
  unfold Py.pair_ltb.
  rewrite orb_true_iff, andb_true_iff, !Z.ltb_lt, Z.eqb_eq. reflexivity.
Qed.

Lemma pair_ltb_false (a b : Z * Z) :
  Py.pair_ltb a b = false
  <-> fst b < fst a \/ (fst a = fst b /\ snd b <= snd a).
Proof.
  rewrite <- not_true_iff_false, pair_ltb_spec. lia.
Qed.

Lemma no_less_specific_trans (a b c : SkillMatch) :
  no_less_specific a b -> no_less_specific b c -> no_less_specific a c.
Proof.
  unfold no_less_specific, Spec.more_specific.
  rewrite !pair_ltb_false. lia.
Qed.

Lemma sort_by_specificity_sorted (l : list SkillMatch) :
  StronglySorted no_less_specific (sort_by_specificity l).
Proof.
  apply sort_sorted.
  - exact no_less_specific_trans.
  - intros y x Hb. unfold no_less_specific, Spec.more_specific.
    apply pair_ltb_spec in Hb. apply pair_ltb_false. lia.
  - intros y x Hb. exact Hb.
Qed.

Lemma sort_by_start_sorted (l : list SkillMatch) :
  StronglySorted (fun a b => start a <= start b) (sort_by_start l).
Proof.
  apply sort_sorted.
  - intros x y z. lia.
  - intros y x Hb. apply Z.ltb_lt in Hb. lia.
  - intros y x Hb. apply Z.ltb_ge in Hb. exact Hb.
Qed.

(** *** Pairwise disjointness *)

Lemma pairs_snoc {A} (S : A -> A -> Prop) (l : list A) (x : A) :
  ForallOrdPairs S l -> Forall (fun y => S y x) l -> ForallOrdPairs S (l ++ [x]).
Proof.
  induction 1 as [|a l Ha Hl IH]; intros Hx; simpl.
  - constructor; constructor.
  - inversion Hx; subst. constructor.
    + apply Forall_app. split; [exact Ha|constructor; [assumption|constructor]].
    + apply IH. assumption.
Qed.

Lemma pairs_insert {A} (S : A -> A -> Prop) (before : A -> A -> bool)
      (x : A) (l : list A) :
  (forall a b, S a b -> S b a) ->
  ForallOrdPairs S l -> Forall (S x) l ->
  ForallOrdPairs S (Py.insert before x l).
Proof.
  intros Hsym. induction 1 as [|a l Ha Hl IH]; intros Hx; simpl.
  - constructor; constructor.
  - inversion Hx; subst. destruct (before a x).
    + constructor.
      * apply Forall_forall. intros z Hz.
        apply (Permutation_in _ (insert_perm before x l)) in Hz.
        destruct Hz as [<- | Hz]; [apply Hsym; assumption|].
        rewrite Forall_forall in Ha. apply Ha, Hz.
      * apply IH. assumption.
    + constructor; [exact Hx|]. constructor; assumption.
Qed.

Lemma pairs_sort {A} (S : A -> A -> Prop) (before : A -> A -> bool)
      (l : list A) :
  (forall a b, S a b -> S b a) ->
  ForallOrdPairs S l -> ForallOrdPairs S (Py.sort before l).
Proof.
  intros Hsym. induction 1 as [|a l Ha Hl IH]; simpl.
  - constructor.
  - apply pairs_insert; [exact Hsym|exact IH|].
    apply Forall_forall. intros z Hz. apply sort_In in Hz.
    rewrite Forall_forall in Ha. apply Ha, Hz.
Qed.

Lemma pairs_In {A} (S : A -> A -> Prop) (l : list A) (a b : A) :
  (forall a b, S a b -> S b a) ->
  ForallOrdPairs S l -> In a l -> In b l -> a = b \/ S a b.
Proof.
  intros Hsym. induction 1 as [|x l Hx Hl IH]; intros Ha Hb; [destruct Ha|].
  rewrite Forall_forall in Hx.
  destruct Ha as [<- | Ha], Hb as [<- | Hb]; auto.
Qed.

(** *** The greedy walk *)

Lemma keep_disjoint_cases (filtered : list SkillMatch) (m : SkillMatch) :
  (keep_disjoint filtered m = filtered
   /\ exists k, In k filtered /\ _spans_overlap m k = true)
  \/ (keep_disjoint filtered m = filtered ++ [m]
      /\ Forall (fun k => disjoint k m) filtered).
Proof.
  unfold keep_disjoint.
  destruct (existsb _ filtered) eqn:Hex.
  - left. split; [reflexivity|].
    apply existsb_exists in Hex. exact Hex.
  - right. split; [reflexivity|].
    apply Forall_forall. intros k Hk. apply disjoint_sym. unfold disjoint.
    destruct (_spans_overlap m k) eqn:Ho; [|reflexivity].
    assert (Hyes : existsb (fun existing => _spans_overlap m existing) filtered
                   = true) by (apply existsb_exists; eauto).
    congruence.
Qed.

Lemma walk_keeps (l filtered : list SkillMatch) (k : SkillMatch) :
  In k filtered -> In k (fold_left keep_disjoint l filtered).
Proof.
  revert filtered. induction l as [|x l IH]; intros filtered Hk; simpl; auto.
  apply IH.
  destruct (keep_disjoint_cases filtered x) as [[-> _] | [-> _]]; auto.
  apply in_or_app. left. exact Hk.
Qed.

Lemma walk_from (l filtered : list SkillMatch) (k : SkillMatch) :
  In k (fold_left keep_disjoint l filtered) -> In k filtered \/ In k l.
Proof.
  revert filtered. induction l as [|x l IH]; intros filtered Hk; simpl in *; auto.
  apply IH in Hk. destruct Hk as [Hk | Hk]; [|auto].
  destruct (keep_disjoint_cases filtered x) as [[Heq _] | [Heq _]];
    rewrite Heq in Hk; auto.
  apply in_app_or in Hk. destruct Hk as [Hk | [<- | []]]; auto.
Qed.

Lemma walk_disjoint (l filtered : list SkillMatch) :
  ForallOrdPairs disjoint filtered ->
  ForallOrdPairs disjoint (fold_left keep_disjoint l filtered).
Proof.
  revert filtered. induction l as [|x l IH]; intros filtered Hf; simpl; auto.
  apply IH.
  destruct (keep_disjoint_cases filtered x) as [[-> _] | [-> Hall]]; auto.
  apply pairs_snoc; assumption.
Qed.

Lemma walk_dropped (l filtered : list SkillMatch) :
  StronglySorted no_less_specific l ->
  (forall k m, In k filtered -> In m l -> no_less_specific k m) ->
  forall m,
    In m l -> ~ In m (fold_left keep_disjoint l filtered) ->
    exists k, In k (fold_left keep_disjoint l filtered)
              /\ _spans_overlap m k = true
              /\ no_less_specific k m.
Proof.
  revert filtered. induction l as [|x l IH]; intros filtered Hs Hacc m Hm Hout;
    [destruct Hm|].
  inversion Hs as [|? ? Hs' Hx]; subst. rewrite Forall_forall in Hx.
  simpl in *.
  destruct (keep_disjoint_cases filtered x) as [[Heq Hov] | [Heq Hall]].
  - destruct Hm as [<- | Hm].
    + destruct Hov as (k & Hk & Ho). exists k. repeat split; auto.
      apply walk_keeps. rewrite Heq. exact Hk.
    + rewrite Heq in *. apply IH; auto.
  - destruct Hm as [<- | Hm].
    + exfalso. apply Hout, walk_keeps. rewrite Heq.
      apply in_or_app. right. left. reflexivity.
    + rewrite Heq in *. apply IH; auto.
      intros k m' Hk Hm'. apply in_app_or in Hk.
      destruct Hk as [Hk | [<- | []]]; auto.
Qed.

Lemma match_unfolded (self : t) (text : string) :
  match_ self text
  = sort_by_start
      (resolve_overlaps (sort_by_specificity (collect_raw_matches self text))).
Proof.
  unfold match_.
  destruct (String.eqb text "") eqn:Htext.
  - apply String.eqb_eq in Htext. subst text. reflexivity.
  - destruct (finditer (Py.lower text)) as [|tok toks] eqn:Htok.
    + unfold collect_raw_matches. rewrite Htok. reflexivity.
    + destruct (collect_raw_matches self text); reflexivity.
Qed.

(** C1, as the code has it.  The matches returned for a text are pairwise
    non-overlapping and ordered by start offset, and each of them is a raw
    candidate.  Of two raw candidates that overlap at most one is returned.
    A raw candidate is left out only when it overlaps a returned match that
    is no less specific: one with at least as many tokens and, when the
    token counts are equal, a span at least as long. *)
Theorem overlap_resolution (self : t) (text : string) :
  let raw := collect_raw_matches self text in
  let result := match_ self text in
  ForallOrdPairs (fun a b => _spans_overlap a b = false) result
  /\ StronglySorted (fun a b => start a <= start b) result
  /\ (forall m, In m result -> In m raw)
  /\ (forall a b, In a result -> In b result ->
                  _spans_overlap a b = true -> a = b)
  /\ (forall m, In m raw -> ~ In m result ->
                exists k, In k result
                          /\ _spans_overlap m k = true
                          /\ Spec.more_specific m k = false).
Proof.
  cbv zeta. rewrite match_unfolded.
  set (raw := collect_raw_matches self text).
  assert (Hpairs : ForallOrdPairs disjoint
                     (sort_by_start
                        (resolve_overlaps (sort_by_specificity raw)))).
  { apply pairs_sort; [exact disjoint_sym|].
    apply walk_disjoint. constructor. }
  split; [exact Hpairs|].
  split; [apply sort_by_start_sorted|].
  split; [|split].
  - intros m Hm. apply sort_In in Hm. apply walk_from in Hm.
    destruct Hm as [[] | Hm]. apply sort_In in Hm. exact Hm.
  - intros a b Ha Hb Ho.
    destruct (pairs_In disjoint _ a b disjoint_sym Hpairs Ha Hb) as [Heq | Hd];
      [exact Heq|].
    unfold disjoint in Hd. congruence.
  - intros m Hm Hout.
    destruct (walk_dropped (sort_by_specificity raw) []
                (sort_by_specificity_sorted raw)
                ltac:(intros k m' [])
                m) as (k & Hk & Ho & Hspec).
    + apply sort_In. exact Hm.
    + intros Hin. apply Hout. apply sort_In. exact Hin.
    + exists k. repeat split; [apply sort_In; exact Hk|exact Ho|exact Hspec].
Qed.

Lemma overlap_resolution_witness :
  exists k,
    In k (match_ (Sample.matcher Sample.chain_skills) Sample.chain_text)
    /\ _spans_overlap Sample.gamma_delta_match k = true
    /\ Spec.more_specific Sample.gamma_delta_match k = false.
Proof.
  apply (proj2 (proj2 (proj2 (proj2
           (overlap_resolution (Sample.matcher Sample.chain_skills)
                               Sample.chain_text))))).
  - vm_compute. right. left. reflexivity.
  - vm_compute. intros [H | [H | []]]; discriminate H.
Defined.

(** C1, as stated, fails: in "alpha beta gamma delta", with the skills
    "Alpha Beta Gamma", "Gamma Delta" and "Delta", the candidates for the
    last two overlap and "Gamma Delta" is the longer one, but it is "Delta"
    that is returned: "Gamma Delta" had lost to "Alpha Beta Gamma". *)
Lemma longer_overlapping_match_can_lose :
  let raw := collect_raw_matches (Sample.matcher Sample.chain_skills)
                                 Sample.chain_text in
  let result := match_ (Sample.matcher Sample.chain_skills) Sample.chain_text in
  exists b c,
    In b raw /\ In c raw
    /\ canonical_name (entry b) = "Gamma Delta"
    /\ canonical_name (entry c) = "Delta"
    /\ _spans_overlap b c = true
    /\ Spec.more_specific b c = true
    /\ ~ In b result
    /\ In c result.
Proof.
  cbv zeta.
  set (raw := collect_raw_matches _ _).
  set (result := match_ _ _).
  vm_compute in raw, result.
  exists (nth 1 raw Sample.ml_in_html), (nth 2 raw Sample.ml_in_html).
  subst raw result. cbn [nth].
  repeat split; try (vm_compute; reflexivity).
  - right. left. reflexivity.
  - right. right. left. reflexivity.
  - intros [H | [H | []]]; discriminate H.
  - right. left. reflexivity.
Qed.

End Overlaps.

(** ** Equality tests *)

Lemma list_eqb_spec {A} `{EqbSpec A} (xs ys : list A) :
  list_eqb xs ys = true <-> xs = ys.
Proof.
  revert ys. induction xs as [|x xs IH]; intros [|y ys]; simpl;
    try (split; [discriminate|congruence]); [tauto|].
  rewrite andb_true_iff, IH. split.
  - intros [Hxy ->]. apply eqb_true_iff in Hxy. congruence.
  - intros [= -> ->]. split; [apply eqb_true_iff|]; reflexivity.
Qed.

#[export] Instance list_EqbSpec {A} `{EqbSpec A} : EqbSpec (list A).
Proof. intros xs ys. apply list_eqb_spec. Qed.

#[export] Instance pair_EqbSpec {A B} `{EqbSpec A} `{EqbSpec B} : EqbSpec (A * B).
Proof.
  intros [a b] [a' b']. unfold eqb, pair_Eqb. simpl.
  rewrite andb_true_iff. split.
  - intros [Ha Hb]. apply eqb_true_iff in Ha, Hb. congruence.
  - intros [= -> ->]. split; apply eqb_true_iff; reflexivity.
Qed.

(** ** Token variants *)

Section Variants.

Import SkillMatcher.

Lemma finditer_groups (s : string) (pos : Z) :
  Forall (fun t => group t <> "") (finditer_from pos s).
Proof.
  revert pos. induction s as [|c s IH]; intros pos; simpl; [constructor|].
  destruct (token_char c); [|apply IH].
  specialize (IH (pos + 1)).
  destruct (finditer_from (pos + 1) s) as [|t ts].
  - constructor; [discriminate|constructor].
  - inversion IH; subst.
    destruct (t_start t =? pos + 1); constructor; try discriminate; auto.
Qed.

Lemma join_nonempty (tokens : list string) :
  tokens <> [] -> Forall (fun t => t <> "") tokens -> Py.join " " tokens <> "".
Proof.
  intros Hne Hall. destruct tokens as [|t ts]; [congruence|].
  inversion Hall; subst. simpl.
  destruct ts; [assumption|].
  destruct t; [congruence|discriminate].
Qed.

Lemma findall_join (variant : string) :
  findall variant <> [] -> Py.join " " (findall variant) <> "".
Proof.
  intros Hne. apply join_nonempty; [exact Hne|].
  unfold findall, finditer. apply Forall_map. apply finditer_groups.
Qed.

Lemma variants_join (phrase : string) (tokens : list string) :
  In tokens (_generate_token_variants phrase) -> Py.join " " tokens <> "".
Proof.
  unfold _generate_token_variants.
  destruct (String.eqb phrase ""); [intros []|].
  cbv zeta.
  match goal with
  | |- In _ (fold_left ?f ?l []) -> _ =>
      assert (Hgen : forall acc,
                 (forall x, In x acc -> Py.join " " x <> "") ->
                 forall x, In x (fold_left f l acc) -> Py.join " " x <> "")
  end.
  { match goal with |- forall acc, _ -> forall x, In x (fold_left _ ?l _) -> _ =>
      induction l as [|v vs IH] end; intros acc Hacc x; simpl; [apply Hacc|].
    apply IH. intros y Hy.
    destruct (findall v) as [|t ts] eqn:Hv; [apply Hacc, Hy|].
    apply set_add_In in Hy. destruct Hy as [-> | Hy]; [|apply Hacc, Hy].
    rewrite <- Hv. apply findall_join. rewrite Hv. discriminate. }
  apply Hgen. intros x [].
Qed.

End Variants.

(** ** The index that is built *)

Section BuildIndex.

Import SkillMatcher Invariant.

Variable mappings : list Taxonomy.Mapping.

Lemma append_to_entries {A} (k : string) (v : A)
      (d : Dict.t string (list A)) (x : A) :
  In x (List.concat (Dict.values (Dict.append_to k v d))) ->
  x = v \/ In x (List.concat (Dict.values d)).
Proof.
  induction d as [|[k' l] d IH]; simpl.
  - intros [<- | []]. left. reflexivity.
  - destruct (eqb k k'); simpl; rewrite !in_app_iff.
    + simpl. intros [[Hx | [<- | []]] | Hx]; auto.
    + intros [Hx | Hx]; auto. apply IH in Hx. tauto.
Qed.

Lemma empty_build_holds : holds mappings empty_build.
Proof. split; simpl; intros; try discriminate; contradiction. Qed.

Lemma add_variant_holds (m : Taxonomy.Mapping) (phrase : string)
      (st : Build) (tokens : list string) :
  In m mappings -> Taxonomy.skill_name m <> "" ->
  holds mappings st -> holds mappings (add_variant m phrase st tokens).
Proof.
  intros Hm Hname [Hu Hi].
  assert (Hknown : known mappings (Taxonomy.skill_name m))
    by (exists m; auto).
  unfold add_variant.
  destruct (String.eqb (Py.join " " tokens) ""); [split; assumption|].
  destruct (Dict.get (Py.lower (Taxonomy.skill_name m), Py.join " " tokens)
                     (b_unique_entries st)) as [entry|] eqn:Hget.
  - destruct (Hu _ _ Hget) as [_ Hk].
    split; cbn [b_unique_entries b_index]; [exact Hu|].
    intros e He. apply append_to_entries in He.
    destruct He as [-> | He]; [exact Hk|apply Hi, He].
  - split; cbn [b_unique_entries b_index].
    + intros key e He.
      destruct (eqb key (Py.lower (Taxonomy.skill_name m), Py.join " " tokens))
        eqn:Hkey.
      * apply eqb_true_iff in Hkey. subst key.
        rewrite get_set_same in He. injection He as <-. simpl. auto.
      * rewrite get_set_other in He; [apply Hu, He|].
        intros ->. assert (Ht : eqb (Py.lower (Taxonomy.skill_name m),
                                    Py.join " " tokens)
                                   (Py.lower (Taxonomy.skill_name m),
                                    Py.join " " tokens) = true)
          by (apply eqb_true_iff; reflexivity).
        congruence.
    + intros e He. apply append_to_entries in He.
      destruct He as [-> | He]; [exact Hknown|apply Hi, He].
Qed.

Lemma fold_left_In_invariant {A B} (P : A -> Prop) (f : A -> B -> A)
      (l : list B) :
  (forall a b, In b l -> P a -> P (f a b)) ->
  forall a, P a -> P (fold_left f l a).
Proof.
  induction l as [|b l IH]; intros Hstep a Ha; simpl; [exact Ha|].
  apply IH.
  - intros a' b' Hb'. apply Hstep. right. exact Hb'.
  - apply Hstep; [left; reflexivity|exact Ha].
Qed.

Lemma add_variant_keeps_present (m : Taxonomy.Mapping) (phrase n : string)
      (st : Build) (tokens : list string) :
  present n st -> present n (add_variant m phrase st tokens).
Proof.
  unfold present, add_variant. intros Hn.
  destruct (String.eqb (Py.join " " tokens) ""); [exact Hn|].
  destruct (Dict.get _ (b_unique_entries st));
    cbn [b_normalized_lookup];
    destruct (Dict.get n (b_normalized_lookup st)) as [e0|] eqn:Hold;
    try congruence;
    rewrite (get_setdefault_present _ _ _ _ _ Hold); discriminate.
Qed.

Lemma add_variant_registers (m : Taxonomy.Mapping) (phrase : string)
      (st : Build) (tokens : list string) :
  Py.join " " tokens <> "" ->
  present (Py.join " " tokens) (add_variant m phrase st tokens).
Proof.
  unfold present, add_variant. intros Hne.
  rewrite string_eqb_neq by exact Hne.
  destruct (Dict.get _ (b_unique_entries st));
    cbn [b_normalized_lookup];
    rewrite get_setdefault_same;
    destruct (Dict.get _ (b_normalized_lookup st)); discriminate.
Qed.

Lemma registers_variant (m : Taxonomy.Mapping) (phrase : string)
      (tokens : list string) :
  Taxonomy.skill_name m <> "" ->
  In phrase (Spec.phrases m) ->
  In tokens (_generate_token_variants phrase) ->
  Spec.registers m (Py.join " " tokens) = true.
Proof.
  intros Hname Hphrase Htokens. unfold Spec.registers.
  rewrite (string_eqb_neq _ _ Hname). cbn [negb andb].
  apply existsb_exists. exists phrase. split; [exact Hphrase|].
  apply mem_In. unfold Spec.normalized_variants. apply in_map. exact Htokens.
Qed.

Lemma registers_inv (m : Taxonomy.Mapping) (n : string) :
  Spec.registers m n = true ->
  Taxonomy.skill_name m <> ""
  /\ exists phrase, In phrase (Spec.phrases m)
                    /\ In n (Spec.normalized_variants phrase).
Proof.
  unfold Spec.registers. rewrite andb_true_iff, negb_true_iff.
  intros [Hname Hex]. split; [apply String.eqb_neq, Hname|].
  apply existsb_exists in Hex. destruct Hex as (phrase & Hphrase & Hmem).
  exists phrase. split; [exact Hphrase|]. apply mem_In. exact Hmem.
Qed.

Lemma extends_refl (m : Taxonomy.Mapping) (st : Build) : extends m st st.
Proof. split; auto. Qed.

Lemma add_variant_extends (m : Taxonomy.Mapping) (phrase : string)
      (st0 st : Build) (tokens : list string) :
  Taxonomy.skill_name m <> "" ->
  In phrase (Spec.phrases m) ->
  In tokens (_generate_token_variants phrase) ->
  holds mappings st ->
  extends m st0 st -> extends m st0 (add_variant m phrase st tokens).
Proof.
  intros Hname Hphrase Htokens [Hu _] [Hkeep Hnew]. split.
  - intros n Hn. apply add_variant_keeps_present, Hkeep, Hn.
  - pose proof (registers_variant m phrase tokens Hname Hphrase Htokens)
      as Hreg.
    assert (Hfresh : forall entry n e,
               Py.lower (canonical_name entry)
               = Py.lower (Taxonomy.skill_name m) ->
               Dict.get n (Dict.setdefault (Py.join " " tokens) entry
                                           (b_normalized_lookup st)) = Some e ->
               Dict.get n (b_normalized_lookup st0) = Some e
               \/ (Dict.get n (b_normalized_lookup st0) = None
                   /\ Spec.registers m n = true
                   /\ Py.lower (canonical_name e)
                      = Py.lower (Taxonomy.skill_name m))).
    { intros entry n e Hentry He.
      destruct (String.eqb n (Py.join " " tokens)) eqn:Hn.
      - apply String.eqb_eq in Hn. subst n.
        rewrite get_setdefault_same in He.
        destruct (Dict.get _ (b_normalized_lookup st)) as [e0|] eqn:Hold.
        + injection He as <-. apply Hnew, Hold.
        + injection He as <-. right. repeat split; auto.
          destruct (Dict.get _ (b_normalized_lookup st0)) eqn:H0; auto.
          exfalso. apply (Hkeep (Py.join " " tokens)); [|exact Hold].
          unfold present. rewrite H0. discriminate.
      - apply String.eqb_neq in Hn.
        rewrite get_setdefault_other in He by exact Hn. apply Hnew, He. }
    unfold add_variant.
    destruct (String.eqb (Py.join " " tokens) ""); [exact Hnew|].
    destruct (Dict.get (Py.lower (Taxonomy.skill_name m), Py.join " " tokens)
                       (b_unique_entries st)) as [entry|] eqn:Hget;
      cbn [b_normalized_lookup]; intros n e; apply Hfresh.
    + destruct (Hu _ _ Hget) as [Hkey _]. symmetry. exact Hkey.
    + reflexivity.
Qed.

Lemma add_mapping_step (st0 : Build) (m : Taxonomy.Mapping) :
  In m mappings -> holds mappings st0 ->
  holds mappings (add_mapping st0 m)
  /\ extends m st0 (add_mapping st0 m)
  /\ (forall n, Spec.registers m n = true -> present n (add_mapping st0 m)).
Proof.
  intros Hm Hst0. unfold add_mapping.
  destruct (String.eqb (Taxonomy.skill_name m) "") eqn:Hname.
  - split; [exact Hst0|]. split; [apply extends_refl|].
    intros n Hreg. unfold Spec.registers in Hreg.
    rewrite Hname in Hreg. discriminate.
  - apply String.eqb_neq in Hname.
    set (P := fun st covered =>
                holds mappings st /\ extends m st0 st
                /\ forall phrase n,
                     In phrase covered ->
                     In n (Spec.normalized_variants phrase) -> present n st).
    assert (Hphrases : forall todo covered st,
               (forall phrase, In phrase todo -> In phrase (Spec.phrases m)) ->
               P st covered ->
               P (fold_left (add_phrase m) todo st) (covered ++ todo)).
    { induction todo as [|phrase todo IH]; intros covered st Hsub Hst.
      - rewrite app_nil_r. exact Hst.
      - simpl.
        replace (covered ++ phrase :: todo) with ((covered ++ [phrase]) ++ todo)
          by (rewrite <- app_assoc; reflexivity).
        apply IH; [intros p Hp; apply Hsub; right; exact Hp|].
        assert (Hin : In phrase (Spec.phrases m))
          by (apply Hsub; left; reflexivity).
        clear IH Hsub. unfold add_phrase.
        set (Q := fun st' seen =>
                    holds mappings st' /\ extends m st0 st'
                    /\ (forall p n,
                          In p covered ->
                          In n (Spec.normalized_variants p) -> present n st')
                    /\ forall tokens,
                         In tokens seen -> present (Py.join " " tokens) st').
        assert (Hvariants : forall later seen st',
                   (forall tokens, In tokens later ->
                                   In tokens (_generate_token_variants phrase)) ->
                   Q st' seen ->
                   Q (fold_left (add_variant m phrase) later st') (seen ++ later)).
        { induction later as [|tokens later IH]; intros seen st' Hsub Hst'.
          - rewrite app_nil_r. exact Hst'.
          - simpl.
            replace (seen ++ tokens :: later) with ((seen ++ [tokens]) ++ later)
              by (rewrite <- app_assoc; reflexivity).
            apply IH; [intros t Ht; apply Hsub; right; exact Ht|].
            assert (Htok : In tokens (_generate_token_variants phrase))
              by (apply Hsub; left; reflexivity).
            destruct Hst' as (Hh & He & Hc & Hd).
            split; [apply add_variant_holds; assumption|].
            split; [apply add_variant_extends; assumption|].
            split.
            + intros p n Hp Hn. apply add_variant_keeps_present.
              apply (Hc p); assumption.
            + intros t Ht. apply in_app_or in Ht.
              destruct Ht as [Ht | [<- | []]].
              * apply add_variant_keeps_present, Hd, Ht.
              * apply add_variant_registers.
                eapply variants_join. exact Htok. }
        destruct (Hvariants (_generate_token_variants phrase) [] st
                    (fun t Ht => Ht))
          as (Hh & He & Hc & Hd).
        { destruct Hst as (Hh & He & Hc).
          split; [exact Hh|]. split; [exact He|]. split; [exact Hc|].
          intros t []. }
        split; [exact Hh|]. split; [exact He|].
        intros p n Hp Hn. apply in_app_or in Hp.
        destruct Hp as [Hp | [<- | []]]; [apply (Hc p); assumption|].
        unfold Spec.normalized_variants in Hn. apply in_map_iff in Hn.
        destruct Hn as (tokens & <- & Htokens). apply Hd. exact Htokens. }
    destruct (Hphrases (Taxonomy.skill_name m :: Taxonomy.aliases m) [] st0
                (fun p Hp => Hp))
      as (Hh & He & Hc).
    { split; [exact Hst0|]. split; [apply extends_refl|]. intros p n []. }
    split; [exact Hh|]. split; [exact He|].
    intros n Hreg. apply registers_inv in Hreg.
    destruct Hreg as [_ (phrase & Hphrase & Hn)].
    apply (Hc phrase); assumption.
Qed.

Lemma find_in_app {A} (f : A -> bool) (l1 l2 : list A) :
  find f (l1 ++ l2)
  = match find f l1 with Some x => Some x | None => find f l2 end.
Proof.
  induction l1 as [|x l1 IH]; simpl; [reflexivity|].
  destruct (f x); [reflexivity|exact IH].
Qed.

Lemma build_index_snoc (done : list Taxonomy.Mapping) (m : Taxonomy.Mapping) :
  _build_index (done ++ [m]) = add_mapping (_build_index done) m.
Proof. unfold _build_index. rewrite fold_left_app. reflexivity. Qed.

(** What the index built from the first records of the taxonomy holds. *)
Lemma build_index_prefix (done : list Taxonomy.Mapping) :
  (forall m, In m done -> In m mappings) ->
  holds mappings (_build_index done)
  /\ (forall m n, In m done -> Spec.registers m n = true ->
                  present n (_build_index done))
  /\ (forall n e,
         Dict.get n (b_normalized_lookup (_build_index done)) = Some e ->
         exists m, Spec.first_record done n = Some m
                   /\ Py.lower (canonical_name e)
                      = Py.lower (Taxonomy.skill_name m)).
Proof.
  induction done as [|m done IH] using rev_ind; intros Hsub.
  - split; [apply empty_build_holds|].
    split; [intros m n []|intros n e He; discriminate He].
  - destruct IH as (Hh & Hc & Hl).
    { intros m' Hm'. apply Hsub. apply in_or_app. left. exact Hm'. }
    rewrite build_index_snoc.
    destruct (add_mapping_step (_build_index done) m) as (Hh' & [Hkeep Hnew] & Hc').
    { apply Hsub. apply in_or_app. right. left. reflexivity. }
    { exact Hh. }
    split; [exact Hh'|]. split.
    + intros m' n Hm' Hreg. apply in_app_or in Hm'.
      destruct Hm' as [Hm' | [<- | []]].
      * apply Hkeep. apply (Hc m'); assumption.
      * apply Hc'. exact Hreg.
    + intros n e He. unfold Spec.first_record in *. rewrite find_in_app.
      destruct (Hnew n e He) as [Hold | (Hnone & Hreg & Hlower)].
      * destruct (Hl n e Hold) as (m0 & Hfind & Hlower).
        exists m0. rewrite Hfind. auto.
      * destruct (find (fun m0 => Spec.registers m0 n) done) as [m0|] eqn:Hfind.
        -- exfalso. apply find_some in Hfind. destruct Hfind as [Hm0 Hreg0].
           apply (Hc m0 n Hm0 Hreg0). exact Hnone.
        -- exists m. simpl. rewrite Hreg. auto.
Qed.

End BuildIndex.

(** ** Resolving a canonical name *)

Section ResolvePhrase.

Import SkillMatcher Invariant.

Lemma first_resolved_hits (self : t) (c : string)
      (variants : list (list string)) :
  variants <> [] ->
  Py.mem (Py.lower c) (excluded self) = false ->
  (forall tokens, In tokens variants ->
      exists e, Dict.get (Py.join " " tokens) (normalized_lookup self) = Some e
                /\ Py.lower (canonical_name e) = Py.lower c) ->
  exists r, first_resolved self variants = Some r
            /\ Py.lower (canonical_name r) = Py.lower c.
Proof.
  intros Hne Hexcl Hall. destruct variants as [|tokens rest]; [congruence|].
  destruct (Hall tokens (or_introl eq_refl)) as (e & Hget & Hcanon).
  exists e. simpl. rewrite Hget, Hcanon, Hexcl. simpl. auto.
Qed.

(** C3, as the code has it.  Let [e] be an entry of the index of a
    matcher and [c] its canonical name.  If [c] holds a token, is not in the
    exclusion set of the matcher, and each of its normalized variants is
    first registered, in the order of the taxonomy, by a record named [c],
    letter case apart, then resolving [c] returns an entry whose canonical
    name is [c], letter case apart. *)
Theorem canonical_name_resolves
        (taxonomy_mapper : Taxonomy.TaxonomyMapper) (excluded : list string)
        (e : SkillEntry) :
  let self := init taxonomy_mapper excluded in
  let c := canonical_name e in
  In e (Spec.entries self) ->
  _generate_token_variants c <> [] ->
  Py.mem (Py.lower c) (SkillMatcher.excluded self) = false ->
  Spec.unambiguous (Taxonomy.get_all_mappings taxonomy_mapper) c = true ->
  exists r, resolve_phrase self c = Some r
            /\ Py.lower (canonical_name r) = Py.lower c.
Proof.
  cbv zeta. set (mappings := Taxonomy.get_all_mappings taxonomy_mapper).
  intros He Hvar Hexcl Hunamb.
  destruct (build_index_prefix mappings mappings (fun m Hm => Hm))
    as ([_ Hindex] & Hcover & Hlookup).
  unfold Spec.entries, init in He. cbn [index] in He.
  destruct (Hindex e He) as (m & Hm & Hname & Hcanon).
  unfold resolve_phrase.
  rewrite string_eqb_neq
    by (intros Hc; rewrite Hc in Hvar; apply Hvar; reflexivity).
  apply first_resolved_hits; [exact Hvar|exact Hexcl|].
  intros tokens Htokens. unfold init. cbn [normalized_lookup].
  assert (Hn : In (Py.join " " tokens)
                  (Spec.normalized_variants (canonical_name e))).
  { unfold Spec.normalized_variants. apply in_map. exact Htokens. }
  assert (Hpresent : present (Py.join " " tokens) (_build_index mappings)).
  { apply (Hcover m); [exact Hm|].
    apply (registers_variant m (Taxonomy.skill_name m)); [exact Hname| |].
    - left. reflexivity.
    - rewrite <- Hcanon. exact Htokens. }
  unfold present in Hpresent.
  destruct (Dict.get _ (b_normalized_lookup (_build_index mappings)))
    as [r|] eqn:Hget; [|congruence].
  exists r. split; [exact Hget|].
  destruct (Hlookup _ _ Hget) as (m' & Hfirst & Hlower).
  rewrite Hlower.
  unfold Spec.unambiguous in Hunamb. rewrite forallb_forall in Hunamb.
  specialize (Hunamb _ Hn). rewrite Hfirst in Hunamb.
  apply String.eqb_eq. exact Hunamb.
Qed.

End ResolvePhrase.

Section ResolveExamples.

Import SkillMatcher.

Lemma canonical_name_resolves_witness :
  exists r,
    resolve_phrase
      (init (Taxonomy._load_taxonomy Sample.python_docker)
            SkillExtractionService.excluded_skills)
      (canonical_name Sample.python_entry) = Some r
    /\ Py.lower (canonical_name r)
       = Py.lower (canonical_name Sample.python_entry).
Proof.
  apply (canonical_name_resolves
           (Taxonomy._load_taxonomy Sample.python_docker)
           SkillExtractionService.excluded_skills Sample.python_entry).
  - vm_compute. left. reflexivity.
  - vm_compute. discriminate.
  - vm_compute. reflexivity.
  - vm_compute. reflexivity.
Defined.

(** C3, as stated, fails: the service excludes "r", so the canonical name
    of the entry of the skill "R" resolves to nothing. *)
Lemma excluded_canonical_name_does_not_resolve :
  let self := Sample.matcher [Sample.skill "R" []] in
  exists e,
    In e (Spec.entries self)
    /\ canonical_name e = "R"
    /\ resolve_phrase self (canonical_name e) = None.
Proof.
  cbv zeta. eexists. split; [vm_compute; left; reflexivity|].
  split; vm_compute; reflexivity.
Qed.

(** Nor does it hold when an earlier record has the name as an alias: "JS"
    resolves to the entry of "JavaScript". *)
Example alias_of_an_earlier_record_wins :
  option_map canonical_name
    (resolve_phrase
       (Sample.matcher [Sample.skill "JavaScript" ["JS"]; Sample.skill "JS" []])
       "JS")
  = Some "JavaScript".
Proof. vm_compute. reflexivity. Qed.

(** An alias of a later record that shares a variant does no harm: the
    name is registered first. *)
Example alias_of_a_later_record_loses :
  Spec.unambiguous
    (Taxonomy.get_all_mappings
       (Taxonomy._load_taxonomy
          [Sample.skill "Node.js" []; Sample.skill "Express" ["Node JS"]]))
    "Node.js" = true
  /\ option_map canonical_name
       (resolve_phrase
          (Sample.matcher
             [Sample.skill "Node.js" []; Sample.skill "Express" ["Node JS"]])
          "Node.js")
     = Some "Node.js".
Proof. split; vm_compute; reflexivity. Qed.

End ResolveExamples.

(** ** Scenarios of the specification *)

Section Scenarios.

Import SkillMatcher.

(** "Skills: Excel, Word, PowerPoint": the header makes a list context. *)
Example skills_header_allows_office_terms :
  map (fun m => (canonical_name (entry m), start m, end_ m))
      (match_ (Sample.matcher Sample.office_skills)
              "Skills: Excel, Word, PowerPoint")
  = [("Excel", 8, 13); ("Word", 15, 19); ("PowerPoint", 21, 31)].
Proof. vm_compute. reflexivity. Qed.

(** "I excelled at sports": the token is "excelled", not "excel". *)
Example excelled_is_another_token :
  match_ (Sample.matcher Sample.office_skills) "I excelled at sports" = [].
Proof. vm_compute. reflexivity. Qed.

(** A full stop is a token character: "Docker." is not the token
    "docker". *)
Example full_stop_joins_the_token :
  map (fun i => (Schema.name i, Schema.confidence i,
                 map Schema.score (Schema.evidence i)))
      (SkillExtractionService._extract_skills
         (Sample.service Sample.python_docker) Sample.uuid4
         "5+ years of experience with Python and strong knowledge of Docker."
         None)
  = [("Python", 0.81%Q, [1%Q])].
Proof. vm_compute. reflexivity. Qed.

End Scenarios.

(* ================================================================== *)
(** ** Lifecycle actions: what a request changes *)

Section Actions.

Import Schema SkillExtractionService.

Lemma find_skill_index_spec (skills : list SkillItem) (skill_name : string)
      (base i : nat) (s : SkillItem) :
  find_skill_index skills skill_name base = Some (i, s) ->
  exists before after,
    skills = before ++ s :: after
    /\ i = (base + List.length before)%nat
    /\ Py.lower (name s) = Py.lower skill_name
    /\ Forall (fun x => Py.lower (name x) <> Py.lower skill_name) before.
Proof.
  revert base. induction skills as [|x rest IH]; intros base Hfind.
  - discriminate.
  - cbn [find_skill_index] in Hfind.
    destruct (String.eqb (Py.lower (name x)) (Py.lower skill_name)) eqn:E.
    + inversion Hfind; subst. exists [], rest. cbn.
      repeat split; auto. apply String.eqb_eq. exact E.
    + destruct (IH _ Hfind) as (before & after & -> & -> & Hs & Hb).
      exists (x :: before), after. cbn. repeat split; auto; try lia.
      constructor; auto. apply String.eqb_neq. exact E.
Qed.

Lemma find_skill_index_present (skills : list SkillItem) (skill_name : string)
      (base : nat) :
  (exists s, In s skills /\ Py.lower (name s) = Py.lower skill_name) ->
  exists i s, find_skill_index skills skill_name base = Some (i, s).
Proof.
  revert base. induction skills as [|x rest IH]; intros base (s & Hin & Hs).
  - destruct Hin.
  - cbn [find_skill_index].
    destruct (String.eqb (Py.lower (name x)) (Py.lower skill_name)) eqn:E.
    + eauto.
    + destruct Hin as [->|Hin].
      * apply String.eqb_neq in E. contradiction.
      * apply IH. eauto.
Qed.

Lemma list_set_middle {A} (before after : list A) (x v : A) :
  list_set (List.length before) v (before ++ x :: after) = before ++ v :: after.
Proof. induction before as [|b before IH]; cbn; [reflexivity | now rewrite IH]. Qed.

Lemma select_after_update (db : Database) (id other : string)
      (new_skills : list SkillItem) :
  select_profile (update_skills db id new_skills) other
  = if String.eqb other id
    then option_map (fun p => {| profile_id := profile_id p;
                                 resume_id := resume_id p;
                                 skills := new_skills |})
                    (select_profile db id)
    else select_profile db other.
Proof.
  unfold select_profile, update_skills. cbn [skill_profiles].
  induction (skill_profiles db) as [|p rest IH].
  - cbn. now destruct (String.eqb other id).
  - cbn [map find].
    destruct (String.eqb other id) eqn:Eo.
    + apply String.eqb_eq in Eo. subst other.
      destruct (String.eqb (profile_id p) id) eqn:Ep; cbn [profile_id].
      * rewrite Ep. reflexivity.
      * rewrite Ep. exact IH.
    + destruct (String.eqb (profile_id p) id) eqn:Ep; cbn [profile_id].
      * apply String.eqb_eq in Ep. rewrite Ep.
        rewrite String.eqb_sym, Eo. exact IH.
      * destruct (String.eqb (profile_id p) other); [reflexivity | exact IH].
Qed.

(** The three actions and the state each of them writes. *)
Lemma action_success (db db' : Database) (request : SkillActionRequest)
      (message : string) (updated : option SkillItem) :
  update_skill_action db request = (db', (true, message, updated)) ->
  exists profile before previous after new_state,
    select_profile db (req_profile_id request) = Some profile
    /\ skills profile = before ++ previous :: after
    /\ Forall (fun x => Py.lower (name x) <> Py.lower (req_skill_name request))
              before
    /\ Py.lower (name previous) = Py.lower (req_skill_name request)
    /\ updated = Some new_state
    /\ ((req_action request = "accept"
         /\ new_state = with_status previous accepted (edited_name previous)
                                    (category previous))
        \/ (req_action request = "reject"
            /\ new_state = with_status previous rejected (edited_name previous)
                                       (category previous))
        \/ (req_action request = "edit"
            /\ new_state
               = with_status previous edited
                   (if truthy (req_edited_name request)
                    then req_edited_name request else edited_name previous)
                   (if truthy (req_edited_category request)
                    then or_else (req_edited_category request) ""
                    else category previous)))
    /\ db' = {| skill_profiles :=
                  skill_profiles
                    (update_skills db (req_profile_id request)
                                   (before ++ new_state :: after));
                skill_audit_logs :=
                  skill_audit_logs db ++
                  [ {| log_profile_id := req_profile_id request;
                       log_skill_name := req_skill_name request;
                       log_action := req_action request;
                       previous_value := previous;
                       new_value := new_state |} ] |}.
Proof.
  unfold update_skill_action.
  destruct (select_profile db (req_profile_id request)) as [profile|] eqn:Hsel;
    [|discriminate].
  destruct (find_skill_index (skills profile) (req_skill_name request) 0)
    as [[i previous]|] eqn:Hfind; [|discriminate].
  destruct (find_skill_index_spec _ _ _ _ _ Hfind)
    as (before & after & Hsk & -> & Hname & Hbefore).
  cbn [Nat.add]. rewrite Hsk. intros Hres.
  exists profile, before, previous, after.
  destruct (String.eqb (req_action request) "accept") eqn:Ea.
  { apply String.eqb_eq in Ea. rewrite list_set_middle in Hres.
    inversion Hres; subst.
    eexists. repeat split; eauto. }
  destruct (String.eqb (req_action request) "reject") eqn:Er.
  { apply String.eqb_eq in Er. rewrite list_set_middle in Hres.
    inversion Hres; subst.
    eexists. repeat split; eauto. }
  destruct (String.eqb (req_action request) "edit") eqn:Ee.
  { apply String.eqb_eq in Ee. rewrite list_set_middle in Hres.
    inversion Hres; subst.
    eexists. repeat split; eauto. }
  discriminate Hres.
Qed.

(** X1: a request that fails leaves both tables as they were and returns no
    skill; this holds for each of the three failures (unknown profile,
    unknown skill, unknown action). *)
Theorem failed_action_changes_nothing
        (db db' : Database) (request : SkillActionRequest)
        (message : string) (updated : option SkillItem) :
  update_skill_action db request = (db', (false, message, updated)) ->
  db' = db /\ updated = None.
Proof.
  unfold update_skill_action.
  destruct (select_profile db (req_profile_id request)) as [profile|];
    [|intros H; inversion H; auto].
  destruct (find_skill_index (skills profile) (req_skill_name request) 0)
    as [[i previous]|]; [|intros H; inversion H; auto].
  destruct (String.eqb (req_action request) "accept"); [discriminate|].
  destruct (String.eqb (req_action request) "reject"); [discriminate|].
  destruct (String.eqb (req_action request) "edit"); [discriminate|].
  intros H; inversion H; auto.
Qed.

Lemma failed_action_changes_nothing_witness :
  Sample.sample_db = Sample.sample_db /\ @None SkillItem = None.
Proof.
  apply (failed_action_changes_nothing
           Sample.sample_db Sample.sample_db
           (Sample.sample_request "Python" "delete")
           "Invalid action: delete" None).
  reflexivity.
Defined.

(** X2: a request succeeds exactly when the profile exists, one of its
    skills bears the requested name, letter case apart, and the action is
    accept, reject or edit. *)
Theorem action_succeeds_iff (db : Database) (request : SkillActionRequest) :
  fst (fst (snd (update_skill_action db request))) = true
  <-> (exists profile s,
          select_profile db (req_profile_id request) = Some profile
          /\ In s (skills profile)
          /\ Py.lower (name s) = Py.lower (req_skill_name request))
      /\ In (req_action request) ["accept"; "reject"; "edit"].
Proof.
  split.
  - destruct (update_skill_action db request) as [db' [[ok message] updated]] eqn:E.
    cbn. intros ->.
    destruct (action_success _ _ _ _ _ E)
      as (profile & before & previous & after & new_state
          & Hsel & Hsk & _ & Hname & _ & Hact & _).
    split.
    + exists profile, previous. repeat split; auto.
      rewrite Hsk. apply in_or_app. right. now left.
    + cbn. destruct Hact as [[-> _]|[[-> _]|[-> _]]]; auto.
  - intros [(profile & s & Hsel & Hin & Hname) Hact].
    unfold update_skill_action. rewrite Hsel.
    destruct (find_skill_index_present (skills profile) (req_skill_name request) 0)
      as (i & previous & ->); [eauto|].
    cbn in Hact. destruct Hact as [<-|[<-|[<-|[]]]]; reflexivity.
Qed.

(** X3: a request that succeeds rewrites one skill of one profile: the
    first skill that bears the requested name.  Reading the profile back
    gives the same skills in the same order with that one replaced; its
    name, identifier, confidence, evidence, taxonomy id and tags are kept; and
    every other profile reads as before. *)
Theorem successful_action_rewrites_one_skill
        (db db' : Database) (request : SkillActionRequest)
        (message : string) (new_state : SkillItem) :
  update_skill_action db request = (db', (true, message, Some new_state)) ->
  exists profile before previous after,
    select_profile db (req_profile_id request) = Some profile
    /\ skills profile = before ++ previous :: after
    /\ Forall (fun x => Py.lower (name x) <> Py.lower (req_skill_name request))
              before
    /\ Py.lower (name previous) = Py.lower (req_skill_name request)
    /\ select_profile db' (req_profile_id request)
       = Some {| profile_id := profile_id profile;
                 resume_id := resume_id profile;
                 skills := before ++ new_state :: after |}
    /\ (name new_state = name previous
        /\ skill_id new_state = skill_id previous
        /\ confidence new_state = confidence previous
        /\ evidence new_state = evidence previous
        /\ mapped_taxonomy_id new_state = mapped_taxonomy_id previous
        /\ tags new_state = tags previous)
    /\ (forall other, other <> req_profile_id request ->
                      select_profile db' other = select_profile db other).
Proof.
  intros E.
  destruct (action_success _ _ _ _ _ E)
    as (profile & before & previous & after & new_state'
        & Hsel & Hsk & Hbefore & Hname & Hupd & Hact & ->).
  inversion Hupd; subst new_state'.
  exists profile, before, previous, after.
  pose proof (select_after_update db (req_profile_id request)) as Hread.
  unfold select_profile in *. cbn [skill_profiles].
  repeat split; auto.
  - rewrite Hread, String.eqb_refl, Hsel. reflexivity.
  - destruct Hact as [[_ ->]|[[_ ->]|[_ ->]]]; reflexivity.
  - destruct Hact as [[_ ->]|[[_ ->]|[_ ->]]]; reflexivity.
  - destruct Hact as [[_ ->]|[[_ ->]|[_ ->]]]; reflexivity.
  - destruct Hact as [[_ ->]|[[_ ->]|[_ ->]]]; reflexivity.
  - destruct Hact as [[_ ->]|[[_ ->]|[_ ->]]]; reflexivity.
  - destruct Hact as [[_ ->]|[[_ ->]|[_ ->]]]; reflexivity.
  - intros other Hother. rewrite Hread.
    apply String.eqb_neq in Hother. now rewrite Hother.
Qed.

Lemma successful_action_rewrites_one_skill_witness :
  exists profile before previous after,
    select_profile Sample.sample_db "p1" = Some profile
    /\ skills profile = before ++ previous :: after
    /\ Forall (fun x => Py.lower (name x) <> "docker") before
    /\ Py.lower (name previous) = "docker"
    /\ select_profile
         (fst (update_skill_action Sample.sample_db
                                   (Sample.sample_request "DOCKER" "reject")))
         "p1"
       = Some {| profile_id := profile_id profile;
                 resume_id := resume_id profile;
                 skills :=
                   before
                   ++ with_status (Sample.item "Docker" 0.7%Q []) rejected None
                                  "technical"
                   :: after |}
    /\ (name (with_status (Sample.item "Docker" 0.7%Q []) rejected None
                          "technical") = name previous
        /\ skill_id (with_status (Sample.item "Docker" 0.7%Q []) rejected None
                                 "technical") = skill_id previous
        /\ confidence (with_status (Sample.item "Docker" 0.7%Q []) rejected None
                                   "technical") = confidence previous
        /\ evidence (with_status (Sample.item "Docker" 0.7%Q []) rejected None
                                 "technical") = evidence previous
        /\ mapped_taxonomy_id (with_status (Sample.item "Docker" 0.7%Q [])
                                           rejected None "technical")
           = mapped_taxonomy_id previous
        /\ tags (with_status (Sample.item "Docker" 0.7%Q []) rejected None
                             "technical") = tags previous)
    /\ (forall other, other <> "p1" ->
          select_profile
            (fst (update_skill_action Sample.sample_db
                                      (Sample.sample_request "DOCKER" "reject")))
            other
          = select_profile Sample.sample_db other).
Proof.
  apply (successful_action_rewrites_one_skill
           Sample.sample_db _ (Sample.sample_request "DOCKER" "reject")
           "Skill 'DOCKER' rejected").
  reflexivity.
Defined.



End Actions.

(* ================================================================== *)
(** ** Creating a profile and reading it back *)

Section Profiles.

Import Schema SkillExtractionService ProfileService.

Lemma find_app_none {A} (f : A -> bool) (l1 l2 : list A) :
  find f l1 = None -> find f (l1 ++ l2) = find f l2.
Proof.
  induction l1 as [|x l1 IH]; cbn; [reflexivity|].
  destruct (f x); [discriminate | exact IH].
Qed.

Lemma find_app_some {A} (f : A -> bool) (l1 l2 : list A) (x : A) :
  find f l1 = Some x -> find f (l1 ++ l2) = Some x.
Proof.
  induction l1 as [|y l1 IH]; cbn; [discriminate|].
  destruct (f y); [auto | exact IH].
Qed.

Lemma find_none_iff {A} (f : A -> bool) (l : list A) :
  find f l = None <-> forall x, In x l -> f x = false.
Proof.
  split.
  - intros H x Hin. exact (find_none f l H x Hin).
  - induction l as [|y l IH]; cbn; [reflexivity|]. intros H.
    rewrite (H y (or_introl eq_refl)). apply IH. intros x Hx. apply H. now right.
Qed.

(** X5: [create_skill_profile] makes at most one profile per resume: a
    second call for the same resume, whatever else it is given, returns the
    identifier of the first call and leaves the database as the first call
    left it. *)
Theorem create_is_idempotent
        (self self' : t) (uuid4 uuid4' : nat -> string) (db : Database)
        (resume resume_text resume_text' : string)
        (processed_data processed_data' : option (Dict.t string Json))
        (github github' : GithubOutcome) :
  create_skill_profile self' uuid4'
    (fst (create_skill_profile self uuid4 db resume resume_text
                               processed_data github))
    resume resume_text' processed_data' github'
  = create_skill_profile self uuid4 db resume resume_text processed_data github.
Proof.
  unfold create_skill_profile at 2 3.
  destruct (select_by_resume db resume) as [existing|] eqn:Hsel.
  - cbn [fst]. unfold create_skill_profile. rewrite Hsel. reflexivity.
  - cbn [fst]. unfold create_skill_profile, select_by_resume in *.
    cbn [skill_profiles]. rewrite (find_app_none _ _ _ Hsel).
    cbn [find resume_id]. rewrite String.eqb_refl. reflexivity.
Qed.

(** X6: a profile created for a resume that had none is read back, by the
    resume and by the identifier returned, with the skills extracted from
    the resume; they are merged with the skills of the GitHub account when
    those were obtained, and are the resume's alone when that extraction
    failed.  The profiles that were there read as before, and nothing is
    logged.  The identifier drawn is taken to be fresh. *)
Theorem created_profile_is_read_back
        (self : t) (uuid4 : nat -> string) (db : Database)
        (resume resume_text : string)
        (processed_data : option (Dict.t string Json))
        (github : GithubOutcome) :
  let extracted := _extract_skills self uuid4 resume_text processed_data in
  let created :=
    create_skill_profile self uuid4 db resume resume_text processed_data
                         github in
  let profile :=
    {| profile_id := snd created; resume_id := resume;
       skills := match github with
                 | GithubSkills github_skills =>
                     _merge_skills extracted github_skills
                 | _ => extracted
                 end |} in
  get_profile_by_resume_id db resume = None ->
  (forall p, In p (skill_profiles db) ->
             profile_id p <> uuid4 (List.length extracted)) ->
  snd created = uuid4 (List.length extracted)
  /\ get_profile_by_resume_id (fst created) resume = Some profile
  /\ get_skill_profile (fst created) (snd created) = Some profile
  /\ (forall p, get_skill_profile db (profile_id p) = Some p ->
                get_skill_profile (fst created) (profile_id p) = Some p)
  /\ skill_audit_logs (fst created) = skill_audit_logs db.
Proof.
  intros extracted created profile Hnone Hfresh.
  subst created profile.
  unfold get_profile_by_resume_id, get_skill_profile, create_skill_profile in *.
  rewrite Hnone. fold extracted. cbn [fst snd].
  unfold select_by_resume, select_profile in *. cbn [skill_profiles skill_audit_logs].
  repeat split.
  - rewrite (find_app_none _ _ _ Hnone). cbn [find resume_id].
    rewrite String.eqb_refl. reflexivity.
  - rewrite find_app_none.
    + cbn [find profile_id]. rewrite String.eqb_refl. reflexivity.
    + apply find_none_iff. intros p Hp. apply String.eqb_neq. auto.
  - intros p Hp. apply find_app_some. exact Hp.
Qed.

Lemma created_profile_is_read_back_witness :
  let self := Sample.service Sample.python_docker in
  let extracted :=
    _extract_skills self Sample.uuid4 Sample.python_resume None in
  let created :=
    create_skill_profile self Sample.uuid4 Sample.sample_db "r2"
                         Sample.python_resume None GithubFailed in
  let profile :=
    {| profile_id := snd created; resume_id := "r2"; skills := extracted |} in
  snd created = Sample.uuid4 (List.length extracted)
  /\ get_profile_by_resume_id (fst created) "r2" = Some profile
  /\ get_skill_profile (fst created) (snd created) = Some profile
  /\ (forall p, get_skill_profile Sample.sample_db (profile_id p) = Some p ->
                get_skill_profile (fst created) (profile_id p) = Some p)
  /\ skill_audit_logs (fst created) = skill_audit_logs Sample.sample_db.
Proof.
  apply (created_profile_is_read_back
           (Sample.service Sample.python_docker) Sample.uuid4 Sample.sample_db
           "r2" Sample.python_resume None GithubFailed).
  - reflexivity.
  - intros p [<-|[]]. vm_compute. discriminate.
Defined.

End Profiles.

(* ================================================================== *)
(** ** The SAP export *)

Section SapExport.

Import Schema SkillExtractionService SkillsRouter.
Local Open Scope Q_scope.

Lemma sap_row_cells (updated_at : string) (skill : SkillItem) (row : list string) :
  sap_row updated_at skill = Some row ->
  List.length row = 8%nat
  /\ In (manual_status skill, nth 7 row "")
        [(accepted, "ACTIVE"); (suggested, "SUGGESTED")]
  /\ nth 1 row "" = or_else (edited_name skill) (name skill)
  /\ nth 6 row "" = updated_at.
Proof.
  unfold sap_row.
  destruct (manual_status skill); intros H; inversion H; subst; cbn; auto.
Qed.

Lemma export_app (l1 l2 : list SkillItem) (updated_at : string) :
  _export_as_sap (l1 ++ l2) updated_at
  = _export_as_sap l1 updated_at ++ tl (_export_as_sap l2 updated_at).
Proof. unfold _export_as_sap. cbn [tl app]. now rewrite flat_map_app. Qed.

(** X7: the SAP export has the header and one row for each skill whose
    status is accepted or suggested, in the order of the profile; a rejected
    or edited skill has no row.  Each row has the eight cells of the header,
    and its last cell is ACTIVE for an accepted skill and SUGGESTED for a
    suggested one. *)
Theorem sap_export_rows (skills : list SkillItem) (updated_at : string) :
  let exported skill :=
    match manual_status skill with
    | accepted | suggested => true
    | _ => false
    end in
  hd [] (_export_as_sap skills updated_at) = sap_header
  /\ map (fun row => nth 1 row "") (tl (_export_as_sap skills updated_at))
     = map (fun skill => or_else (edited_name skill) (name skill))
           (filter exported skills)
  /\ map (fun row => nth 7 row "") (tl (_export_as_sap skills updated_at))
     = map (fun skill => match manual_status skill with
                         | accepted => "ACTIVE"
                         | _ => "SUGGESTED"
                         end)
           (filter exported skills)
  /\ Forall (fun row => List.length row = 8%nat)
            (_export_as_sap skills updated_at).
Proof.
  intros exported. unfold _export_as_sap. cbn [hd tl].
  split; [reflexivity|].
  assert (Hrow : forall skill,
             match sap_row updated_at skill with
             | Some row =>
                 exported skill = true
                 /\ nth 1 row "" = or_else (edited_name skill) (name skill)
                 /\ nth 7 row "" = match manual_status skill with
                                   | accepted => "ACTIVE"
                                   | _ => "SUGGESTED"
                                   end
                 /\ List.length row = 8%nat
             | None => exported skill = false
             end).
  { intros skill. unfold sap_row, exported.
    destruct (manual_status skill); cbn; auto. }
  induction skills as [|skill rest (IH1 & IH2 & IH3)].
  - cbn. repeat split; auto.
  - cbn [flat_map filter]. specialize (Hrow skill).
    destruct (sap_row updated_at skill) as [row|].
    + destruct Hrow as (-> & H1 & H7 & H8). cbn [app map].
      rewrite IH1, IH2, H1, H7. repeat split; auto.
      inversion IH3; subst. repeat (constructor; auto).
    + rewrite Hrow. cbn [app]. auto.
Qed.

Lemma geb_true (x y : Q) : y <= x -> geb x y = true.
Proof.
  intros H. unfold geb, Num.ltb.
  destruct (Qcompare x y) eqn:E; try reflexivity.
  apply Qlt_alt in E. exfalso. exact (Qlt_not_le _ _ E H).
Qed.

Lemma geb_false (x y : Q) : x < y -> geb x y = false.
Proof.
  intros H. unfold geb, Num.ltb. apply Qlt_alt in H.
  unfold Qcompare in *. now rewrite H.
Qed.

Lemma geb_cases (x y : Q) : (geb x y = true /\ y <= x) \/ (geb x y = false /\ x < y).
Proof.
  destruct (Qlt_le_dec x y) as [Hlt|Hle].
  - right. split; [apply geb_false|]; assumption.
  - left. split; [apply geb_true|]; assumption.
Qed.

Lemma proficiency_cases (c : Q) :
  (c < 0.4 /\ get_proficiency_details c = ("1", "Novice"))
  \/ (0.4 <= c /\ c < 0.6 /\ get_proficiency_details c = ("2", "Basic"))
  \/ (0.6 <= c /\ c < 0.75
      /\ get_proficiency_details c = ("3", "Intermediate"))
  \/ (0.75 <= c /\ c < 0.9 /\ get_proficiency_details c = ("4", "Advanced"))
  \/ (0.9 <= c /\ get_proficiency_details c = ("5", "Expert")).
Proof.
  unfold get_proficiency_details.
  destruct (geb_cases c 0.9) as [[-> H9]|[-> H9]]; [auto 10|].
  destruct (geb_cases c 0.75) as [[-> H7]|[-> H7]]; [auto 10|].
  destruct (geb_cases c 0.6) as [[-> H6]|[-> H6]]; [auto 10|].
  destruct (geb_cases c 0.4) as [[-> H4]|[-> H4]]; auto 10.
Qed.

(** X8: the proficiency level follows the confidence: of two skills, the
    one with the greater confidence never gets the lower of the levels 1 to
    5. *)
Theorem proficiency_follows_confidence (c1 c2 : Q) :
  c1 <= c2 ->
  String.leb (fst (get_proficiency_details c1))
             (fst (get_proficiency_details c2)) = true.
Proof.
  intros H12.
  destruct (proficiency_cases c1)
    as [[A1 E1]|[(A1 & B1 & E1)|[(A1 & B1 & E1)|[(A1 & B1 & E1)|[A1 E1]]]]];
    destruct (proficiency_cases c2)
      as [[A2 E2]|[(A2 & B2 & E2)|[(A2 & B2 & E2)|[(A2 & B2 & E2)|[A2 E2]]]]];
    rewrite E1, E2; try reflexivity; exfalso.
  all: match goal with
       | lo : ?a <= ?x, hi : ?y < ?b, le : ?x <= ?y |- _ =>
           apply (Qlt_not_le _ _ hi);
           apply (Qle_trans _ a); [discriminate|];
           apply (Qle_trans _ x); assumption
       end.
Qed.

Lemma proficiency_follows_confidence_witness :
  String.leb (fst (get_proficiency_details 0.59))
             (fst (get_proficiency_details 0.6)) = true.
Proof.
  apply (proficiency_follows_confidence 0.59 0.6). discriminate.
Defined.

Lemma extracted_items_are_suggested (self : t) (uuid4 : nat -> string)
      (resume_text : string) (processed_data : option (Dict.t string Json))
      (item : SkillItem) :
  In item (_extract_skills self uuid4 resume_text processed_data) ->
  manual_status item = suggested /\ edited_name item = None.
Proof.
  unfold _extract_skills, sort_by_confidence. rewrite sort_In.
  revert item. apply Forall_forall.
  apply (fold_left_invariant
           (Forall (fun item => manual_status item = suggested
                                /\ edited_name item = None))).
  - intros acc [key data] Hacc. unfold add_skill_item.
    destruct (Num.ltb _ _); [exact Hacc|].
    apply Forall_app. split; [exact Hacc|].
    constructor; [|constructor]. cbn. auto.
  - constructor.
Qed.

(** X9: every skill that the extraction returns is exported to SAP: it has
    a row, the row shows the skill as SUGGESTED under its own name, and its
    proficiency is 2 (Basic) or more, never 1 (Novice), since the extraction
    keeps no skill below a confidence of 0.55. *)
Theorem extracted_skill_is_exported
        (self : t) (uuid4 : nat -> string) (resume_text : string)
        (processed_data : option (Dict.t string Json))
        (updated_at : string) (item : SkillItem) :
  In item (_extract_skills self uuid4 resume_text processed_data) ->
  exists row,
    sap_row updated_at item = Some row
    /\ nth 1 row "" = name item
    /\ nth 7 row "" = "SUGGESTED"
    /\ In (nth 2 row "", nth 3 row "")
          [("2", "Basic"); ("3", "Intermediate"); ("4", "Advanced");
           ("5", "Expert")].
Proof.
  intros Hin.
  destruct (extracted_items_are_suggested _ _ _ _ _ Hin) as [Hst Hed].
  destruct (extracted_skills_accepted _ _ _ _ _ Hin) as [Hmin _].
  unfold sap_row. rewrite Hst, Hed. eexists. split; [reflexivity|].
  cbn [nth or_else fst snd]. repeat split.
  destruct (proficiency_cases (confidence item))
    as [[A E]|[(A & B & E)|[(A & B & E)|[(A & B & E)|[A E]]]]];
    rewrite E; cbn; auto 10.
  exfalso. apply (Qlt_not_le _ _ A).
  apply (Qle_trans _ minimum_confidence); [discriminate | exact Hmin].
Qed.

Lemma extracted_skill_is_exported_witness :
  exists row,
    sap_row "2026-01-01T00:00:00"
            {| skill_id := Some "0"; name := "Python"; category := "technical";
               confidence := 0.81;
               evidence :=
                 [ {| source := "resume"; snippet := Sample.python_resume;
                      score := 1; offset := Some 28%Z; href := None |} ];
               mapped_taxonomy_id := None; manual_status := suggested;
               edited_name := None; tags := ["Python"] |}
    = Some row
    /\ nth 1 row "" = "Python"
    /\ nth 7 row "" = "SUGGESTED"
    /\ In (nth 2 row "", nth 3 row "")
          [("2", "Basic"); ("3", "Intermediate"); ("4", "Advanced");
           ("5", "Expert")].
Proof.
  apply (extracted_skill_is_exported
           (Sample.service Sample.python_docker) Sample.uuid4
           Sample.python_resume None).
  vm_compute. left. reflexivity.
Defined.

(** X10: a skill that is rejected or edited leaves the SAP export: after
    such a request has succeeded, the export of the profile read back is
    the export of the profile as it was without the skill the request
    named. *)
Theorem rejected_or_edited_skill_leaves_the_export
        (db db' : Database) (request : SkillActionRequest)
        (message : string) (updated : option SkillItem) (updated_at : string) :
  update_skill_action db request = (db', (true, message, updated)) ->
  In (req_action request) ["reject"; "edit"] ->
  exists profile profile' before previous after,
    select_profile db (req_profile_id request) = Some profile
    /\ select_profile db' (req_profile_id request) = Some profile'
    /\ skills profile = before ++ previous :: after
    /\ Py.lower (name previous) = Py.lower (req_skill_name request)
    /\ _export_as_sap (skills profile') updated_at
       = _export_as_sap (before ++ after) updated_at.
Proof.
  intros E Hact.
  destruct (action_success _ _ _ _ _ E)
    as (profile & before & previous & after & new_state
        & Hsel & Hsk & Hbefore & Hname & Hupd & Hcase & ->).
  exists profile.
  eexists {| profile_id := profile_id profile; resume_id := resume_id profile;
             skills := before ++ new_state :: after |}.
  exists before, previous, after.
  pose proof (select_after_update db (req_profile_id request)
                (req_profile_id request)) as Hread.
  unfold select_profile in *. cbn [skill_profiles skills].
  rewrite Hread, String.eqb_refl, Hsel.
  repeat split; auto.
  assert (Hrow : sap_row updated_at new_state = None).
  { cbn in Hact.
    destruct Hcase as [[Ha _]|[[_ ->]|[_ ->]]]; [|reflexivity|reflexivity].
    rewrite Ha in Hact. destruct Hact as [H|[H|[]]]; discriminate H. }
  rewrite !export_app. f_equal. unfold _export_as_sap. cbn [tl flat_map].
  rewrite Hrow. reflexivity.
Qed.

Lemma rejected_or_edited_skill_leaves_the_export_witness :
  exists profile profile' before previous after,
    select_profile Sample.sample_db "p1" = Some profile
    /\ select_profile
         (fst (update_skill_action Sample.sample_db
                                   (Sample.sample_request "python" "edit")))
         "p1" = Some profile'
    /\ skills profile = before ++ previous :: after
    /\ Py.lower (name previous) = "python"
    /\ _export_as_sap (skills profile') "2026-01-01T00:00:00"
       = _export_as_sap (before ++ after) "2026-01-01T00:00:00".
Proof.
  apply (rejected_or_edited_skill_leaves_the_export
           Sample.sample_db _ (Sample.sample_request "python" "edit")
           "Skill 'python' edited"
           (Some (with_status (Sample.item "Python" 0.9 []) edited None
                              "technical"))).
  - reflexivity.
  - cbn. right. left. reflexivity.
Defined.

End SapExport.

(* ================================================================== *)
(** ** The taxonomy: what a name resolves to *)

Section TaxonomyLookup.

Import Taxonomy TaxonomyMore Shape.

Lemma lower_char_idem (c : ascii) :
  Py.lower_char (Py.lower_char c) = Py.lower_char c.
Proof.
  destruct c as [[] [] [] [] [] [] [] []]; reflexivity.
Qed.

Lemma lower_idem (s : string) : Py.lower (Py.lower s) = Py.lower s.
Proof.
  induction s as [|c s IH]; cbn; [reflexivity|].
  now rewrite lower_char_idem, IH.
Qed.

Lemma get_set (k k0 : string) {V} (v : V) (d : Dict.t string V) :
  Dict.get k0 (Dict.set k v d)
  = if String.eqb k0 k then Some v else Dict.get k0 d.
Proof.
  destruct (String.eqb k0 k) eqn:E.
  - apply String.eqb_eq in E. subst. apply get_set_same.
  - apply String.eqb_neq in E. now apply get_set_other.
Qed.

Lemma index_mapping_get (k : string) (m : TaxonomyMapper) (im : nat * Mapping) :
  Dict.get k (index_mapping m im)
  = if Py.mem k (keys_of (snd im)) then Some im else Dict.get k m.
Proof.
  unfold index_mapping, keys_of, Py.mem. cbn [existsb].
  set (m1 := Dict.set _ im m).
  assert (Hfold : forall al acc,
    Dict.get k (fold_left
                  (fun acc a => if String.eqb a "" then acc
                                else Dict.set (Py.lower a) im acc) al acc)
    = if existsb (eqb k)
           (map Py.lower (filter (fun a => negb (String.eqb a "")) al))
      then Some im else Dict.get k acc).
  { induction al as [|a al IH]; intros acc; cbn [fold_left filter map existsb].
    - reflexivity.
    - rewrite IH. destruct (String.eqb a ""); cbn [negb map existsb].
      + reflexivity.
      + rewrite get_set. unfold eqb at 2, string_Eqb.
        destruct (String.eqb k (Py.lower a)); cbn [orb].
        * now destruct (existsb _ _).
        * reflexivity. }
  rewrite Hfold. subst m1. rewrite get_set.
  unfold eqb at 2, string_Eqb.
  destruct (String.eqb k (Py.lower (skill_name (snd im)))); cbn [orb].
  - now destruct (existsb _ _).
  - reflexivity.
Qed.

Lemma load_get (k : string) (ims : list (nat * Mapping)) (acc : TaxonomyMapper) :
  Dict.get k (fold_left index_mapping ims acc)
  = match find (fun im => Py.mem k (keys_of (snd im))) (rev ims) with
    | Some im => Some im
    | None => Dict.get k acc
    end.
Proof.
  revert acc. induction ims as [|im ims IH]; intros acc; cbn [fold_left rev].
  - reflexivity.
  - rewrite IH, find_in_app. cbn [find].
    destruct (find _ (rev ims)); [reflexivity|].
    rewrite index_mapping_get. now destruct (Py.mem _ _).
Qed.

Lemma find_snd {A B} (f : B -> bool) (l : list (A * B)) :
  option_map snd (find (fun x => f (snd x)) l) = find f (map snd l).
Proof.
  induction l as [|x l IH]; cbn; [reflexivity|].
  destruct (f (snd x)); [reflexivity | exact IH].
Qed.

Lemma map_snd_combine {A B} (l1 : list A) (l2 : list B) :
  List.length l1 = List.length l2 -> map snd (combine l1 l2) = l2.
Proof.
  revert l2. induction l1 as [|a l1 IH]; intros [|b l2] H; cbn in *;
    try discriminate; [reflexivity|]. f_equal. apply IH. lia.
Qed.

Lemma get_mapping_load (mappings : list Mapping) (name : string) :
  get_mapping (_load_taxonomy mappings) name
  = find (fun m => Py.mem (Py.lower name) (keys_of m)) (rev mappings).
Proof.
  unfold get_mapping, _load_taxonomy. rewrite load_get. cbn [Dict.get].
  assert (E : rev mappings
              = map snd (rev (combine (seq 0 (List.length mappings)) mappings))).
  { rewrite map_rev, map_snd_combine; [reflexivity | apply length_seq]. }
  rewrite E, <- find_snd.
  now destruct (find _ _).
Qed.

(** X11: a name looks up the last record of the file that bears it, letter
    case apart, as its name or as one of its non-empty aliases, and nothing
    when no record does; so a name and its lower-case form look up the
    same. *)
Theorem lookup_returns_last_bearer (mappings : list Mapping) (name : string) :
  get_mapping (_load_taxonomy mappings) name
  = find (fun m => Py.mem (Py.lower name) (keys_of m)) (rev mappings)
  /\ get_mapping (_load_taxonomy mappings) (Py.lower name)
     = get_mapping (_load_taxonomy mappings) name.
Proof.
  split; [apply get_mapping_load|].
  now rewrite !get_mapping_load, lower_idem.
Qed.

Lemma set_items {V} (k : string) (v : V) (d : Dict.t string V) (kv : string * V) :
  In kv (Dict.set k v d) -> kv = (k, v) \/ In kv d.
Proof.
  induction d as [|[k' v'] d IH]; cbn.
  - intros [<-|[]]. now left.
  - unfold eqb, string_Eqb. destruct (String.eqb k k') eqn:E.
    + apply String.eqb_eq in E. subst k'. intros [<-|H]; auto.
    + intros [<-|H]; auto. destruct (IH H); auto.
Qed.

Lemma set_keys_NoDup {V} (k : string) (v : V) (d : Dict.t string V) :
  NoDup (map fst d) -> NoDup (map fst (Dict.set k v d)).
Proof.
  induction d as [|[k' v'] d IH]; cbn.
  - intros _. constructor; [intros [] | constructor].
  - unfold eqb, string_Eqb. intros Hnd. inversion Hnd as [|x l Hnot Hrest]; subst.
    destruct (String.eqb k k') eqn:E; cbn.
    + constructor; assumption.
    + constructor; [|auto]. intros Hin. apply in_map_iff in Hin.
      destruct Hin as ([k2 v2] & Hk & Hin). cbn in Hk. subst k2.
      destruct (set_items _ _ _ _ Hin) as [Heq|Hold].
      * inversion Heq; subst. now rewrite String.eqb_refl in E.
      * apply Hnot. apply in_map_iff. exists (k', v2). auto.
Qed.

Lemma get_of_item {V} (k : string) (v : V) (d : Dict.t string V) :
  NoDup (map fst d) -> In (k, v) d -> Dict.get k d = Some v.
Proof.
  induction d as [|[k' v'] d IH]; cbn; [intros _ []|].
  intros Hnd. inversion Hnd as [|x l Hnot Hrest]; subst.
  unfold eqb, string_Eqb. intros [Heq|Hin].
  - inversion Heq; subst. now rewrite String.eqb_refl.
  - destruct (String.eqb k k') eqn:E; [|auto].
    apply String.eqb_eq in E. subst k'. exfalso. apply Hnot.
    apply in_map_iff. exists (k, v). auto.
Qed.

Lemma item_of_get {V} (k : string) (v : V) (d : Dict.t string V) :
  Dict.get k d = Some v -> In (k, v) d.
Proof.
  induction d as [|[k' v'] d IH]; cbn; [discriminate|].
  unfold eqb, string_Eqb. destruct (String.eqb k k') eqn:E.
  - apply String.eqb_eq in E. subst k'. intros H. inversion H. now left.
  - auto.
Qed.

Lemma loaded_set (ims : list (nat * Mapping)) (d : TaxonomyMapper)
      (a : string) (im : nat * Mapping) :
  In im ims -> loaded ims d -> loaded ims (Dict.set (Py.lower a) im d).
Proof.
  intros Him [Hnd Hitems]. split.
  - now apply set_keys_NoDup.
  - intros k v Hin. destruct (set_items _ _ _ _ Hin) as [Heq|Hold]; [|auto].
    inversion Heq; subst. split; [apply lower_idem | exact Him].
Qed.

Lemma loaded_fold (ims done : list (nat * Mapping)) (d : TaxonomyMapper) :
  (forall im, In im done -> In im ims) ->
  loaded ims d -> loaded ims (fold_left index_mapping done d).
Proof.
  revert d. induction done as [|im done IH]; intros d Hsub Hd; cbn [fold_left].
  - exact Hd.
  - apply IH; [intros; apply Hsub; now right|].
    assert (Him : In im ims) by (apply Hsub; now left).
    unfold index_mapping.
    apply fold_left_invariant.
    + intros acc a Hacc. destruct (String.eqb a ""); [exact Hacc|].
      now apply loaded_set.
    + now apply loaded_set.
Qed.

Lemma walk_values (vs : list (nat * Mapping)) (seen : list nat)
      (out : list Mapping) :
  let step (acc : list nat * list Mapping) (im : nat * Mapping) :=
    if existsb (Nat.eqb (fst im)) (fst acc) then acc
    else (fst acc ++ [fst im], snd acc ++ [snd im]) in
  (forall i m m', In (i, m) vs -> In (i, m') vs -> m = m') ->
  (forall m, In m (snd (fold_left step vs (seen, out))) ->
             In m out \/ exists i, In (i, m) vs)
  /\ (forall m, In m out -> In m (snd (fold_left step vs (seen, out))))
  /\ (forall i m, In (i, m) vs ->
                  In i seen \/ In m (snd (fold_left step vs (seen, out)))).
Proof.
  intros step. revert seen out.
  induction vs as [|[i0 m0] vs IH]; intros seen out Hfun; cbn [fold_left].
  - cbn. repeat split; auto. intros i m [].
  - assert (Hfun' : forall i m m', In (i, m) vs -> In (i, m') vs -> m = m').
    { intros i m m' H1 H2. apply (Hfun i); now right. }
    unfold step at 2 4 6. cbn [fst snd].
    destruct (existsb (Nat.eqb i0) seen) eqn:E.
    + destruct (IH seen out Hfun') as (H1 & H2 & H3).
      repeat split; auto.
      * intros m Hm. destruct (H1 m Hm) as [|[i Hi]]; auto.
        right. exists i. now right.
      * intros i m [Heq|Hin]; [|auto].
        inversion Heq; subst. left.
        apply existsb_exists in E. destruct E as (x & Hx & Ex).
        apply Nat.eqb_eq in Ex. now subst.
    + destruct (IH (seen ++ [i0]) (out ++ [m0]) Hfun') as (H1 & H2 & H3).
      repeat split.
      * intros m Hm. destruct (H1 m Hm) as [Ho|[i Hi]].
        -- apply in_app_or in Ho. destruct Ho as [|[<-|[]]]; auto.
           right. exists i0. now left.
        -- right. exists i. now right.
      * intros m Hm. apply H2. apply in_or_app. now left.
      * intros i m [Heq|Hin].
        -- inversion Heq; subst. right. apply H2. apply in_or_app.
           right. now left.
        -- destruct (H3 i m Hin) as [Hs|]; auto.
           apply in_app_or in Hs. destruct Hs as [|[<-|[]]]; auto.
           right. rewrite (Hfun i0 m m0); [|now right|now left].
           apply H2. apply in_or_app. right. now left.
Qed.

Lemma combine_functional {B} (l : list B) (a : nat) (i : nat) (m m' : B) :
  In (i, m) (combine (seq a (List.length l)) l) ->
  In (i, m') (combine (seq a (List.length l)) l) -> m = m'.
Proof.
  revert a. induction l as [|b l IH]; intros a; cbn; [intros []|].
  intros [H1|H1] [H2|H2].
  - congruence.
  - inversion H1; subst. apply in_combine_l in H2. apply in_seq in H2. lia.
  - inversion H2; subst. apply in_combine_l in H1. apply in_seq in H1. lia.
  - eapply IH; eassumption.
Qed.

(** X12: [get_all_mappings] returns the records that some name still looks
    up, and only those: a record of the file each of whose names and aliases
    is borne by a later record is not returned, and so never reaches the
    index of the matcher. *)
Theorem all_mappings_are_the_reachable_records
        (mappings : list Mapping) (m : Mapping) :
  In m (get_all_mappings (_load_taxonomy mappings))
  <-> exists name, get_mapping (_load_taxonomy mappings) name = Some m.
Proof.
  set (ims := combine (seq 0 (List.length mappings)) mappings).
  assert (Hload : loaded ims (_load_taxonomy mappings)).
  { apply loaded_fold; [auto|]. split; [constructor | intros k v []]. }
  destruct Hload as [Hnd Hitems].
  assert (Hfun : forall i x x',
             In (i, x) (Dict.values (_load_taxonomy mappings)) ->
             In (i, x') (Dict.values (_load_taxonomy mappings)) -> x = x').
  { intros i x x' H1 H2. unfold Dict.values in *.
    apply in_map_iff in H1. destruct H1 as ([k1 v1] & E1 & H1).
    apply in_map_iff in H2. destruct H2 as ([k2 v2] & E2 & H2).
    cbn in E1, E2. subst v1 v2.
    apply (combine_functional mappings 0 i);
      [apply (Hitems k1) | apply (Hitems k2)]; assumption. }
  destruct (walk_values (Dict.values (_load_taxonomy mappings)) [] [] Hfun)
    as (H1 & _ & H3).
  unfold get_all_mappings, get_mapping. split.
  - intros Hin. destruct (H1 m Hin) as [[]|[i Hi]].
    unfold Dict.values in Hi. apply in_map_iff in Hi.
    destruct Hi as ([k v] & Ev & Hi). cbn in Ev. subst v.
    exists k. destruct (Hitems _ _ Hi) as [-> _].
    rewrite (get_of_item _ _ _ Hnd Hi). reflexivity.
  - intros [name Hget].
    destruct (Dict.get (Py.lower name) (_load_taxonomy mappings))
      as [[i x]|] eqn:E; [|discriminate].
    cbn in Hget. inversion Hget; subst x.
    destruct (H3 i m) as [[]|Hin]; [|exact Hin].
    apply (get_In_values _ _ _ E).
Qed.

End TaxonomyLookup.

Section TaxonomyMoreFacts.

Import Taxonomy TaxonomyMore DownloadEsco.

Example shadowed_record_is_dropped :
  map skill_name
      (get_all_mappings
         (_load_taxonomy [Sample.skill "JS" []; Sample.skill "JavaScript" ["JS"]]))
  = ["JavaScript"].
Proof. reflexivity. Qed.



Lemma curated_lookup_mem (k : string) (curated : list Mapping)
      (acc : Dict.t string Mapping) :
  Dict.mem k (fold_left (fun d skill =>
                           Dict.set (Py.lower (skill_name skill)) skill d)
                        curated acc)
  = existsb (fun c => String.eqb k (Py.lower (skill_name c))) curated
    || Dict.mem k acc.
Proof.
  revert acc. induction curated as [|c curated IH]; intros acc; cbn [fold_left existsb].
  - reflexivity.
  - rewrite IH. unfold Dict.mem. rewrite get_set.
    destruct (String.eqb k (Py.lower (skill_name c))); cbn [orb].
    + now rewrite orb_true_r.
    + reflexivity.
Qed.

Lemma merge_closed_form (esco_skills curated_skills : list Mapping) :
  merge_with_curated_skills esco_skills curated_skills
  = curated_skills
    ++ filter
         (fun e =>
            negb (existsb
                    (fun c =>
                       Py.mem (Py.lower (skill_name c))
                              (Py.lower (skill_name e)
                               :: map Py.lower (aliases e)))
                    curated_skills))
         esco_skills.
Proof.
  unfold merge_with_curated_skills.
  set (lookup :=
         fold_left (fun (d : Dict.t string Mapping) skill =>
                      Dict.set (Py.lower (skill_name skill)) skill d)
                   curated_skills []).
  assert (Hmem : forall k,
             Dict.mem k lookup
             = existsb (fun c => String.eqb k (Py.lower (skill_name c)))
                       curated_skills).
  { intros k. subst lookup. rewrite curated_lookup_mem. cbn. apply orb_false_r. }
  assert (Hcond : forall e,
             (Dict.mem (Py.lower (skill_name e)) lookup
              || existsb (fun alias => Dict.mem (Py.lower alias) lookup)
                         (aliases e))
             = existsb
                 (fun c =>
                    Py.mem (Py.lower (skill_name c))
                           (Py.lower (skill_name e) :: map Py.lower (aliases e)))
                 curated_skills).
  { intros e. apply eq_true_iff_eq. rewrite orb_true_iff, !existsb_exists.
    rewrite Hmem, existsb_exists. split.
    - intros [(c & Hc & Ec)|(a & Ha & Ea)].
      + exists c. split; [exact Hc|]. unfold Py.mem. cbn [existsb].
        unfold eqb at 1, string_Eqb. rewrite String.eqb_sym, Ec. reflexivity.
      + rewrite Hmem in Ea. apply existsb_exists in Ea.
        destruct Ea as (c & Hc & Ec). exists c. split; [exact Hc|].
        unfold Py.mem. cbn [existsb]. apply orb_true_iff. right.
        apply existsb_exists. exists (Py.lower a).
        split; [now apply in_map|]. unfold eqb, string_Eqb.
        now rewrite String.eqb_sym.
    - intros (c & Hc & Ec). unfold Py.mem in Ec. cbn [existsb] in Ec.
      apply orb_true_iff in Ec. unfold eqb in Ec at 1. unfold string_Eqb in Ec.
      destruct Ec as [Ec|Ec].
      + left. exists c. split; [exact Hc|]. now rewrite String.eqb_sym.
      + right. apply existsb_exists in Ec. destruct Ec as (x & Hx & Ex).
        apply in_map_iff in Hx. destruct Hx as (a & <- & Ha).
        exists a. split; [exact Ha|]. rewrite Hmem. apply existsb_exists.
        exists c. split; [exact Hc|]. unfold eqb, string_Eqb in Ex.
        now rewrite String.eqb_sym. }
  assert (Hfold : forall merged : list Mapping,
    fold_left
      (fun merged esco_skill =>
         if Dict.mem (Py.lower (skill_name esco_skill)) lookup then merged
         else if existsb (fun alias => Dict.mem (Py.lower alias) lookup)
                         (aliases esco_skill)
         then merged
         else merged ++ [esco_skill])
      esco_skills merged
    = merged
      ++ filter
           (fun e =>
              negb (existsb
                      (fun c =>
                         Py.mem (Py.lower (skill_name c))
                                (Py.lower (skill_name e)
                                 :: map Py.lower (aliases e)))
                      curated_skills))
           esco_skills).
  { induction esco_skills as [|e esco IH]; intros merged; cbn [fold_left filter].
    - now rewrite app_nil_r.
    - rewrite <- Hcond.
      destruct (Dict.mem (Py.lower (skill_name e)) lookup); cbn [orb negb].
      + apply IH.
      + destruct (existsb _ (aliases e)); cbn [negb].
        * apply IH.
        * rewrite IH, <- app_assoc. reflexivity. }
  apply Hfold.
Qed.

(** X14: [merge_with_curated_skills] returns the curated records, all of
    them and in their order, followed by the ESCO records, in their order,
    that are not in conflict with a curated record: those whose name is not
    the name of a curated record and none of whose aliases is, letter case
    apart. *)
Theorem curated_records_come_first (esco_skills curated_skills : list Mapping) :
  merge_with_curated_skills esco_skills curated_skills
  = curated_skills
    ++ filter
         (fun e =>
            negb (existsb
                    (fun c =>
                       Py.mem (Py.lower (skill_name c))
                              (Py.lower (skill_name e)
                               :: map Py.lower (aliases e)))
                    curated_skills))
         esco_skills.
Proof. apply merge_closed_form. Qed.

(** X15: in the taxonomy loaded from the merged records, the name of a
    curated record looks up what it looks up among the curated records
    alone: no ESCO record takes the name of a curated one. *)
Theorem curated_name_is_not_shadowed
        (esco_skills curated_skills : list Mapping) (c : Mapping) :
  In c curated_skills ->
  get_mapping
    (_load_taxonomy (merge_with_curated_skills esco_skills curated_skills))
    (skill_name c)
  = get_mapping (_load_taxonomy curated_skills) (skill_name c).
Proof.
  intros Hc.
  rewrite !get_mapping_load, merge_closed_form, rev_app_distr, find_in_app.
  match goal with |- match find ?P ?l with _ => _ end = _ =>
    assert (Hnone : find P l = None) end.
  { apply find_none_iff. intros e He. apply in_rev in He.
    apply filter_In in He. destruct He as [_ He].
    apply negb_true_iff in He.
    destruct (Py.mem (Py.lower (skill_name c)) (keys_of e)) eqn:E; [|reflexivity].
    exfalso. assert (Hex : existsb
                 (fun c0 =>
                    Py.mem (Py.lower (skill_name c0))
                           (Py.lower (skill_name e) :: map Py.lower (aliases e)))
                 curated_skills = true); [|congruence].
    apply existsb_exists. exists c. split; [exact Hc|].
    apply mem_In. apply mem_In in E. unfold keys_of in E.
    destruct E as [E|E]; [now left|]. right.
    apply in_map_iff in E. destruct E as (a & <- & Ha).
    apply filter_In in Ha. apply in_map. tauto. }
  now rewrite Hnone.
Qed.

Lemma curated_name_is_not_shadowed_witness :
  get_mapping
    (_load_taxonomy
       (merge_with_curated_skills
          [Sample.skill "python (computer programming)" ["Python"];
           Sample.skill "Haskell" []]
          Sample.python_docker))
    "Python"
  = get_mapping (_load_taxonomy Sample.python_docker) "Python".
Proof.
  apply (curated_name_is_not_shadowed
           [Sample.skill "python (computer programming)" ["Python"];
            Sample.skill "Haskell" []]
           Sample.python_docker (Sample.skill "Python" ["Python 3"])).
  cbn. left. reflexivity.
Defined.

End TaxonomyMoreFacts.

(* ================================================================== *)
(** ** The matches of a text *)

Section Tokens.

Import SkillMatcher Shape.

Lemma lower_length (s : string) : String.length (Py.lower s) = String.length s.
Proof. induction s as [|c s IH]; cbn; [reflexivity | now rewrite IH]. Qed.

Lemma lower_len (s : string) : Py.len (Py.lower s) = Py.len s.
Proof. unfold Py.len. now rewrite lower_length. Qed.

Lemma token_at_shift (pos : Z) (c : ascii) (s : string) (t : Token) :
  token_at (pos + 1) s t -> token_at pos (String c s) t.
Proof.
  intros ((H1 & H2) & H3 & H4 & H5). unfold token_at, Py.len in *.
  cbn [String.length]. repeat split; try lia.
  replace (Z.to_nat (t_start t - pos))
    with (S (Z.to_nat (t_start t - (pos + 1)))) by lia.
  exact H4.
Qed.

Lemma finditer_from_tokens (s : string) (pos : Z) :
  Forall (token_at pos s) (finditer_from pos s)
  /\ StronglySorted (fun a b => t_end a < t_start b) (finditer_from pos s).
Proof.
  revert pos. induction s as [|c s IH]; intros pos; cbn [finditer_from].
  - split; constructor.
  - destruct (IH (pos + 1)) as [Htok Hsorted].
    assert (Hshift : Forall (token_at pos (String c s))
                            (finditer_from (pos + 1) s)).
    { eapply Forall_impl; [|exact Htok]. intros t. apply token_at_shift. }
    destruct (token_char c); [|split; [exact Hshift | exact Hsorted]].
    assert (Hone : token_at pos (String c s)
                     {| group := String c EmptyString;
                        t_start := pos; t_end := pos + 1 |}).
    { unfold token_at, Py.len. cbn [group t_start t_end String.length].
      repeat split; try lia.
      replace (pos - pos) with 0 by lia.
      replace (pos + 1 - pos) with 1 by lia. cbn.
      now destruct s. }
    destruct (finditer_from (pos + 1) s) as [|t ts] eqn:E.
    + split; [constructor; [exact Hone | constructor]|].
      constructor; constructor.
    + inversion Htok as [|? ? Ht Hts]; subst.
      inversion Hshift as [|? ? Ht' Hts']; subst.
      inversion Hsorted as [|? ? Hs Hlt]; subst.
      destruct Ht as ((A1 & A2) & A3 & A4 & A5).
      destruct (t_start t =? pos + 1) eqn:Es.
      * apply Z.eqb_eq in Es. split.
        -- constructor; [|exact Hts'].
           unfold token_at, Py.len in *. cbn [group t_start t_end String.length].
           repeat split; try lia.
           replace (pos - pos) with 0 by lia.
           replace (Z.to_nat (t_end t - pos))
             with (S (Z.to_nat (t_end t - t_start t))) by lia.
           cbn [Z.to_nat substring]. f_equal.
           rewrite A4. f_equal. lia.
        -- constructor; [exact Hs|]. exact Hlt.
      * apply Z.eqb_neq in Es. split.
        -- constructor; [exact Hone | exact Hshift].
        -- constructor; [exact Hsorted|].
           constructor; [cbn; lia|].
           eapply Forall_impl; [|exact Hlt]. cbn. intros b Hb. lia.
Qed.

Lemma In_firstn {A} (l : list A) (n : nat) (x : A) :
  In x (firstn n l) -> In x l.
Proof.
  intros H. rewrite <- (firstn_skipn n l). apply in_or_app. now left.
Qed.

Lemma In_skipn {A} (l : list A) (n : nat) (x : A) :
  In x (skipn n l) -> In x l.
Proof.
  intros H. rewrite <- (firstn_skipn n l). apply in_or_app. now right.
Qed.

Lemma sorted_skipn {A} (R : A -> A -> Prop) (l : list A) (n : nat) :
  StronglySorted R l -> StronglySorted R (skipn n l).
Proof.
  revert l. induction n as [|n IH]; intros l H; [exact H|].
  destruct l as [|x l]; [constructor|]. cbn. apply IH.
  now inversion H.
Qed.

Lemma sorted_firstn {A} (R : A -> A -> Prop) (l : list A) (n : nat) :
  StronglySorted R l -> StronglySorted R (firstn n l).
Proof.
  revert l. induction n as [|n IH]; intros l H; [constructor|].
  destruct l as [|x l]; [constructor|]. cbn.
  inversion H as [|? ? Hs Hall]; subst. constructor; [now apply IH|].
  apply Forall_forall. intros y Hy. apply In_firstn in Hy.
  revert y Hy. now apply Forall_forall.
Qed.

Lemma last_In {A} (l : list A) (d : A) : l <> [] -> In (last l d) l.
Proof.
  induction l as [|x l IH]; [congruence|]. intros _.
  destruct l as [|y l]; [now left|]. right. apply IH. discriminate.
Qed.

Lemma window_span (text : string) (idx n : nat) (first : Token)
      (rest : list Token) :
  firstn n (skipn idx (finditer text)) = first :: rest ->
  0 <= t_start first < t_end (last (first :: rest) first)
  /\ t_end (last (first :: rest) first) <= Py.len text.
Proof.
  intros Hw.
  destruct (finditer_from_tokens text 0) as [Htok Hsorted].
  fold (finditer text) in Htok, Hsorted.
  assert (Hsub : forall t, In t (first :: rest) -> token_at 0 text t).
  { intros t Ht. rewrite <- Hw in Ht. apply In_firstn, In_skipn in Ht.
    revert t Ht. apply Forall_forall. exact Htok. }
  assert (Hw_sorted : StronglySorted (fun a b => t_end a < t_start b)
                                     (first :: rest)).
  { rewrite <- Hw. apply sorted_firstn, sorted_skipn. exact Hsorted. }
  destruct (Hsub first (or_introl eq_refl)) as ((F1 & F2) & F3 & _).
  assert (Hlast : In (last (first :: rest) first) (first :: rest))
    by (apply last_In; discriminate).
  destruct (Hsub _ Hlast) as ((L1 & L2) & L3 & _).
  split; [|lia]. split; [lia|].
  destruct Hlast as [<-|Hin]; [lia|].
  inversion Hw_sorted as [|? ? _ Hall]; subst.
  rewrite Forall_forall in Hall. specialize (Hall _ Hin). lia.
Qed.

End Tokens.

Section MatchShape.

Import SkillMatcher Shape.

Lemma match_from_raw (self : t) (text : string) (m : SkillMatch) :
  In m (match_ self text) -> In m (collect_raw_matches self text).
Proof.
  rewrite match_unfolded. unfold sort_by_start, resolve_overlaps.
  rewrite sort_In. intros H. apply walk_from in H.
  destruct H as [[]|H]. unfold sort_by_specificity in H.
  now rewrite sort_In in H.
Qed.

Lemma in_entries (self : t) (k : string) (l : list SkillEntry) (e : SkillEntry) :
  Dict.get k (index self) = Some l -> In e l -> In e (Spec.entries self).
Proof.
  intros Hget Hin. unfold Spec.entries. apply in_concat.
  exists l. split; [|exact Hin]. exact (get_In_values _ _ _ Hget).
Qed.

(** What holds of each raw match of [text]. *)
Lemma raw_matches_shape (self : t) (text : string) (m : SkillMatch) :
  In m (collect_raw_matches self text) ->
  (0 <= start m < end_ m /\ end_ m <= Py.len text)
  /\ matched_text m = Py.slice (start m) (end_ m) text
  /\ snippet m = _extract_context text (start m) (end_ m)
  /\ context_is_valid (entry m) (snippet m) = true
  /\ Py.mem (Py.lower (canonical_name (entry m))) (excluded self) = false
  /\ Py.mem (normalized (entry m)) (excluded self) = false
  /\ In (entry m) (Spec.entries self)
  /\ exists idx first rest,
       firstn (List.length (tokens (entry m)))
              (skipn idx (finditer (Py.lower text))) = first :: rest
       /\ Py.join " " (map group (first :: rest)) = normalized (entry m)
       /\ start m = t_start first
       /\ end_ m = t_end (last (first :: rest) first).
Proof.
  unfold collect_raw_matches.
  set (toks := finditer (Py.lower text)).
  set (Q := fun m : SkillMatch =>
    (0 <= start m < end_ m /\ end_ m <= Py.len text)
    /\ matched_text m = Py.slice (start m) (end_ m) text
    /\ snippet m = _extract_context text (start m) (end_ m)
    /\ context_is_valid (entry m) (snippet m) = true
    /\ Py.mem (Py.lower (canonical_name (entry m))) (excluded self) = false
    /\ Py.mem (normalized (entry m)) (excluded self) = false
    /\ In (entry m) (Spec.entries self)
    /\ exists idx first rest,
         firstn (List.length (tokens (entry m))) (skipn idx toks) = first :: rest
         /\ Py.join " " (map group (first :: rest)) = normalized (entry m)
         /\ start m = t_start first
         /\ end_ m = t_end (last (first :: rest) first)).
  revert m. change (forall m, In m (raw_matches
    (fold_left (scan_token self text toks)
               (combine (seq 0 (List.length toks)) toks)
               {| raw_matches := []; seen_spans := [] |})) -> Q m).
  apply (fold_left_invariant (fun st => forall m, In m (raw_matches st) -> Q m)).
  - intros st [idx tok] Hst. unfold scan_token. cbn [fst snd].
    destruct (Dict.get (group tok) (index self)) as [candidates|] eqn:Hget;
      [|exact Hst].
    apply (fold_left_In_invariant
             (fun st => forall m, In m (raw_matches st) -> Q m));
      [|exact Hst].
    clear st Hst. intros st e He Hst. unfold try_candidate.
    destruct (_ <? _)%nat; [exact Hst|].
    destruct (negb (String.eqb _ _)) eqn:Enorm; [exact Hst|].
    destruct (firstn (List.length (tokens e)) (skipn idx toks))
      as [|first rest] eqn:Ew; [exact Hst|].
    destruct (Py.mem (Py.lower (canonical_name e)) (excluded self)) eqn:Ex1;
      [exact Hst|].
    destruct (Py.mem (normalized e) (excluded self)) eqn:Ex2; [exact Hst|].
    cbn [orb].
    destruct (Py.mem _ (seen_spans st)); [exact Hst|].
    destruct (negb (context_is_valid e _)) eqn:Ectx; [exact Hst|].
    cbn [raw_matches]. intros m Hm. apply in_app_or in Hm.
    destruct Hm as [Hm|[<-|[]]]; [now apply Hst|].
    unfold Q. cbn [start end_ matched_text snippet entry].
    pose proof (window_span (Py.lower text) idx _ first rest Ew) as Hspan.
    rewrite lower_len in Hspan.
    apply negb_false_iff in Ectx. apply negb_false_iff in Enorm.
    apply String.eqb_eq in Enorm.
    repeat split; try tauto.
    + eapply in_entries; eassumption.
    + exists idx, first, rest. auto.
  - intros m [].
Qed.



End MatchShape.

(* ================================================================== *)
(** ** The index in good order *)

Section IndexShape.

Import SkillMatcher Shape.

Lemma finditer_chars (s : string) (pos : Z) :
  Forall (fun t => forallb token_char (list_ascii_of_string (group t)) = true)
         (finditer_from pos s).
Proof.
  revert pos. induction s as [|c s IH]; intros pos; cbn [finditer_from];
    [constructor|].
  destruct (token_char c) eqn:Ec; [|apply IH].
  specialize (IH (pos + 1)).
  destruct (finditer_from (pos + 1) s) as [|t ts].
  - constructor; [|constructor]. cbn. now rewrite Ec.
  - inversion IH; subst.
    destruct (t_start t =? pos + 1); constructor; auto.
    + cbn. rewrite Ec. assumption.
    + cbn. now rewrite Ec.
Qed.

Lemma findall_token_strings (variant : string) :
  Forall token_string (findall variant).
Proof.
  unfold findall, finditer. apply Forall_map.
  pose proof (finditer_groups variant 0) as H1.
  pose proof (finditer_chars variant 0) as H2.
  rewrite Forall_forall in *. intros t Ht. split; auto.
Qed.

Lemma variants_are_token_strings (phrase : string) (tokens : list string) :
  In tokens (_generate_token_variants phrase) ->
  tokens <> [] /\ Forall token_string tokens.
Proof.
  unfold _generate_token_variants.
  destruct (String.eqb phrase ""); [intros []|].
  cbv zeta.
  match goal with
  | |- In _ (fold_left ?f ?l []) -> _ =>
      assert (Hgen : forall acc,
                 (forall x, In x acc -> x <> [] /\ Forall token_string x) ->
                 forall x, In x (fold_left f l acc) ->
                           x <> [] /\ Forall token_string x)
  end.
  { match goal with |- forall acc, _ -> forall x, In x (fold_left _ ?l _) -> _ =>
      induction l as [|v vs IH] end; intros acc Hacc x; simpl; [apply Hacc|].
    apply IH. intros y Hy.
    destruct (findall v) as [|t ts] eqn:Hv; [apply Hacc, Hy|].
    apply set_add_In in Hy. destruct Hy as [-> | Hy]; [|apply Hacc, Hy].
    split; [discriminate|]. rewrite <- Hv. apply findall_token_strings. }
  apply Hgen. intros x [].
Qed.

Lemma token_string_no_blank (a x : string) :
  forallb token_char (list_ascii_of_string a) = true ->
  forall b, a <> (b ++ String " " x)%string.
Proof.
  revert a. intros a Ha b. revert a Ha.
  induction b as [|c b IH]; intros a Ha E; subst a; cbn in Ha.
  - discriminate.
  - apply andb_true_iff in Ha. destruct Ha as [_ Ha].
    exact (IH _ Ha eq_refl).
Qed.

Lemma split_at_blank (a b x y : string) :
  forallb token_char (list_ascii_of_string a) = true ->
  forallb token_char (list_ascii_of_string b) = true ->
  (a ++ String " " x)%string = (b ++ String " " y)%string ->
  a = b /\ x = y.
Proof.
  revert b. induction a as [|c a IH]; intros [|d b] Ha Hb E; cbn in *.
  - inversion E. auto.
  - inversion E; subst. discriminate.
  - inversion E; subst. discriminate.
  - inversion E; subst.
    apply andb_true_iff in Ha. apply andb_true_iff in Hb.
    destruct (IH b) as [-> ->]; tauto.
Qed.

Lemma join_cons (t1 t2 : string) (ts : list string) :
  Py.join " " (t1 :: t2 :: ts)
  = (t1 ++ String " " (Py.join " " (t2 :: ts)))%string.
Proof. reflexivity. Qed.

Lemma join_inj (ts1 ts2 : list string) :
  Forall token_string ts1 -> Forall token_string ts2 ->
  Py.join " " ts1 = Py.join " " ts2 -> ts1 = ts2.
Proof.
  revert ts2. induction ts1 as [|a ts1 IH]; intros ts2 H1 H2 E.
  - destruct ts2 as [|b ts2]; [reflexivity|]. exfalso.
    inversion H2 as [|? ? [Hb _] _]; subst.
    destruct ts2; cbn in E; [congruence|].
    destruct b; [congruence | discriminate].
  - inversion H1 as [|? ? [Ha Hca] H1']; subst.
    destruct ts2 as [|b ts2].
    + exfalso. destruct ts1; cbn in E; [congruence|].
      destruct a; [congruence | discriminate].
    + inversion H2 as [|? ? [Hb Hcb] H2']; subst.
      destruct ts1 as [|a2 ts1]; destruct ts2 as [|b2 ts2].
      * cbn in E. now subst.
      * exfalso. rewrite join_cons in E. cbn [Py.join String.concat] in E.
        exact (token_string_no_blank _ _ Hca _ E).
      * exfalso. rewrite join_cons in E. cbn [Py.join String.concat] in E.
        symmetry in E. exact (token_string_no_blank _ _ Hcb _ E).
      * rewrite !join_cons in E.
        destruct (split_at_blank _ _ _ _ Hca Hcb E) as [-> E'].
        f_equal. apply IH; assumption.
Qed.

Lemma append_to_items {A} (k : string) (v : A) (d : Dict.t string (list A))
      (k' : string) (l' : list A) :
  In (k', l') (Dict.append_to k v d) ->
  In (k', l') d
  \/ (k' = k /\ exists l0, l' = l0 ++ [v] /\ (l0 = [] \/ In (k, l0) d)).
Proof.
  induction d as [|[k0 l0] d IH]; cbn.
  - intros [H|[]]. inversion H; subst. right. split; [reflexivity|].
    exists []. auto.
  - unfold eqb, string_Eqb. destruct (String.eqb k k0) eqn:E.
    + apply String.eqb_eq in E. subst k0. intros [H|H]; [|auto].
      inversion H; subst. right. split; [reflexivity|]. exists l0. auto.
    + intros [H|H]; [auto|]. destruct (IH H) as [|(-> & l1 & -> & Hl1)]; auto.
      right. split; [reflexivity|]. exists l1. split; [reflexivity|].
      destruct Hl1; auto.
Qed.

Lemma append_to_grows {A} (k : string) (v : A) (d : Dict.t string (list A))
      (x : A) :
  x = v \/ In x (List.concat (Dict.values d)) ->
  In x (List.concat (Dict.values (Dict.append_to k v d))).
Proof.
  unfold Dict.values.
  induction d as [|[k0 l0] d IH]; cbn.
  - intros [->|[]]. now left.
  - unfold eqb, string_Eqb. destruct (String.eqb k k0); cbn.
    + intros [->|H]; apply in_or_app.
      * left. apply in_or_app. right. now left.
      * apply in_app_or in H. destruct H; [left|right]; auto.
        apply in_or_app. now left.
    + intros [->|H]; apply in_or_app.
      * right. apply IH. now left.
      * apply in_app_or in H. destruct H; [now left|right]. apply IH. now right.
Qed.

Lemma good_weaken (mappings : list Taxonomy.Mapping) (b b' : Z) (e : SkillEntry) :
  b <= b' -> good mappings b e -> good mappings b' e.
Proof.
  intros Hb (H1 & H2 & H3). split; [exact H1|]. split; [exact H2 | lia].
Qed.

Lemma empty_build_built (mappings : list Taxonomy.Mapping) :
  built mappings empty_build.
Proof. split; cbn; intros; try discriminate; contradiction. Qed.

Lemma add_variant_built (mappings : list Taxonomy.Mapping)
      (m : Taxonomy.Mapping) (phrase : string) (st : Build)
      (toks : list string) :
  In m mappings -> Taxonomy.skill_name m <> "" ->
  In phrase (Spec.phrases m) ->
  In toks (_generate_token_variants phrase) ->
  built mappings st -> built mappings (add_variant m phrase st toks).
Proof.
  intros Hm Hname Hphrase Htoks [Huniq Hidx Hlook].
  destruct (variants_are_token_strings _ _ Htoks) as [Hne Hstr].
  pose proof (variants_join _ _ Htoks) as Hjoin.
  unfold add_variant.
  destruct (String.eqb (Py.join " " toks) "") eqn:En;
    [split; assumption|].
  assert (Hstep : forall entry bound,
    b_max_tokens st <= bound ->
    good mappings bound entry ->
    normalized entry = Py.join " " toks ->
    tokens entry = toks ->
    forall unique,
      (forall key e, Dict.get key unique = Some e ->
                     good mappings bound e
                     /\ key = (Py.lower (canonical_name e), normalized e)) ->
      built mappings
        {| b_index := Dict.append_to (hd "" toks) entry (b_index st);
           b_normalized_lookup :=
             Dict.setdefault (Py.join " " toks) entry (b_normalized_lookup st);
           b_unique_entries := unique;
           b_max_tokens := bound |}).
  { intros entry bound Hbound Hgood Hnorm Htok unique Hunique.
    split; cbn [b_index b_normalized_lookup b_unique_entries b_max_tokens].
    - exact Hunique.
    - intros k l e Hkl He.
      destruct (append_to_items _ _ _ _ _ Hkl)
        as [Hold|(-> & l0 & -> & Hl0)].
      + destruct (Hidx _ _ _ Hold He) as [Hg Hk].
        split; [eapply good_weaken; eassumption | exact Hk].
      + apply in_app_or in He. destruct He as [He|[<-|[]]].
        * destruct Hl0 as [->|Hl0]; [destruct He|].
          destruct (Hidx _ _ _ Hl0 He) as [Hg Hk].
          split; [eapply good_weaken; eassumption | exact Hk].
        * split; [exact Hgood | now rewrite Htok].
    - intros n e Hget.
      destruct (String.eqb n (Py.join " " toks)) eqn:E.
      + apply String.eqb_eq in E. subst n.
        rewrite get_setdefault_same in Hget.
        destruct (Dict.get (Py.join " " toks) (b_normalized_lookup st))
          as [v0|] eqn:Eold.
        * inversion Hget; subst v0. destruct (Hlook _ _ Eold) as [H1 H2].
          split; [exact H1|]. apply append_to_grows. now right.
        * inversion Hget; subst e. split; [exact Hnorm|].
          apply append_to_grows. now left.
      + apply String.eqb_neq in E.
        rewrite get_setdefault_other in Hget by exact E.
        destruct (Hlook _ _ Hget) as [H1 H2].
        split; [exact H1|]. apply append_to_grows. now right. }
  destruct (Dict.get (Py.lower (Taxonomy.skill_name m), Py.join " " toks)
                     (b_unique_entries st)) as [entry|] eqn:Eu.
  - destruct (Huniq _ _ Eu) as [Hg Hkey].
    inversion Hkey as [[Hc Hn]].
    assert (Htok : tokens entry = toks).
    { destruct Hg as ((_ & Hnorm & _ & _ & _ & Hin) & _ & _).
      destruct (variants_are_token_strings _ _ Hin) as [_ Hstr'].
      apply join_inj; auto. now rewrite <- Hnorm, <- Hn. }
    apply Hstep; auto; try lia.
  - set (entry :=
           {| canonical_name := Taxonomy.skill_name m;
              alias := phrase;
              normalized := Py.join " " toks;
              tokens := toks;
              esco_id := Taxonomy.esco_id m;
              category := Taxonomy.category m;
              skill_type := Taxonomy.skill_type m;
              requires_context := _should_require_context toks |}).
    assert (Hnew : good mappings
                     (Z.max (b_max_tokens st) (Z.of_nat (List.length toks)))
                     entry).
    { split; [|split].
      - unfold entry_ok. cbn. repeat split; auto.
      - exists m. split; [exact Hm|]. unfold entry_of. cbn. auto.
      - cbn. lia. }
    apply Hstep.
    + lia.
    + exact Hnew.
    + reflexivity.
    + reflexivity.
    + intros key e Hget.
      destruct (eqb key (Py.lower (Taxonomy.skill_name m), Py.join " " toks))
        eqn:Ek.
      * apply eqb_true_iff in Ek. subst key. rewrite get_set_same in Hget.
        inversion Hget; subst e. split; [exact Hnew | reflexivity].
      * assert (Hneq : key <> (Py.lower (Taxonomy.skill_name m),
                               Py.join " " toks)).
        { intros ->. rewrite (proj2 (eqb_true_iff _ _) eq_refl) in Ek.
          discriminate. }
        rewrite get_set_other in Hget by exact Hneq.
        destruct (Huniq _ _ Hget) as [Hg Hk].
        split; [|exact Hk]. eapply good_weaken; [|exact Hg]. lia.
Qed.

Lemma build_index_built (mappings : list Taxonomy.Mapping) :
  built mappings (_build_index mappings).
Proof.
  unfold _build_index.
  apply fold_left_In_invariant; [|apply empty_build_built].
  intros st m Hm Hst. unfold add_mapping.
  destruct (String.eqb (Taxonomy.skill_name m) "") eqn:En; [exact Hst|].
  apply String.eqb_neq in En.
  apply fold_left_In_invariant; [|exact Hst].
  intros st1 phrase Hphrase Hst1. unfold add_phrase.
  apply fold_left_In_invariant; [|exact Hst1].
  intros st2 toks Htoks Hst2.
  now apply add_variant_built.
Qed.

End IndexShape.

Section IndexFacts.

Import SkillMatcher Shape.

Lemma entries_item (self_index : Dict.t string (list SkillEntry)) (e : SkillEntry) :
  In e (List.concat (Dict.values self_index)) ->
  exists k l, In (k, l) self_index /\ In e l.
Proof.
  intros H. apply in_concat in H. destruct H as (l & Hl & He).
  unfold Dict.values in Hl. apply in_map_iff in Hl.
  destruct Hl as ([k l'] & E & Hkl). cbn in E. subst l'. eauto.
Qed.

(** X17: every entry of the index that [SkillMatcher] builds is filed under
    its first token and is made from one record of the taxonomy that has a
    name: it bears the name, the ESCO id, the category and the type of the
    record, its alias is the name or an alias of the record, its tokens are
    one of the token variants of that alias, its normalized phrase is these
    tokens joined by blanks and is not empty, its context flag is what
    [_should_require_context] says of these tokens, and [max_tokens] is at
    least their number.  Every phrase of the lookup stands for an entry of
    the index that has this phrase. *)
Theorem index_entries_are_well_formed
        (taxonomy_mapper : Taxonomy.TaxonomyMapper) (excluded : list string) :
  let self := init taxonomy_mapper excluded in
  (forall k l e,
      Dict.get k (index self) = Some l -> In e l ->
      hd "" (tokens e) = k
      /\ tokens e <> []
      /\ In (tokens e) (_generate_token_variants (alias e))
      /\ normalized e = Py.join " " (tokens e)
      /\ normalized e <> ""
      /\ requires_context e = _should_require_context (tokens e)
      /\ Z.of_nat (List.length (tokens e)) <= max_tokens self
      /\ exists m,
           In m (Taxonomy.get_all_mappings taxonomy_mapper)
           /\ Taxonomy.skill_name m <> ""
           /\ canonical_name e = Taxonomy.skill_name m
           /\ In (alias e) (Taxonomy.skill_name m :: Taxonomy.aliases m)
           /\ esco_id e = Taxonomy.esco_id m
           /\ category e = Taxonomy.category m
           /\ skill_type e = Taxonomy.skill_type m)
  /\ (forall n e,
         Dict.get n (normalized_lookup self) = Some e ->
         normalized e = n /\ In e (Spec.entries self)).
Proof.
  intros self.
  destruct (build_index_built (Taxonomy.get_all_mappings taxonomy_mapper))
    as [_ Hidx Hlook].
  split.
  - intros k l e Hget He. apply item_of_get in Hget.
    destruct (Hidx _ _ _ Hget He)
      as [((H1 & H2 & H3 & H4 & H5 & H6)
           & (m & Hm & M1 & M2 & M3 & M4 & M5) & Hlen) Hk].
    repeat split; auto.
    exists m. repeat split; auto. now rewrite <- M1.
  - intros n e Hget. exact (Hlook _ _ Hget).
Qed.

Lemma first_resolved_sound (self : t) (variants : list (list string))
      (e : SkillEntry) :
  first_resolved self variants = Some e ->
  Py.mem (Py.lower (canonical_name e)) (excluded self) = false
  /\ exists toks, In toks variants
                  /\ Dict.get (Py.join " " toks) (normalized_lookup self)
                     = Some e.
Proof.
  induction variants as [|toks rest IH]; cbn [first_resolved]; [discriminate|].
  destruct (Dict.get (Py.join " " toks) (normalized_lookup self))
    as [entry|] eqn:Eg.
  - destruct (Py.mem (Py.lower (canonical_name entry)) (excluded self)) eqn:Ex;
      cbn [negb].
    + intros H. destruct (IH H) as (H1 & t & Ht & Hg).
      split; [exact H1|]. exists t. split; [now right | exact Hg].
    + intros H. inversion H; subst entry. split; [exact Ex|].
      exists toks. split; [now left | exact Eg].
  - intros H. destruct (IH H) as (H1 & t & Ht & Hg).
    split; [exact H1|]. exists t. split; [now right | exact Hg].
Qed.

(** X18: what [resolve_phrase] returns for a phrase is an entry of the index
    whose name is not excluded, and one normalized variant of the phrase is
    the normalized phrase of the entry, which is in turn a normalized variant
    of the alias the entry was made from.  The empty phrase resolves to
    nothing. *)
Theorem resolved_phrase_is_sound
        (taxonomy_mapper : Taxonomy.TaxonomyMapper) (excluded : list string)
        (phrase : string) (e : SkillEntry) :
  let self := init taxonomy_mapper excluded in
  resolve_phrase self phrase = Some e ->
  phrase <> ""
  /\ Py.mem (Py.lower (canonical_name e)) (SkillMatcher.excluded self) = false
  /\ In e (Spec.entries self)
  /\ In (normalized e) (Spec.normalized_variants phrase)
  /\ In (normalized e) (Spec.normalized_variants (alias e)).
Proof.
  intros self. unfold resolve_phrase.
  destruct (String.eqb phrase "") eqn:Ep; [discriminate|].
  apply String.eqb_neq in Ep. intros H.
  destruct (first_resolved_sound _ _ _ H) as (Hex & toks & Htoks & Hget).
  destruct (build_index_built (Taxonomy.get_all_mappings taxonomy_mapper))
    as [_ Hidx Hlook].
  destruct (Hlook _ _ Hget) as [Hn Hin].
  destruct (entries_item _ _ Hin) as (k & l & Hkl & He).
  destruct (Hidx _ _ _ Hkl He) as [((_ & Hnorm & _ & _ & _ & Hvar) & _ & _) _].
  repeat split; auto.
  - rewrite Hn. unfold Spec.normalized_variants. now apply in_map.
  - rewrite Hnorm. unfold Spec.normalized_variants. now apply in_map.
Qed.

Lemma resolved_phrase_is_sound_witness :
  let self := init (Taxonomy._load_taxonomy Sample.python_docker)
                   SkillExtractionService.excluded_skills in
  "PYTHON-3" <> ""
  /\ Py.mem (Py.lower (canonical_name
                         {| canonical_name := "Python";
                            alias := "Python 3";
                            normalized := "python 3";
                            tokens := ["python"; "3"];
                            esco_id := None;
                            category := "technical";
                            skill_type := Some "skill/competence";
                            requires_context := false |}))
            (SkillMatcher.excluded self) = false
  /\ In {| canonical_name := "Python";
           alias := "Python 3";
           normalized := "python 3";
           tokens := ["python"; "3"];
           esco_id := None;
           category := "technical";
           skill_type := Some "skill/competence";
           requires_context := false |}
        (Spec.entries self)
  /\ In "python 3" (Spec.normalized_variants "PYTHON-3")
  /\ In "python 3" (Spec.normalized_variants "Python 3").
Proof.
  apply (resolved_phrase_is_sound
           (Taxonomy._load_taxonomy Sample.python_docker)
           SkillExtractionService.excluded_skills "PYTHON-3"
           {| canonical_name := "Python";
              alias := "Python 3";
              normalized := "python 3";
              tokens := ["python"; "3"];
              esco_id := None;
              category := "technical";
              skill_type := Some "skill/competence";
              requires_context := false |}).
  vm_compute. reflexivity.
Defined.

Lemma lower_empty (s : string) : Py.lower s = "" -> s = "".
Proof. destruct s; [reflexivity | discriminate]. Qed.

(** X19: [resolve_phrase] does not look at letter case: two phrases that are
    equal once lower-cased resolve to the same entry, with any matcher. *)
Theorem resolve_phrase_ignores_case (self : t) (phrase other : string) :
  Py.lower phrase = Py.lower other ->
  resolve_phrase self phrase = resolve_phrase self other.
Proof.
  intros E. unfold resolve_phrase, _generate_token_variants.
  destruct (String.eqb phrase "") eqn:Ep.
  - apply String.eqb_eq in Ep. subst phrase. cbn in E. symmetry in E.
    apply lower_empty in E. now subst other.
  - destruct (String.eqb other "") eqn:Eo.
    + apply String.eqb_eq in Eo. subst other. cbn in E.
      apply lower_empty in E. subst phrase. discriminate.
    + now rewrite E.
Qed.

Lemma resolve_phrase_ignores_case_witness :
  resolve_phrase (Sample.matcher Sample.python_docker) "PYTHON"
  = resolve_phrase (Sample.matcher Sample.python_docker) "python".
Proof.
  apply (resolve_phrase_ignores_case
           (Sample.matcher Sample.python_docker) "PYTHON" "python").
  reflexivity.
Defined.

End IndexFacts.

(* ================================================================== *)
(** ** The strings of the structured data *)

Section SkillStrings.

Import SkillExtractionService.





End SkillStrings.

(* ================================================================== *)
(** ** The evidence map and the skills made from it *)

Section EvidenceMap.

Import Schema SkillExtractionService Shape.
Local Open Scope Q_scope.

Lemma score_floor (snippet skill_name source : string)
      (skill_entry : option SkillMatcher.SkillEntry) :
  0.4 <= _score_evidence snippet skill_name source skill_entry
  /\ (source = "structured" ->
      0.8 <= _score_evidence snippet skill_name source skill_entry).
Proof.
  unfold _score_evidence.
  split.
  - destruct (String.eqb source "structured");
      destruct (String.eqb source "resume" && _);
      destruct (existsb _ year_patterns);
      destruct (Py.any_in strong_contexts _);
      destruct (Py.any_in achievement_words _);
      destruct (Py.any_in list_indicators _);
      destruct (Py.any_in weak_contexts _);
      destruct skill_entry as [e|];
      try destruct (SkillMatcher.requires_context e && _);
      apply Qle_bool_iff; vm_compute; reflexivity.
  - intros ->. cbn [String.eqb Ascii.eqb Bool.eqb andb].
    destruct (existsb _ year_patterns);
      destruct (Py.any_in strong_contexts _);
      destruct (Py.any_in achievement_words _);
      destruct (Py.any_in list_indicators _);
      destruct (Py.any_in weak_contexts _);
      destruct skill_entry as [e|];
      try (rewrite andb_false_r);
      apply Qle_bool_iff; vm_compute; reflexivity.
Qed.

Lemma set_Forall {V} (P : string * V -> Prop) (k : string) (v : V)
      (d : Dict.t string V) :
  Forall P d -> P (k, v) -> Forall P (Dict.set k v d).
Proof.
  intros Hd Hkv. apply Forall_forall. intros kv Hin.
  rewrite Forall_forall in Hd.
  destruct (set_items _ _ _ _ Hin) as [->|Hold]; [exact Hkv | now apply Hd].
Qed.

Lemma add_or_update_ok (Q : string -> Prop) (E : EvidenceItem -> Prop)
      (self : t) (skills_dict : Dict.t string SkillData)
      (skill_name full_text : string) (start end_ : Z) (source : string)
      (skill_entry : option SkillMatcher.SkillEntry)
      (matched_text snippet_override : option string) (validate : bool) :
  Q (Py.strip match skill_entry with
              | Some e => SkillMatcher.canonical_name e
              | None => skill_name
              end) ->
  (forall snip sc, 0.4 <= sc /\ sc <= 1
                   /\ (source = "structured" -> 0.8 <= sc) ->
                   E {| Schema.source := source; snippet := snip; score := sc;
                        offset := if validate then Some start else None;
                        href := None |}) ->
  evidence_map_ok Q E skills_dict ->
  evidence_map_ok Q E
    (_add_or_update_skill self skills_dict skill_name full_text start end_
                          source skill_entry matched_text snippet_override
                          validate).
Proof.
  intros HQ HE [Hnd Hall]. unfold _add_or_update_skill.
  set (canonical := Py.strip _) in *.
  destruct (String.eqb canonical "") eqn:Ec; [split; assumption|].
  apply String.eqb_neq in Ec.
  destruct (Py.mem (Py.lower canonical) excluded_skills) eqn:Ex;
    [split; assumption|].
  destruct (validate && negb _); [split; assumption|].
  match goal with
  | |- evidence_map_ok _ _ (if ?c then _ else _) =>
      destruct c; [split; assumption|]
  end.
  match goal with
  | |- evidence_map_ok _ _ (Dict.set _ ?entry _) => set (new_entry := entry)
  end.
  split; [now apply set_keys_NoDup|].
  apply set_Forall; [exact Hall|].
  match goal with
  | _ := {| sd_name := _; sd_evidence := if Py.mem ?s _ then _ else _ ++ [?ev];
            sd_matched_terms := _; sd_category := _ |} |- _ =>
      set (snip := s) in *; set (new_ev := ev) in *
  end.
  assert (Hev : E new_ev).
  { apply HE. split; [apply score_floor|].
    split; [apply score_unit_interval | apply score_floor]. }
  destruct (Dict.get (Py.lower canonical) skills_dict) as [old|] eqn:Eg.
  - apply item_of_get in Eg. rewrite Forall_forall in Hall.
    destruct (Hall _ Eg) as (H1 & H2 & H3 & H4 & H5 & H6 & H7).
    cbn [fst snd] in *.
    unfold data_ok. subst new_entry. cbn [fst snd sd_name sd_evidence].
    repeat split; auto.
    + destruct (Py.mem snip _); [exact H5|].
      intros Habs. apply app_eq_nil in Habs. destruct Habs; discriminate.
    + destruct (Py.mem snip _) eqn:Em; [exact H6|].
      rewrite map_app. cbn [map]. apply NoDup_app.
      * exact H6.
      * constructor; [intros [] | constructor].
      * intros x Hx [<-|[]]. apply mem_In in Hx.
        subst new_ev. cbn [snippet] in Hx. congruence.
    + destruct (Py.mem snip _); [exact H7|].
      apply Forall_app. split; [exact H7|]. constructor; [exact Hev | constructor].
  - unfold data_ok. subst new_entry. cbn [fst snd sd_name sd_evidence map Py.mem existsb app].
    repeat split; auto.
    + discriminate.
    + constructor; [intros [] | constructor].
Qed.

Lemma collect_evidence_ok (Q : string -> Prop) (self : t) (text : string)
      (processed_data : option (Dict.t string Json)) :
  (forall e, In e (Spec.entries (skill_matcher self)) ->
             Q (Py.strip (SkillMatcher.canonical_name e))) ->
  (forall n e,
      Dict.get n (SkillMatcher.normalized_lookup (skill_matcher self)) = Some e ->
      Q (Py.strip (SkillMatcher.canonical_name e))) ->
  evidence_map_ok Q (evidence_ok text)
                  (collect_evidence self text processed_data).
Proof.
  intros HQ1 HQ2. unfold collect_evidence.
  assert (Hfirst : evidence_map_ok Q (evidence_ok text)
            (fold_left (add_text_match self text)
                       (SkillMatcher.match_ (skill_matcher self) text) [])).
  { apply fold_left_In_invariant; [|split; constructor].
    intros d m Hm Hd. unfold add_text_match.
    apply match_from_raw, raw_matches_shape in Hm.
    destruct Hm as ((Hs & He) & _ & _ & _ & _ & _ & Hin & _).
    apply add_or_update_ok; [now apply HQ1| |exact Hd].
    intros snip sc (Hlo & Hhi & _). unfold evidence_ok. cbn.
    split; [auto|]. split; [reflexivity|]. left.
    split; [reflexivity|]. exists (SkillMatcher.start m).
    split; [reflexivity | lia]. }
  destruct processed_data as [[|field fields]|]; try exact Hfirst.
  apply fold_left_invariant; [|exact Hfirst].
  intros d skill Hd. unfold add_structured.
  destruct (SkillMatcher.resolve_phrase (skill_matcher self) skill)
    as [entry|] eqn:Er; [|exact Hd].
  unfold SkillMatcher.resolve_phrase in Er.
  destruct (String.eqb skill ""); [discriminate|].
  destruct (first_resolved_sound _ _ _ Er) as (_ & toks & _ & Hget).
  apply add_or_update_ok; [eapply HQ2; eassumption| |exact Hd].
  intros snip sc (Hlo & Hhi & Hst). unfold evidence_ok. cbn.
  split; [auto|]. split; [reflexivity|]. right. auto.
Qed.

Lemma extracted_item_source (self : t) (uuid4 : nat -> string)
      (text : string) (processed_data : option (Dict.t string Json))
      (item : SkillItem) :
  In item (_extract_skills self uuid4 text processed_data) ->
  exists key data n,
    In (key, data) (collect_evidence self text processed_data)
    /\ item = {| skill_id := Some (uuid4 n);
                 name := match match Taxonomy.get_mapping (taxonomy_mapper self)
                                                         (sd_name data) with
                               | Some m => Some m
                               | None => Taxonomy.get_mapping
                                           (taxonomy_mapper self) key
                               end with
                         | Some m => Taxonomy.skill_name m
                         | None => sd_name data
                         end;
                 category := match match Taxonomy.get_mapping
                                           (taxonomy_mapper self) (sd_name data) with
                                   | Some m => Some m
                                   | None => Taxonomy.get_mapping
                                               (taxonomy_mapper self) key
                                   end with
                             | Some m => Taxonomy.category m
                             | None => or_else (sd_category data) "technical"
                             end;
                 confidence := _calculate_confidence (sd_evidence data);
                 evidence := sd_evidence data;
                 mapped_taxonomy_id :=
                   match match Taxonomy.get_mapping
                                 (taxonomy_mapper self) (sd_name data) with
                         | Some m => Some m
                         | None => Taxonomy.get_mapping
                                     (taxonomy_mapper self) key
                         end with
                   | Some m => Taxonomy.esco_id m
                   | None => None
                   end;
                 manual_status := suggested;
                 edited_name := None;
                 tags := Py.sort String.ltb (sd_matched_terms data) |}.
Proof.
  unfold _extract_skills, sort_by_confidence, Dict.items.
  rewrite sort_In. revert item.
  apply (fold_left_In_invariant
           (fun l => forall item, In item l -> _)).
  - intros l [key data] Hkd Hl item. unfold add_skill_item.
    destruct (Num.ltb _ _); [apply Hl|].
    intros Hin. apply in_app_or in Hin. destruct Hin as [Hin|[<-|[]]].
    + now apply Hl.
    + exists key, data, (List.length l). split; [exact Hkd | reflexivity].
  - intros item [].
Qed.



Lemma loaded_records_In (mappings : list Taxonomy.Mapping) (m : Taxonomy.Mapping) :
  In m (Taxonomy.get_all_mappings (Taxonomy._load_taxonomy mappings)) ->
  In m mappings.
Proof.
  set (ims := combine (seq 0 (List.length mappings)) mappings).
  assert (Hload : loaded ims (Taxonomy._load_taxonomy mappings)).
  { apply loaded_fold; [auto|]. split; [constructor | intros k v []]. }
  destruct Hload as [_ Hitems].
  assert (Hval : forall v, In v (Dict.values (Taxonomy._load_taxonomy mappings)) ->
                           In v ims).
  { intros v Hv. unfold Dict.values in Hv. apply in_map_iff in Hv.
    destruct Hv as ([k v'] & E & Hv). cbn in E. subst v'.
    exact (proj2 (Hitems _ _ Hv)). }
  assert (Hfun : forall i x x',
             In (i, x) (Dict.values (Taxonomy._load_taxonomy mappings)) ->
             In (i, x') (Dict.values (Taxonomy._load_taxonomy mappings)) ->
             x = x').
  { intros i x x' H1 H2.
    apply (combine_functional mappings 0 i); apply Hval; assumption. }
  destruct (walk_values _ [] [] Hfun) as (H1 & _ & _).
  intros Hin. destruct (H1 m Hin) as [[]|[i Hi]].
  apply Hval in Hi. exact (in_combine_r _ _ _ _ Hi).
Qed.

Lemma load_lookup_In (mappings : list Taxonomy.Mapping) (name : string)
      (m : Taxonomy.Mapping) :
  Taxonomy.get_mapping (Taxonomy._load_taxonomy mappings) name = Some m ->
  In m mappings.
Proof.
  rewrite get_mapping_load. intros H. apply find_some in H.
  apply in_rev. tauto.
Qed.

(** X22: the extraction never makes up a skill: with a service built over
    the records of the taxonomy file, each skill returned bears the name of a
    record of the file, with the category and the ESCO id of that record, or,
    when no record is looked up under the name, the name of a record without
    the blanks around it, and then no ESCO id. *)
Theorem extracted_skills_come_from_the_taxonomy
        (mappings : list Taxonomy.Mapping) (uuid4 : nat -> string)
        (text : string) (processed_data : option (Dict.t string Json))
        (item : SkillItem) :
  let self := init None (Taxonomy._load_taxonomy mappings) in
  In item (_extract_skills self uuid4 text processed_data) ->
  exists m,
    In m mappings
    /\ ((name item = Taxonomy.skill_name m
         /\ category item = Taxonomy.category m
         /\ mapped_taxonomy_id item = Taxonomy.esco_id m)
        \/ (name item = Py.strip (Taxonomy.skill_name m)
            /\ mapped_taxonomy_id item = None)).
Proof.
  intros self Hin.
  destruct (extracted_item_source _ _ _ _ _ Hin) as (key & data & n & Hkd & ->).
  cbn [name category mapped_taxonomy_id].
  set (mapper := Taxonomy._load_taxonomy mappings) in *.
  destruct (build_index_built (Taxonomy.get_all_mappings mapper))
    as [_ Hidx Hlook].
  assert (HQ1 : forall e,
             In e (Spec.entries (skill_matcher self)) ->
             exists m, In m mappings
                       /\ Py.strip (SkillMatcher.canonical_name e)
                          = Py.strip (Taxonomy.skill_name m)).
  { intros e He. destruct (entries_item _ _ He) as (k & l & Hkl & Hel).
    destruct (Hidx _ _ _ Hkl Hel) as [(_ & (m & Hm & Hname & _) & _) _].
    exists m. split; [now apply loaded_records_In | now rewrite Hname]. }
  destruct (collect_evidence_ok
              (fun n => exists m, In m mappings
                                  /\ n = Py.strip (Taxonomy.skill_name m))
              self text processed_data) as [_ Hall].
  { exact HQ1. }
  { intros k e Hget. apply HQ1. exact (proj2 (Hlook _ _ Hget)). }
  rewrite Forall_forall in Hall.
  destruct (Hall _ Hkd) as (_ & _ & _ & (m0 & Hm0 & Hname0) & _).
  cbn [fst snd] in *. cbn [taxonomy_mapper self init].
  destruct (Taxonomy.get_mapping mapper (sd_name data)) as [m|] eqn:E1.
  - exists m. split; [exact (load_lookup_In _ _ _ E1) | auto].
  - destruct (Taxonomy.get_mapping mapper key) as [m|] eqn:E2.
    + exists m. split; [exact (load_lookup_In _ _ _ E2) | auto].
    + exists m0. split; [exact Hm0 | auto].
Qed.

Lemma extracted_skills_come_from_the_taxonomy_witness :
  let item :=
    {| skill_id := Some "0"; name := "Python"; category := "technical";
       confidence := 0.81;
       evidence :=
         [ {| source := "resume"; snippet := Sample.python_resume;
              score := 1; offset := Some 28%Z; href := None |} ];
       mapped_taxonomy_id := None; manual_status := suggested;
       edited_name := None; tags := ["Python"] |} in
  exists m,
    In m Sample.python_docker
    /\ ((name item = Taxonomy.skill_name m
         /\ category item = Taxonomy.category m
         /\ mapped_taxonomy_id item = Taxonomy.esco_id m)
        \/ (name item = Py.strip (Taxonomy.skill_name m)
            /\ mapped_taxonomy_id item = None)).
Proof.
  intros item.
  apply (extracted_skills_come_from_the_taxonomy
           Sample.python_docker Sample.uuid4 Sample.python_resume None item).
  vm_compute. left. reflexivity.
Defined.

(** X23: the skills that the extraction returns are in the order of their
    confidence, the greatest first; each is suggested, has no edited name and
    has an identifier; and the identifiers are distinct when the supply
    never repeats one. *)
Theorem extracted_skills_are_sorted_and_fresh
        (self : t) (uuid4 : nat -> string) (text : string)
        (processed_data : option (Dict.t string Json)) :
  let result := _extract_skills self uuid4 text processed_data in
  StronglySorted (fun a b => confidence b <= confidence a) result
  /\ (forall item, In item result ->
                   manual_status item = suggested
                   /\ edited_name item = None
                   /\ exists n, skill_id item = Some (uuid4 n)
                                /\ (n < List.length result)%nat)
  /\ ((forall i j, uuid4 i = uuid4 j -> i = j) ->
      NoDup (map skill_id result)).
Proof.
  intros result. subst result. unfold _extract_skills, sort_by_confidence.
  set (made := fold_left (add_skill_item self uuid4) _ []).
  assert (Hids : map skill_id made
                 = map (fun n => Some (uuid4 n)) (seq 0 (List.length made))
                 /\ Forall (fun item => manual_status item = suggested
                                        /\ edited_name item = None) made).
  { subst made. apply fold_left_invariant; [|split; [reflexivity | constructor]].
    intros l [key data] [Hl Hst]. unfold add_skill_item.
    destruct (Num.ltb _ _); [split; assumption|].
    split.
    - rewrite map_app, length_app, seq_app, map_app, Hl. cbn.
      reflexivity.
    - apply Forall_app. split; [exact Hst|].
      constructor; [cbn; auto | constructor]. }
  destruct Hids as [Hids Hst].
  split; [|split].
  - apply sort_sorted.
    + intros x y z Hxy Hyz. now apply (Qle_trans _ (confidence y)).
    + intros y x Hb. unfold Num.ltb in Hb.
      destruct (Qcompare (confidence x) (confidence y)) eqn:E; try discriminate.
      apply Qlt_le_weak. now apply Qlt_alt.
    + intros y x Hb. now apply ltb_false_le.
  - intros item Hin. rewrite sort_In in Hin. rewrite sort_length.
    rewrite Forall_forall in Hst. destruct (Hst _ Hin) as [H1 H2].
    split; [exact H1|]. split; [exact H2|].
    assert (Hid : In (skill_id item) (map skill_id made)) by now apply in_map.
    rewrite Hids in Hid. apply in_map_iff in Hid.
    destruct Hid as (n & Hn & Hseq). apply in_seq in Hseq.
    exists n. split; [now symmetry | lia].
  - intros Hinj.
    apply (Permutation_NoDup (l := map skill_id made)).
    + apply Permutation_map, Permutation_sym, sort_perm.
    + rewrite Hids. clear Hids. generalize (seq_NoDup (List.length made) 0).
      induction (seq 0 (List.length made)) as [|i l IH]; intros Hnd; cbn;
        [constructor|].
      inversion Hnd as [|? ? Hnot Hrest]; subst.
      constructor; [|now apply IH].
      intros Hi. apply in_map_iff in Hi. destruct Hi as (j & E & Hj).
      inversion E as [E']. apply Hinj in E'. now subst.
Qed.


End EvidenceMap.

(* ================================================================== *)
(** ** Merging: one skill for each name *)

Section MergeFacts.

Import Schema SkillExtractionService.

Lemma set_keys {V} (k : string) (v : V) (d : Dict.t string V) (k' : string) :
  In k' (map fst (Dict.set k v d)) <-> k' = k \/ In k' (map fst d).
Proof.
  induction d as [|[k0 v0] d IH]; cbn.
  - intuition.
  - unfold eqb, string_Eqb. destruct (String.eqb k k0) eqn:E; cbn.
    + apply String.eqb_eq in E. subst k0. intuition.
    + rewrite IH. intuition.
Qed.

Lemma set_length {V} (k : string) (v : V) (d : Dict.t string V) :
  (List.length (Dict.set k v d) <= S (List.length d))%nat.
Proof.
  induction d as [|[k0 v0] d IH]; cbn [Dict.set List.length]; [lia|].
  unfold eqb, string_Eqb.
  destruct (String.eqb k k0); cbn [List.length].
  - apply le_S, le_n.
  - apply le_n_S, IH.
Qed.

Lemma set_fresh {V} (k : string) (v : V) (d : Dict.t string V) :
  ~ In k (map fst d) -> Dict.set k v d = d ++ [(k, v)].
Proof.
  induction d as [|[k0 v0] d IH]; cbn; [reflexivity|].
  intros Hnot. unfold eqb, string_Eqb.
  destruct (String.eqb k k0) eqn:E.
  - apply String.eqb_eq in E. subst k0. exfalso. apply Hnot. now left.
  - f_equal. apply IH. intros H. apply Hnot. now right.
Qed.

(** A dictionary of skills filed under their lower-cased names. *)
Lemma by_name_set (d : Dict.t string SkillItem) (s : SkillItem) :
  NoDup (map fst d)
  /\ Forall (fun kv => fst kv = Py.lower (name (snd kv))) d ->
  NoDup (map fst (Dict.set (Py.lower (name s)) s d))
  /\ Forall (fun kv => fst kv = Py.lower (name (snd kv)))
            (Dict.set (Py.lower (name s)) s d).
Proof.
  intros [Hnd Hall]. split; [now apply set_keys_NoDup|].
  apply set_Forall; [exact Hall | reflexivity].
Qed.

Lemma merge_one_by_name (d : Dict.t string SkillItem) (g : SkillItem) :
  NoDup (map fst d)
  /\ Forall (fun kv => fst kv = Py.lower (name (snd kv))) d ->
  (NoDup (map fst (merge_one d g))
   /\ Forall (fun kv => fst kv = Py.lower (name (snd kv))) (merge_one d g))
  /\ (forall k, In k (map fst (merge_one d g))
                <-> k = Py.lower (name g) \/ In k (map fst d))
  /\ (List.length (merge_one d g) <= S (List.length d))%nat.
Proof.
  intros [Hnd Hall]. unfold merge_one.
  destruct (Dict.get (Py.lower (name g)) d) as [existing|] eqn:E.
  - apply item_of_get in E. rewrite Forall_forall in Hall.
    pose proof (Hall _ E) as Hk. cbn in Hk.
    split; [split|split].
    + now apply set_keys_NoDup.
    + apply set_Forall; [now apply Forall_forall | exact Hk].
    + intros k. apply set_keys.
    + apply set_length.
  - split; [apply by_name_set; now split|split].
    + intros k. apply set_keys.
    + apply set_length.
Qed.

Lemma values_names (d : Dict.t string SkillItem) :
  Forall (fun kv => fst kv = Py.lower (name (snd kv))) d ->
  map (fun s => Py.lower (name s)) (Dict.values d) = map fst d.
Proof.
  unfold Dict.values. induction d as [|[k v] d IH]; cbn; [reflexivity|].
  intros H. inversion H as [|? ? Hk Hrest]; subst. cbn in Hk.
  now rewrite <- Hk, IH.
Qed.

(** X24: the merged list has one skill for each name, letter case apart:
    the lower-cased names of its skills are distinct, and they are the
    lower-cased names of the skills of the two lists, no more and no less.
    So it is never longer than the two lists together. *)
Theorem merged_skills_have_distinct_names
        (resume_skills github_skills : list SkillItem) :
  let lowered := map (fun s => Py.lower (name s)) in
  let merged := _merge_skills resume_skills github_skills in
  NoDup (lowered merged)
  /\ (forall k, In k (lowered merged)
                <-> In k (lowered (resume_skills ++ github_skills)))
  /\ (List.length merged
      <= List.length resume_skills + List.length github_skills)%nat.
Proof.
  intros lowered merged. subst lowered merged. unfold _merge_skills.
  set (by_name := fun d : Dict.t string SkillItem =>
         NoDup (map fst d)
         /\ Forall (fun kv => fst kv = Py.lower (name (snd kv))) d).
  assert (H1 : forall l d,
    by_name d ->
    by_name (fold_left (fun d skill => Dict.set (Py.lower (name skill)) skill d)
                       l d)
    /\ (forall k, In k (map fst (fold_left
                          (fun d skill =>
                             Dict.set (Py.lower (name skill)) skill d) l d))
                  <-> In k (map fst d)
                      \/ In k (map (fun s => Py.lower (name s)) l))
    /\ (List.length (fold_left
                       (fun d skill =>
                          Dict.set (Py.lower (name skill)) skill d) l d)
        <= List.length d + List.length l)%nat).
  { induction l as [|s l IH]; intros d Hd; cbn [fold_left map List.length].
    - split; [exact Hd|]. split; [cbn [In]; tauto | apply Nat.le_add_r].
    - destruct (IH (Dict.set (Py.lower (name s)) s d)) as (A & B & C);
        [now apply by_name_set|].
      split; [exact A|]. split.
      + intros k. rewrite B, set_keys. cbn [In]. intuition.
      + pose proof (set_length (Py.lower (name s)) s d). lia. }
  assert (H2 : forall l d,
    by_name d ->
    by_name (fold_left merge_one l d)
    /\ (forall k, In k (map fst (fold_left merge_one l d))
                  <-> In k (map fst d)
                      \/ In k (map (fun s => Py.lower (name s)) l))
    /\ (List.length (fold_left merge_one l d)
        <= List.length d + List.length l)%nat).
  { induction l as [|g l IH]; intros d Hd; cbn [fold_left map List.length].
    - split; [exact Hd|]. split; [cbn [In]; tauto | apply Nat.le_add_r].
    - destruct (merge_one_by_name d g Hd) as (A0 & B0 & C0).
      destruct (IH (merge_one d g) A0) as (A & B & C).
      split; [exact A|]. split.
      + intros k. rewrite B, B0. cbn [In]. intuition.
      + lia. }
  destruct (H1 resume_skills []) as (A1 & B1 & C1);
    [split; constructor|].
  destruct (H2 github_skills _ A1) as ((A2 & A2') & B2 & C2).
  rewrite (values_names _ A2').
  split; [exact A2|]. split.
  - intros k. rewrite B2, B1, map_app, in_app_iff. cbn [map In]. intuition.
  - unfold Dict.values. rewrite length_map. cbn [List.length] in C1. lia.
Qed.

(** X25: merging with an empty list gives the resume's skills back, as they
    are and in their order, when their names are distinct, letter case
    apart. *)
Theorem merging_nothing_changes_nothing (resume_skills : list SkillItem) :
  NoDup (map (fun s => Py.lower (name s)) resume_skills) ->
  _merge_skills resume_skills [] = resume_skills.
Proof.
  intros Hnd. unfold _merge_skills. cbn [fold_left].
  assert (H : forall l d,
    NoDup (map fst d ++ map (fun s => Py.lower (name s)) l) ->
    Dict.values (fold_left (fun d skill =>
                              Dict.set (Py.lower (name skill)) skill d) l d)
    = Dict.values d ++ l).
  { induction l as [|s l IH]; intros d Hd; cbn [fold_left map].
    - now rewrite app_nil_r.
    - cbn [map] in Hd. rewrite set_fresh.
      + rewrite IH.
        * unfold Dict.values. rewrite map_app, <- app_assoc. reflexivity.
        * rewrite map_app. cbn [map fst]. rewrite <- app_assoc. exact Hd.
      + apply NoDup_remove_2 in Hd. intros Hin. apply Hd.
        apply in_or_app. now left. }
  apply (H resume_skills []). exact Hnd.
Qed.

Lemma merging_nothing_changes_nothing_witness :
  _merge_skills (skills Sample.sample_profile) []
  = skills Sample.sample_profile.
Proof.
  apply (merging_nothing_changes_nothing (skills Sample.sample_profile)).
  cbn. constructor; [|constructor; [|constructor]].
  - intros [H|[]]. discriminate H.
  - intros [].
Defined.

End MergeFacts.

(* ================================================================== *)
(** ** The answer to a job description *)

Section JobMentions.

Import Schema JobMatchingService.

Lemma no_mention_in_nothing :
  Forall (fun pattern => Re.finditer pattern "" = []) patterns.
Proof. repeat constructor. Qed.

(** X26: the skills that [_extract_job_skills] finds in a job text are
    distinct, letter case apart: of the mentions of one skill, the first
    found is kept.  Each is filed under the requirements, the
    responsibilities or the rest of the text, and never under the
    qualifications, a section that is always empty. *)
Theorem job_mentions_are_distinct (job_text : string) :
  let mentions := _extract_job_skills job_text in
  NoDup (map (fun sk => Py.lower (fst sk)) mentions)
  /\ (forall sk, In sk mentions ->
                 In (snd sk) ["requirements"; "responsibilities"; "other"])
  /\ Dict.get "qualifications" (_split_into_sections job_text) = Some "".
Proof.
  intros mentions. subst mentions. unfold _extract_job_skills.
  set (found := flat_map _ (Dict.items (_split_into_sections job_text))).
  assert (Hfound : forall sk, In sk found ->
            In (snd sk) ["requirements"; "responsibilities"; "other"]).
  { intros sk Hsk. subst found.
    apply in_flat_map in Hsk. destruct Hsk as (section & Hsec & Hsk).
    apply in_flat_map in Hsk. destruct Hsk as (p & Hp & Hsk).
    apply in_map_iff in Hsk. destruct Hsk as (span & <- & Hspan).
    cbn [snd]. unfold Dict.items, _split_into_sections in Hsec.
    cbv zeta in Hsec.
    destruct Hsec as [<-|[<-|[<-|[<-|[]]]]]; cbn [fst snd In] in *; auto.
    pose proof no_mention_in_nothing as Hnone.
    rewrite Forall_forall in Hnone. rewrite (Hnone p Hp) in Hspan.
    destruct Hspan. }
  assert (Hfold : forall l acc,
    fst acc = map (fun sk => Py.lower (fst sk)) (snd acc) ->
    NoDup (fst acc) ->
    (forall sk, In sk (snd acc) -> In sk found) ->
    (forall sk, In sk l -> In sk found) ->
    NoDup (map (fun sk => Py.lower (fst sk))
               (snd (fold_left
                       (fun (acc : list string * list (string * string))
                            (sk : string * string) =>
                          if Py.mem (Py.lower (fst sk)) (fst acc) then acc
                          else (fst acc ++ [Py.lower (fst sk)], snd acc ++ [sk]))
                       l acc)))
    /\ (forall sk,
          In sk (snd (fold_left
                        (fun (acc : list string * list (string * string))
                             (sk : string * string) =>
                           if Py.mem (Py.lower (fst sk)) (fst acc) then acc
                           else (fst acc ++ [Py.lower (fst sk)],
                                 snd acc ++ [sk]))
                        l acc)) ->
          In sk found)).
  { induction l as [|sk l IH]; intros acc Hmap Hnd Hacc Hl; cbn [fold_left].
    - rewrite <- Hmap. auto.
    - apply IH.
      + destruct (Py.mem _ (fst acc)); [exact Hmap|].
        cbn [fst snd]. rewrite map_app, Hmap. reflexivity.
      + destruct (Py.mem _ (fst acc)) eqn:Em; [exact Hnd|].
        cbn [fst]. apply NoDup_app; [exact Hnd | | ].
        * constructor; [intros [] | constructor].
        * intros x Hx [<-|[]]. apply mem_In in Hx. congruence.
      + destruct (Py.mem _ (fst acc)); [exact Hacc|].
        cbn [snd]. intros x Hx. apply in_app_or in Hx.
        destruct Hx as [Hx|[<-|[]]]; [auto|]. apply Hl. now left.
      + intros x Hx. apply Hl. now right. }
  destruct (Hfold found ([], [])) as [H1 H2];
    [reflexivity | constructor | intros sk [] | auto |].
  split; [exact H1|]. split; [|reflexivity].
  intros sk Hsk. apply Hfound, H2, Hsk.
Qed.

End JobMentions.

Section JobAnswer.

Import Schema JobMatchingService.
Local Open Scope Q_scope.

Context {Embedding : Type}.
Variable embed : string -> option Embedding.
Variable similarity : Embedding -> Embedding -> Q.

Lemma round_half_even_lower (x : Q) (n : Z) :
  inject_Z n <= x -> (n <= Num.round_half_even x)%Z.
Proof.
  intros Hn.
  assert (Hf : (n <= Qfloor x)%Z).
  { rewrite <- (Qfloor_Z n). now apply Qfloor_resp_le. }
  unfold Num.round_half_even.
  destruct (Qcompare _ _); [destruct (Z.even _)| |]; lia.
Qed.

Lemma round2_lower (x : Q) (n : Z) :
  inject_Z n <= x * 100 -> inject_Z n / 100 <= Num.round2 x.
Proof.
  intros Hn. apply round_half_even_lower in Hn. unfold Num.round2.
  set (z := Num.round_half_even (x * 100)) in *.
  unfold Qle, Qdiv, Qmult, Qinv, inject_Z. simpl. lia.
Qed.

Lemma best_user_skill_floor
      (users : Dict.t string (Embedding * SkillItem))
      (job_skill_key : string) (job_embedding : Embedding) :
  0.7 <= snd (best_user_skill similarity users job_skill_key job_embedding).
Proof.
  unfold best_user_skill, Dict.items.
  apply (fold_left_invariant (fun best : option SkillItem * Q => 0.7 <= snd best)).
  - intros best item Hbest.
    match goal with |- context [Num.ltb ?a ?b] => destruct (Num.ltb a b) eqn:E end;
      [|exact Hbest].
    cbn [snd]. unfold Num.ltb in E.
    match type of E with
    | match Qcompare ?a ?b with _ => _ end = _ =>
        destruct (Qcompare a b) eqn:Ec; try discriminate;
        apply Qlt_alt in Ec; apply Qlt_le_weak;
        eapply Qle_lt_trans; [exact Hbest | exact Ec]
    end.
  - cbn. apply Qle_refl.
Qed.

Lemma match_each_shape (mapper : Taxonomy.TaxonomyMapper)
      (users : Dict.t string (Embedding * SkillItem))
      (jobs : Dict.t string (Embedding * string))
      (job_skills : list (string * string)) :
  (List.length (fst (match_each similarity mapper users job_skills jobs))
   + List.length (snd (match_each similarity mapper users job_skills jobs))
   <= List.length job_skills)%nat
  /\ Forall (fun ms => 0.7 <= ms_score ms)
            (fst (match_each similarity mapper users job_skills jobs))
  /\ Forall (fun gap => estimated_gap gap = 0.8
                        /\ from_job_section gap <> None
                        /\ In (gap_name gap) (map fst job_skills))
            (snd (match_each similarity mapper users job_skills jobs)).
Proof.
  unfold match_each.
  assert (H : forall l acc,
    (forall sk, In sk l -> In sk job_skills) ->
    Forall (fun ms => 0.7 <= ms_score ms) (fst acc) ->
    Forall (fun gap => estimated_gap gap = 0.8
                       /\ from_job_section gap <> None
                       /\ In (gap_name gap) (map fst job_skills))
           (snd acc) ->
    forall r,
      r = fold_left
            (fun (acc : list MatchedSkill * list MissingSkill)
                 (sk : string * string) =>
               match Dict.get (Py.lower (fst sk)) jobs with
               | None => acc
               | Some (job_embedding, _) =>
                   match best_user_skill similarity users (Py.lower (fst sk))
                                         job_embedding with
                   | (Some best_match, best_score) =>
                       (fst acc ++
                        [ {| ms_name := fst sk;
                             ms_score := Num.round2 best_score;
                             ms_category := category best_match;
                             ms_confidence := confidence best_match |} ],
                        snd acc)
                   | (None, _) =>
                       (fst acc,
                        snd acc ++
                        [ {| gap_name := fst sk;
                             estimated_gap := 0.8;
                             gap_category :=
                               Taxonomy.get_category mapper (fst sk);
                             from_job_section := Some (snd sk) |} ])
                   end
               end)
            l acc ->
      (List.length (fst r) + List.length (snd r)
       <= List.length (fst acc) + List.length (snd acc) + List.length l)%nat
      /\ Forall (fun ms => 0.7 <= ms_score ms) (fst r)
      /\ Forall (fun gap => estimated_gap gap = 0.8
                            /\ from_job_section gap <> None
                            /\ In (gap_name gap) (map fst job_skills))
                (snd r)).
  { induction l as [|sk l IH]; intros acc Hl Hm Hg r ->; cbn [fold_left].
    - split; [cbn; lia | auto].
    - assert (Hl' : forall x, In x l -> In x job_skills)
        by (intros; apply Hl; now right).
      destruct (Dict.get (Py.lower (fst sk)) jobs) as [[je sec]|].
      + pose proof (best_user_skill_floor users (Py.lower (fst sk)) je) as Hb.
        destruct (best_user_skill similarity users (Py.lower (fst sk)) je)
          as [[best|] q].
        * match goal with |- context [fold_left ?f l ?a] =>
            destruct (IH a Hl') with (r := fold_left f l a) as (A & B & C)
          end; cbn [fst snd]; auto.
          -- apply Forall_app. split; [exact Hm|].
             constructor; [|constructor]. cbn [ms_score snd] in *.
             apply (Qle_trans _ (inject_Z 70 / 100)); [discriminate|].
             apply round2_lower.
             apply (Qle_trans _ (0.7 * 100)); [discriminate|].
             apply Qmult_le_compat_r; [exact Hb | discriminate].
          -- split; [|auto]. cbn [fst snd] in A. rewrite length_app in A.
             cbn [List.length] in *. lia.
        * match goal with |- context [fold_left ?f l ?a] =>
            destruct (IH a Hl') with (r := fold_left f l a) as (A & B & C)
          end; cbn [fst snd]; auto.
          -- apply Forall_app. split; [exact Hg|].
             constructor; [|constructor]. cbn.
             split; [reflexivity|]. split; [discriminate|].
             apply in_map. apply Hl. now left.
          -- split; [|auto]. cbn [fst snd] in A. rewrite length_app in A.
             cbn [List.length] in *. lia.
      + destruct (IH acc Hl' Hm Hg _ eq_refl) as (A & B & C).
        split; [|auto]. cbn [List.length]. lia. }
  destruct (H job_skills ([], [])) with (r := fold_left
    (fun (acc : list MatchedSkill * list MissingSkill) (sk : string * string) =>
       match Dict.get (Py.lower (fst sk)) jobs with
       | None => acc
       | Some (job_embedding, _) =>
           match best_user_skill similarity users (Py.lower (fst sk))
                                 job_embedding with
           | (Some best_match, best_score) =>
               (fst acc ++
                [ {| ms_name := fst sk;
                     ms_score := Num.round2 best_score;
                     ms_category := category best_match;
                     ms_confidence := confidence best_match |} ],
                snd acc)
           | (None, _) =>
               (fst acc,
                snd acc ++
                [ {| gap_name := fst sk;
                     estimated_gap := 0.8;
                     gap_category := Taxonomy.get_category mapper (fst sk);
                     from_job_section := Some (snd sk) |} ])
           end
       end) job_skills ([], [])) as (A & B & C); auto.
Qed.

Lemma match_score_bounds (matched total : nat) :
  (matched <= total)%nat ->
  0 <= _calculate_match_score matched total
  /\ _calculate_match_score matched total <= 1.
Proof.
  intros Hle. unfold _calculate_match_score.
  destruct (Nat.eqb total 0) eqn:E; [split; discriminate|].
  apply Nat.eqb_neq in E. apply round2_unit_interval.
  - unfold Num.of_nat, Qle, Qdiv, Qmult, Qinv, inject_Z.
    destruct total; [lia|]. cbn. lia.
  - unfold Num.of_nat, Qle, Qdiv, Qmult, Qinv, inject_Z.
    destruct total; [lia|]. cbn. lia.
Qed.

(** X27: the answer of [match_job] is within the bounds of its schema: the
    match score lies between 0 and 1, no more than [top_k] skills are
    matched, and every matched skill has a score of 0.7 or more, the matched
    skills being in the order of their scores, the greatest first.  A skill
    counts at most once: the matched and the missing skills together are no
    more than the skills found in the job text, and every missing skill is one
    of those, with a gap of 0.8 and the section it was found in. *)
Theorem job_match_answer_is_within_bounds
        (mapper : Taxonomy.TaxonomyMapper)
        (profile : option SkillExtractionService.SkillProfile)
        (request : JobMatchRequest) :
  let answer := match_job embed similarity mapper profile request in
  (0 <= match_score answer /\ match_score answer <= 1)
  /\ (List.length (matched_skills answer) <= top_k request)%nat
  /\ (List.length (matched_skills answer) + List.length (missing_skills answer)
      <= List.length (_extract_job_skills (job_text request)))%nat
  /\ StronglySorted (fun a b => ms_score b <= ms_score a) (matched_skills answer)
  /\ (forall ms, In ms (matched_skills answer) -> 0.7 <= ms_score ms)
  /\ (forall gap, In gap (missing_skills answer) ->
                  estimated_gap gap = 0.8
                  /\ from_job_section gap <> None
                  /\ In (gap_name gap)
                        (map fst (_extract_job_skills (job_text request))))
  /\ recommendations answer <> [].
Proof.
  intros answer. subst answer. unfold match_job.
  destruct profile as [profile|].
  2:{ cbn. repeat split; try discriminate; try lia; try constructor;
        intros x []. }
  unfold _match_skills.
  match goal with |- context [match_each ?s ?m ?u ?j ?e] =>
    pose proof (match_each_shape m u e j) as (A & B & C);
    destruct (match_each s m u j e) as [matched missing]
  end.
  cbn [fst snd match_score matched_skills missing_skills recommendations] in *.
  set (sorted := Py.sort _ matched).
  assert (Hlen : (List.length (firstn (top_k request) sorted)
                  <= List.length matched)%nat).
  { rewrite length_firstn. subst sorted. rewrite sort_length. lia. }
  split; [apply match_score_bounds; lia|].
  split; [rewrite length_firstn; lia|].
  split; [lia|].
  split.
  { apply sorted_firstn. subst sorted. apply sort_sorted.
    - intros x y z Hxy Hyz. now apply (Qle_trans _ (ms_score y)).
    - intros y x Hb. unfold Num.ltb in Hb.
      destruct (Qcompare (ms_score x) (ms_score y)) eqn:E; try discriminate.
      apply Qlt_le_weak. now apply Qlt_alt.
    - intros y x Hb. now apply ltb_false_le. }
  split.
  { intros ms Hms. apply In_firstn in Hms. subst sorted.
    rewrite sort_In in Hms. rewrite Forall_forall in B. auto. }
  split.
  { intros gap Hgap. rewrite Forall_forall in C. auto. }
  unfold _generate_recommendations. discriminate.
Qed.

End JobAnswer.

Section ConfidenceFloor.

Import Schema SkillExtractionService.
Local Open Scope Q_scope.

Lemma maximum_upper (xs : list Q) (x : Q) : In x xs -> x <= Num.maximum xs.
Proof.
  destruct xs as [|a xs]; [intros []|]. cbn [Num.maximum].
  assert (H : forall l b, b <= fold_left Qmax l b
                          /\ forall y, In y l -> y <= fold_left Qmax l b).
  { induction l as [|c l IH]; intros b; cbn [fold_left].
    - split; [apply Qle_refl | intros y []].
    - destruct (IH (Qmax b c)) as [H1 H2]. split.
      + apply (Qle_trans _ (Qmax b c)); [apply Q.le_max_l | exact H1].
      + intros y [Hy|Hy]; [subst y|auto].
        apply (Qle_trans _ (Qmax b c)); [apply Q.le_max_r | exact H1]. }
  destruct (H xs a) as [H1 H2]. intros [<-|Hx]; auto.
Qed.

Lemma sum_lower (xs : list Q) (c : Q) :
  (forall x, In x xs -> c <= x) ->
  c * Num.of_nat (List.length xs) <= Num.sum xs.
Proof.
  intros Hall. rewrite sum_fold_right.
  induction xs as [|x xs IH]; cbn [fold_right List.length].
  - unfold Num.of_nat. change (inject_Z (Z.of_nat 0)) with 0. lra.
  - assert (Hx : c <= x) by (apply Hall; now left).
    assert (IH' : c * Num.of_nat (List.length xs) <= fold_right Qplus 0 xs)
      by (apply IH; intros; apply Hall; now right).
    unfold Num.of_nat in *. rewrite Nat2Z.inj_succ. unfold Z.succ.
    rewrite inject_Z_plus. change (inject_Z 1) with 1.
    set (k := inject_Z (Z.of_nat (List.length xs))) in *.
    set (t := fold_right Qplus 0 xs) in *. lra.
Qed.

Lemma confidence_floor (evidence : list EvidenceItem) :
  (exists ev, In ev evidence /\ 0.8 <= score ev) ->
  (forall ev, In ev evidence -> 0.4 <= score ev /\ source ev <> "") ->
  minimum_confidence <= _calculate_confidence evidence.
Proof.
  intros (best & Hbest & Hscore) Hall.
  unfold _calculate_confidence.
  destruct evidence as [|e0 rest] eqn:Eev; [destruct Hbest|].
  rewrite <- Eev in *. clear Eev.
  destruct (map score evidence) as [|s0 srest] eqn:Esc.
  { destruct evidence; [destruct Hbest | discriminate]. }
  rewrite <- Esc in *. clear Esc.
  set (n := Num.of_nat (List.length evidence)).
  assert (Hn : 1 <= n).
  { subst n. unfold Num.of_nat. destruct evidence; [destruct Hbest|].
    cbn [List.length]. rewrite Nat2Z.inj_succ.
    unfold Qle, inject_Z. cbn. lia. }
  set (freq := Qmin 1 (0.4 + (n - 1) * 0.2)).
  assert (Hfreq : 0.4 <= freq).
  { subst freq. apply Q.min_glb; lra. }
  set (mx := Num.maximum (map score evidence)).
  assert (Hmx : 0.8 <= mx).
  { subst mx. apply (Qle_trans _ (score best)); [exact Hscore|].
    apply maximum_upper. now apply in_map. }
  rewrite length_map. fold n.
  set (avg := Num.sum (map score evidence) / n).
  assert (Havg : 0.4 <= avg).
  { subst avg. apply Qle_shift_div_l; [lra|].
    subst n. rewrite <- (length_map score).
    apply sum_lower. intros x Hx. apply in_map_iff in Hx.
    destruct Hx as (ev & <- & Hev). exact (proj1 (Hall _ Hev)). }
  set (sources := Py.set_of _).
  assert (Hdiv : (1 # 3) <= match sources with
                          | [] => 0
                          | _ => Qmin 1 (Num.of_nat (List.length sources) / 3)
                          end).
  { assert (Hin : In (source best) sources).
    { subst sources. apply set_of_In. apply filter_In.
      split; [now apply in_map|].
      apply negb_true_iff. apply String.eqb_neq. exact (proj2 (Hall _ Hbest)). }
    destruct sources as [|s ss]; [destruct Hin|].
    apply Q.min_glb; [discriminate|].
    cbn [List.length]. unfold Num.of_nat. rewrite Nat2Z.inj_succ.
    apply Qle_shift_div_l; [reflexivity|].
    assert (0 <= inject_Z (Z.of_nat (List.length ss))).
    { unfold Qle, inject_Z. cbn. lia. }
    unfold Z.succ. rewrite inject_Z_plus. change (inject_Z 1) with 1. lra. }
  match type of Hdiv with _ <= ?d => set (diversity := d) in * end.
  clearbody freq mx avg diversity.
  match goal with |- _ <= Num.round2 (Qmin 1 (Qmax 0 ?c)) =>
    set (conf := c);
    assert (Hconf : 0.575 <= conf) by (subst conf; lra)
  end.
  clearbody conf.
  apply (Qle_trans _ (inject_Z 55 / 100));
    [apply Qle_bool_iff; reflexivity|].
  apply round2_lower.
  assert (Hclamp : 0.575 <= Qmin 1 (Qmax 0 conf)).
  { apply Q.min_glb; [lra|].
    apply (Qle_trans _ conf); [exact Hconf | apply Q.le_max_r]. }
  change (inject_Z 55) with (55 # 1).
  set (clamped := Qmin 1 (Qmax 0 conf)) in *. clearbody clamped. lra.
Qed.

End ConfidenceFloor.

Section StructuredSkills.

Import Schema SkillExtractionService Shape.
Local Open Scope Q_scope.

Lemma add_skill_item_keeps (self : t) (uuid4 : nat -> string)
      (kvs : list (string * SkillData)) (l : list SkillItem) (item : SkillItem) :
  In item l -> In item (fold_left (add_skill_item self uuid4) kvs l).
Proof.
  revert l. induction kvs as [|[key data] kvs IH]; intros l Hin; [exact Hin|].
  cbn [fold_left]. apply IH. unfold add_skill_item.
  destruct (Num.ltb _ _); [exact Hin|]. apply in_or_app. now left.
Qed.

Lemma accepted_data_is_returned (self : t) (uuid4 : nat -> string)
      (kvs : list (string * SkillData)) (l : list SkillItem)
      (key : string) (data : SkillData) :
  In (key, data) kvs ->
  minimum_confidence <= _calculate_confidence (sd_evidence data) ->
  exists item,
    In item (fold_left (add_skill_item self uuid4) kvs l)
    /\ evidence item = sd_evidence data
    /\ confidence item = _calculate_confidence (sd_evidence data).
Proof.
  revert l. induction kvs as [|kv kvs IH]; intros l Hin Hconf; [destruct Hin|].
  cbn [fold_left]. destruct Hin as [->|Hin]; [|now apply IH].
  unfold add_skill_item at 2.
  destruct (Num.ltb _ _) eqn:E.
  - exfalso. unfold Num.ltb in E.
    destruct (Qcompare _ _) eqn:Ec; try discriminate.
    apply Qlt_alt in Ec. exact (Qlt_not_le _ _ Ec Hconf).
  - eexists. split; [apply add_skill_item_keeps, in_or_app; right; now left|].
    cbn. auto.
Qed.

(** X28: a skill with a piece of evidence from the structured data is always
    returned: whatever else the evidence map of [_extract_skills] holds for
    it, its confidence reaches the threshold of 0.55.  So a skill of the
    structured data is left out only when it does not resolve, is excluded,
    or shows a snippet that the resume text already gave for it. *)
Theorem skill_with_structured_evidence_is_returned
        (self : t) (uuid4 : nat -> string) (text : string)
        (processed_data : option (Dict.t string Json))
        (key : string) (data : SkillData) :
  In (key, data) (collect_evidence self text processed_data) ->
  (exists ev, In ev (sd_evidence data) /\ source ev = "structured") ->
  exists item,
    In item (_extract_skills self uuid4 text processed_data)
    /\ evidence item = sd_evidence data
    /\ minimum_confidence <= confidence item.
Proof.
  intros Hkd (ev & Hev & Hsrc).
  destruct (collect_evidence_ok (fun _ => True) self text processed_data)
    as [_ Hall]; auto.
  rewrite Forall_forall in Hall.
  destruct (Hall _ Hkd) as (_ & _ & _ & _ & _ & _ & Hok).
  cbn [snd] in Hok. rewrite Forall_forall in Hok.
  assert (Hconf : minimum_confidence
                  <= _calculate_confidence (sd_evidence data)).
  { apply confidence_floor.
    - exists ev. split; [exact Hev|].
      destruct (Hok _ Hev) as (_ & _ & [[Hr _]|(_ & _ & H8)]); [|exact H8].
      rewrite Hsrc in Hr. discriminate.
    - intros e He. destruct (Hok _ He) as ((Hlo & _) & _ & Hs).
      split; [exact Hlo|].
      destruct Hs as [[-> _]|[-> _]]; discriminate. }
  destruct (accepted_data_is_returned self uuid4 _ [] key data Hkd Hconf)
    as (item & Hin & He & Hc).
  exists item. unfold _extract_skills, sort_by_confidence.
  rewrite sort_In. split; [exact Hin|]. split; [exact He|].
  now rewrite Hc.
Qed.

Lemma skill_with_structured_evidence_is_returned_witness :
  exists item,
    In item (_extract_skills (Sample.service Sample.python_docker) Sample.uuid4
                             "" (Some [("skills", JList [JStr "Docker"])]))
    /\ evidence item
       = sd_evidence
           {| sd_name := "Docker";
              sd_evidence :=
                [ {| source := "structured"; snippet := "Docker";
                     score := 0.85; offset := None; href := None |} ];
              sd_matched_terms := ["Docker"];
              sd_category := Some "technical" |}
    /\ minimum_confidence <= confidence item.
Proof.
  apply (skill_with_structured_evidence_is_returned
           (Sample.service Sample.python_docker) Sample.uuid4 ""
           (Some [("skills", JList [JStr "Docker"])]) "docker").
  - vm_compute. left. reflexivity.
  - eexists. split; [left; reflexivity | reflexivity].
Defined.

Example structured_skill_behind_the_same_snippet :
  _extract_skills (Sample.service Sample.python_docker) Sample.uuid4
                  "Python" (Some [("skills", JList [JStr "Python"])])
  = []
  /\ map (fun item => (name item, confidence item,
                       map source (evidence item)))
         (_extract_skills (Sample.service Sample.python_docker) Sample.uuid4
                          "Python." (Some [("skills", JList [JStr "Python"])]))
     = [("Python", 0.71, ["structured"])].
Proof. split; vm_compute; reflexivity. Qed.

End StructuredSkills.

(* ================================================================== *)
(** ** Which entries are checked against their context *)

Section ContextNeed.

Import SkillMatcher Shape.

Lemma strict_terms_are_long (t : string) :
  Py.len t <= 2 -> Dict.get t STRICT_CONTEXT_TERMS = None.
Proof.
  intros Hlen. unfold STRICT_CONTEXT_TERMS. cbn [Dict.get].
  unfold eqb, string_Eqb.
  repeat match goal with
         | |- context [String.eqb t ?k] =>
             destruct (String.eqb_spec t k) as [->|_];
             [exfalso; vm_compute in Hlen; apply Hlen; reflexivity|]
         end.
  reflexivity.
Qed.

(** X29: of the entries of the index, those of two tokens or more are valid
    in any context, and so is a single token of the short-token whitelist
    ([sql], [aws], [git] and the like).  A single token of one or two
    characters that is not on the whitelist is valid exactly in a positive
    context.  A longer single token that is neither a strict nor a generic
    term is valid in any context. *)
Theorem context_is_asked_of_short_and_generic_terms
        (taxonomy_mapper : Taxonomy.TaxonomyMapper) (excluded : list string)
        (e : SkillEntry) :
  let self := init taxonomy_mapper excluded in
  In e (Spec.entries self) ->
  ((2 <= List.length (tokens e))%nat ->
   forall snippet, context_is_valid e snippet = true)
  /\ (forall t, tokens e = [t] ->
                Py.mem t SHORT_TOKEN_WHITELIST = true ->
                forall snippet, context_is_valid e snippet = true)
  /\ (forall t, tokens e = [t] ->
                Py.mem t SHORT_TOKEN_WHITELIST = false ->
                Py.len t <= 2 ->
                forall snippet,
                  context_is_valid e snippet = has_positive_context snippet)
  /\ (forall t, tokens e = [t] ->
                Py.mem t SHORT_TOKEN_WHITELIST = false ->
                2 < Py.len t ->
                Dict.mem t STRICT_CONTEXT_TERMS = false ->
                Py.mem t GENERIC_SINGLE_TOKENS = false ->
                forall snippet, context_is_valid e snippet = true).
Proof.
  intros self He.
  destruct (build_index_built (Taxonomy.get_all_mappings taxonomy_mapper))
    as [_ Hidx _].
  destruct (entries_item _ _ He) as (k & l & Hkl & Hel).
  destruct (Hidx _ _ _ Hkl Hel) as [((_ & _ & _ & _ & Hreq & _) & _ & _) _].
  unfold context_is_valid. rewrite Hreq. unfold _should_require_context.
  repeat split.
  - intros Hlen snippet.
    destruct (1 <? Z.of_nat (List.length (tokens e))) eqn:E; [reflexivity|].
    apply Z.ltb_ge in E. lia.
  - intros t -> Hw snippet. cbn [List.length hd Z.of_nat Z.ltb Z.compare Pos.compare Pos.compare_cont].
    now rewrite Hw.
  - intros t -> Hw Hlen snippet. cbn [List.length hd].
    change (1 <? Z.of_nat 1) with false. cbv iota. rewrite Hw.
    apply Z.leb_le in Hlen. rewrite Hlen.
    rewrite (strict_terms_are_long t) by now apply Z.leb_le.
    unfold has_positive_context.
    now destruct (_has_positive_context snippet (Py.lower snippet)).
  - intros t -> Hw Hlen Hs Hg snippet. cbn [List.length hd].
    change (1 <? Z.of_nat 1) with false. cbv iota. rewrite Hw.
    apply Z.leb_gt in Hlen. rewrite Hlen, Hs, Hg. reflexivity.
Qed.

Lemma context_is_asked_of_short_and_generic_terms_witness :
  let e := {| canonical_name := "Go"; alias := "Go"; normalized := "go";
              tokens := ["go"]; esco_id := None; category := "technical";
              skill_type := Some "skill/competence";
              requires_context := true |} in
  context_is_valid e "Let it go" = has_positive_context "Let it go".
Proof.
  intros e.
  apply (proj1 (proj2 (proj2
           (context_is_asked_of_short_and_generic_terms
              (Taxonomy._load_taxonomy [Sample.skill "Go" []])
              SkillExtractionService.excluded_skills e
              ltac:(vm_compute; left; reflexivity))))
           "go" eq_refl eq_refl ltac:(vm_compute; discriminate)).
Defined.

End ContextNeed.

(* ================================================================== *)
(** ** The scanner misses no occurrence *)

#[export] Instance Z_EqbSpec : EqbSpec Z.
Proof. intros x y. apply Z.eqb_eq. Qed.

Section Occurrences.

Import SkillMatcher Shape Spec.

Lemma try_candidate_keeps (self : t) (text : string) (toks : list Token)
      (idx : nat) (st : Scan) (e : SkillEntry) (m : SkillMatch) :
  In m (raw_matches st) ->
  In m (raw_matches (try_candidate self text toks idx st e)).
Proof.
  intros Hm. unfold try_candidate.
  destruct (_ <? _)%nat; [auto|].
  destruct (negb (String.eqb _ _)); [auto|].
  destruct (firstn _ _) as [|first rest]; [auto|].
  destruct (Py.mem (Py.lower (canonical_name e)) (excluded self)
            || Py.mem (normalized e) (excluded self)); [auto|].
  destruct (Py.mem _ (seen_spans st)); [auto|].
  destruct (negb (context_is_valid e _)); [auto|].
  cbn [raw_matches]. apply in_or_app. now left.
Qed.

Lemma candidates_keep (self : t) (text : string) (toks : list Token)
      (idx : nat) (l : list SkillEntry) (st : Scan) (m : SkillMatch) :
  In m (raw_matches st) ->
  In m (raw_matches (fold_left (try_candidate self text toks idx) l st)).
Proof.
  revert st. induction l as [|e l IH]; intros st Hm; cbn [fold_left]; [exact Hm|].
  apply IH, try_candidate_keeps, Hm.
Qed.

Lemma scan_keeps (self : t) (text : string) (toks : list Token)
      (its : list (nat * Token)) (st : Scan) (m : SkillMatch) :
  In m (raw_matches st) ->
  In m (raw_matches (fold_left (scan_token self text toks) its st)).
Proof.
  revert st. induction its as [|it its IH]; intros st Hm; cbn [fold_left];
    [exact Hm|].
  apply IH. unfold scan_token.
  destruct (Dict.get _ _); [now apply candidates_keep | exact Hm].
Qed.

(** The spans seen so far are the spans of raw matches. *)
Lemma try_candidate_seen (self : t) (text : string) (toks : list Token)
      (idx : nat) (st : Scan) (e : SkillEntry) :
  (forall key, In key (seen_spans st) ->
      exists m, In m (raw_matches st)
                /\ key = (Py.lower (canonical_name (entry m)),
                          (start m, end_ m))) ->
  forall key, In key (seen_spans (try_candidate self text toks idx st e)) ->
      exists m, In m (raw_matches (try_candidate self text toks idx st e))
                /\ key = (Py.lower (canonical_name (entry m)),
                          (start m, end_ m)).
Proof.
  intros Hst. unfold try_candidate.
  destruct (_ <? _)%nat; [auto|].
  destruct (negb (String.eqb _ _)); [auto|].
  destruct (firstn _ _) as [|first rest]; [auto|].
  destruct (Py.mem (Py.lower (canonical_name e)) (excluded self)
            || Py.mem (normalized e) (excluded self)); [auto|].
  destruct (Py.mem _ (seen_spans st)); [auto|].
  destruct (negb (context_is_valid e _)); [auto|].
  cbn [raw_matches seen_spans].
  intros key Hkey. apply set_add_In in Hkey. destruct Hkey as [->|Hkey].
  - eexists. split; [apply in_or_app; right; left; reflexivity|]. reflexivity.
  - destruct (Hst _ Hkey) as (m & Hm & Ek).
    exists m. split; [apply in_or_app; now left | exact Ek].
Qed.

Lemma candidates_seen (self : t) (text : string) (toks : list Token)
      (idx : nat) (l : list SkillEntry) (st : Scan) :
  (forall key, In key (seen_spans st) ->
      exists m, In m (raw_matches st)
                /\ key = (Py.lower (canonical_name (entry m)),
                          (start m, end_ m))) ->
  forall key,
    In key (seen_spans (fold_left (try_candidate self text toks idx) l st)) ->
    exists m,
      In m (raw_matches (fold_left (try_candidate self text toks idx) l st))
      /\ key = (Py.lower (canonical_name (entry m)), (start m, end_ m)).
Proof.
  revert st. induction l as [|e l IH]; intros st Hst; cbn [fold_left];
    [exact Hst|].
  apply IH, try_candidate_seen, Hst.
Qed.

Lemma scan_seen (self : t) (text : string) (toks : list Token)
      (its : list (nat * Token)) (st : Scan) :
  (forall key, In key (seen_spans st) ->
      exists m, In m (raw_matches st)
                /\ key = (Py.lower (canonical_name (entry m)),
                          (start m, end_ m))) ->
  forall key,
    In key (seen_spans (fold_left (scan_token self text toks) its st)) ->
    exists m,
      In m (raw_matches (fold_left (scan_token self text toks) its st))
      /\ key = (Py.lower (canonical_name (entry m)), (start m, end_ m)).
Proof.
  revert st. induction its as [|it its IH]; intros st Hst; cbn [fold_left];
    [exact Hst|].
  apply IH. unfold scan_token.
  destruct (Dict.get _ _); [now apply candidates_seen | exact Hst].
Qed.

Lemma try_candidate_finds (self : t) (text : string) (toks : list Token)
      (idx : nat) (st : Scan) (e : SkillEntry) (first : Token)
      (rest : list Token) :
  (forall key, In key (seen_spans st) ->
      exists m, In m (raw_matches st)
                /\ key = (Py.lower (canonical_name (entry m)),
                          (start m, end_ m))) ->
  (idx + List.length (tokens e) <= List.length toks)%nat ->
  firstn (List.length (tokens e)) (skipn idx toks) = first :: rest ->
  Py.join " " (map group (first :: rest)) = normalized e ->
  Py.mem (Py.lower (canonical_name e)) (excluded self) = false ->
  Py.mem (normalized e) (excluded self) = false ->
  context_is_valid e
    (_extract_context text (t_start first)
                      (t_end (last (first :: rest) first))) = true ->
  exists m,
    In m (raw_matches (try_candidate self text toks idx st e))
    /\ Py.lower (canonical_name (entry m)) = Py.lower (canonical_name e)
    /\ start m = t_start first
    /\ end_ m = t_end (last (first :: rest) first).
Proof.
  intros Hst Hlen Hw Hjoin Hx1 Hx2 Hctx. unfold try_candidate.
  destruct (_ <? _)%nat eqn:E1; [apply Nat.ltb_lt in E1; lia|].
  rewrite Hw, Hjoin, String.eqb_refl, Hx1, Hx2, Hctx. cbn [negb orb].
  destruct (Py.mem _ (seen_spans st)) eqn:Es.
  - apply mem_In in Es. destruct (Hst _ Es) as (m & Hm & Ek).
    inversion Ek. exists m. auto.
  - eexists. split; [cbn [raw_matches]; apply in_or_app; right; left; reflexivity|].
    cbn. auto.
Qed.

Lemma nth_combine_seq {A} (l : list A) (a idx : nat) (x : A) :
  nth_error l idx = Some x ->
  exists pre post,
    combine (seq a (List.length l)) l = pre ++ (a + idx, x)%nat :: post.
Proof.
  revert a idx. induction l as [|y l IH]; intros a idx H.
  - destruct idx; discriminate.
  - destruct idx as [|idx]; cbn in H.
    + inversion H; subst. exists [], (combine (seq (S a) (List.length l)) l).
      cbn. now rewrite Nat.add_0_r.
    + destruct (IH (S a) idx H) as (pre & post & E).
      exists ((a, y) :: pre), post. cbn [List.length seq combine].
      rewrite E. cbn. repeat f_equal. lia.
Qed.

Lemma raw_match_of_occurrence (self : t) (text : string) (idx : nat)
      (e : SkillEntry) (first : Token) (rest : list Token)
      (bucket : list SkillEntry) :
  Dict.get (group first) (index self) = Some bucket ->
  In e bucket ->
  (idx + List.length (tokens e)
   <= List.length (finditer (Py.lower text)))%nat ->
  firstn (List.length (tokens e)) (skipn idx (finditer (Py.lower text)))
  = first :: rest ->
  Py.join " " (map group (first :: rest)) = normalized e ->
  Py.mem (Py.lower (canonical_name e)) (excluded self) = false ->
  Py.mem (normalized e) (excluded self) = false ->
  context_is_valid e
    (_extract_context text (t_start first)
                      (t_end (last (first :: rest) first))) = true ->
  exists m,
    In m (collect_raw_matches self text)
    /\ Py.lower (canonical_name (entry m)) = Py.lower (canonical_name e)
    /\ start m = t_start first
    /\ end_ m = t_end (last (first :: rest) first).
Proof.
  intros Hget He Hlen Hw Hjoin Hx1 Hx2 Hctx.
  unfold collect_raw_matches.
  set (toks := finditer (Py.lower text)) in *.
  assert (Hnth : nth_error toks idx = Some first).
  { rewrite <- (firstn_skipn idx toks) at 1.
    rewrite nth_error_app2 by (rewrite length_firstn; lia).
    rewrite length_firstn.
    replace (idx - Nat.min idx (List.length toks))%nat with 0%nat by lia.
    destruct (skipn idx toks) as [|t ts]; [destruct (tokens e); discriminate|].
    destruct (tokens e); [discriminate|]. cbn in Hw. now inversion Hw. }
  destruct (nth_combine_seq toks 0 idx first Hnth) as (pre & post & Eits).
  rewrite Eits, fold_left_app. cbn [fold_left Nat.add].
  set (st0 := fold_left (scan_token self text toks) pre
                        {| raw_matches := []; seen_spans := [] |}).
  assert (Hst0 : forall key, In key (seen_spans st0) ->
            exists m, In m (raw_matches st0)
                      /\ key = (Py.lower (canonical_name (entry m)),
                                (start m, end_ m))).
  { apply scan_seen. intros key []. }
  assert (Hstep : exists m,
            In m (raw_matches (scan_token self text toks st0 (idx, first)))
            /\ Py.lower (canonical_name (entry m)) = Py.lower (canonical_name e)
            /\ start m = t_start first
            /\ end_ m = t_end (last (first :: rest) first)).
  { unfold scan_token. cbn [fst snd]. rewrite Hget.
    apply in_split in He. destruct He as (l1 & l2 & ->).
    rewrite fold_left_app. cbn [fold_left].
    set (st1 := fold_left (try_candidate self text toks idx) l1 st0).
    assert (Hst1 : forall key, In key (seen_spans st1) ->
              exists m, In m (raw_matches st1)
                        /\ key = (Py.lower (canonical_name (entry m)),
                                  (start m, end_ m))).
    { subst st1. now apply candidates_seen. }
    destruct (try_candidate_finds self text toks idx st1 e first rest
                Hst1 Hlen Hw Hjoin Hx1 Hx2 Hctx) as (m & Hm & Hprops).
    exists m. split; [|exact Hprops]. now apply candidates_keep. }
  destruct Hstep as (m & Hm & Hprops).
  exists m. split; [|exact Hprops]. now apply scan_keeps.
Qed.

Lemma no_less_specific_refl (m : SkillMatch) : no_less_specific m m.
Proof.
  unfold no_less_specific, more_specific. apply pair_ltb_false. right.
  split; [reflexivity | lia].
Qed.

Lemma walk_covered (l filtered : list SkillMatch) :
  StronglySorted no_less_specific l ->
  (forall k m, In k filtered -> In m l -> no_less_specific k m) ->
  forall m,
    In m l ->
    exists k, In k (fold_left keep_disjoint l filtered)
              /\ (k = m \/ _spans_overlap m k = true)
              /\ no_less_specific k m.
Proof.
  revert filtered. induction l as [|x l IH]; intros filtered Hsorted Hfil m Hm;
    [destruct Hm|].
  inversion Hsorted as [|? ? Hs Hx]; subst. cbn [fold_left].
  destruct Hm as [->|Hm].
  - destruct (keep_disjoint_cases filtered m) as [[-> (k & Hk & Ho)]|[-> _]].
    + exists k. split; [now apply walk_keeps|]. split; [now right|].
      apply Hfil; [exact Hk | now left].
    + exists m. split; [apply walk_keeps, in_or_app; right; now left|].
      split; [now left | apply no_less_specific_refl].
  - apply IH; [exact Hs| |exact Hm].
    intros k m' Hk Hm'.
    destruct (keep_disjoint_cases filtered x) as [[E _]|[E _]];
      rewrite E in Hk.
    + apply Hfil; [exact Hk | now right].
    + apply in_app_or in Hk. destruct Hk as [Hk|[<-|[]]].
      * apply Hfil; [exact Hk | now right].
      * rewrite Forall_forall in Hx. now apply Hx.
Qed.

(** X30: the scanner misses no occurrence of a phrase of the index.  Where
    the tokens of the lower-cased text, from some position on, are the tokens
    of an entry that is filed under the first of them, the name and the
    phrase of the entry are not excluded and the entry is valid in the
    context of the span, there is a raw match of that name on that span; and
    [match] returns this match or one that overlaps it and is no less
    specific. *)
Theorem occurrence_is_covered
        (self : t) (text : string) (idx : nat) (e : SkillEntry)
        (first : Token) (rest : list Token) (bucket : list SkillEntry) :
  Dict.get (group first) (index self) = Some bucket ->
  In e bucket ->
  (idx + List.length (tokens e)
   <= List.length (finditer (Py.lower text)))%nat ->
  firstn (List.length (tokens e)) (skipn idx (finditer (Py.lower text)))
  = first :: rest ->
  Py.join " " (map group (first :: rest)) = normalized e ->
  Py.mem (Py.lower (canonical_name e)) (excluded self) = false ->
  Py.mem (normalized e) (excluded self) = false ->
  context_is_valid e
    (_extract_context text (t_start first)
                      (t_end (last (first :: rest) first))) = true ->
  exists m k,
    In m (collect_raw_matches self text)
    /\ Py.lower (canonical_name (entry m)) = Py.lower (canonical_name e)
    /\ start m = t_start first
    /\ end_ m = t_end (last (first :: rest) first)
    /\ In k (match_ self text)
    /\ (k = m \/ _spans_overlap m k = true)
    /\ more_specific m k = false.
Proof.
  intros Hget He Hlen Hw Hjoin Hx1 Hx2 Hctx.
  destruct (raw_match_of_occurrence self text idx e first rest bucket
              Hget He Hlen Hw Hjoin Hx1 Hx2 Hctx) as (m & Hm & H1 & H2 & H3).
  destruct (walk_covered (sort_by_specificity (collect_raw_matches self text)) []
              (sort_by_specificity_sorted _)
              ltac:(intros k m' [])
              m) as (k & Hk & Hcov & Hspec).
  { apply sort_In. exact Hm. }
  exists m, k. rewrite match_unfolded.
  repeat split; auto.
  apply sort_In. exact Hk.
Qed.

Lemma occurrence_is_covered_witness :
  let self := Sample.matcher Sample.chain_skills in
  let first := {| group := "gamma"; t_start := 11; t_end := 16 |} in
  let rest := [ {| group := "delta"; t_start := 17; t_end := 22 |} ] in
  exists m k,
    In m (collect_raw_matches self Sample.chain_text)
    /\ Py.lower (canonical_name (entry m))
       = Py.lower (canonical_name (entry Sample.gamma_delta_match))
    /\ start m = t_start first
    /\ end_ m = t_end (last (first :: rest) first)
    /\ In k (match_ self Sample.chain_text)
    /\ (k = m \/ _spans_overlap m k = true)
    /\ more_specific m k = false.
Proof.
  intros self first rest.
  apply (occurrence_is_covered
           self Sample.chain_text 2 (entry Sample.gamma_delta_match)
           first rest [entry Sample.gamma_delta_match]).
  - vm_compute. reflexivity.
  - left. reflexivity.
  - vm_compute. lia.
  - vm_compute. reflexivity.
  - vm_compute. reflexivity.
  - vm_compute. reflexivity.
  - vm_compute. reflexivity.
  - vm_compute. reflexivity.
Defined.

End Occurrences.
